(** * PDF data extraction tool: a shallow embedding of the extraction,
    tabulation and analysis code, and the properties proved about it.

    Sources embedded: [src/pdf_extractor.py] (PDFExtractor,
    InvoiceExtractor, ReportExtractor), [src/data_processor.py]
    (DataProcessor, DataAnalyzer), the choice of charts of
    [src/visualizer.py] and the batch functions of [src/main.py].

    Conventions of the embedding.
    - Text is a [string] of code points 0..255.  The character classes
      below are Python's classes restricted to that range.
    - A Python [float] is a rational number ([Q]): decimal literals and
      the arithmetic on them are exact.  A standard deviation is carried
      by its square (the variance), and the comparison [abs z > t] is
      decided on the squares.  The rounding of float arithmetic is not
      modelled: a statement about the statistics is made only where the
      computation is exact in floats as well (whole numbers of moderate
      size) or where its truth does not depend on how a value is rounded.
    - A raised exception is the [Raise] case of [result].
    - pdfplumber and the file system are inputs: a file system maps a
      path to what is stored there, a readable PDF being the list of its
      pages (text and raw tables).
    - pandas' [to_datetime] takes the format parser [strptime] as a
      parameter; [pandas_strptime] is the instance used to run examples. *)

From Stdlib Require Import List String Ascii Bool Arith ZArith QArith Lia Lqa Sorted.
Import ListNotations.

Local Open Scope list_scope.
Local Open Scope string_scope.

(** ** Python exceptions and results *)

Inductive exn : Type :=
| FileNotFoundError
| ValueError
| AttributeError
| KeyError
| TypeError
| PDFSyntaxError.

Inductive result (A : Type) : Type :=
| Ok (a : A)
| Raise (e : exn).

Arguments Ok {A} a.
Arguments Raise {A} e.

Definition bind {A B : Type} (r : result A) (k : A -> result B) : result B :=
  match r with
  | Ok a => k a
  | Raise e => Raise e
  end.

Notation "x <- r ;; k" := (bind r (fun x => k))
  (at level 61, r at next level, right associativity).

Definition raises {A : Type} (r : result A) : Prop :=
  exists e, r = Raise e.

Definition returns {A : Type} (r : result A) : Prop :=
  exists a, r = Ok a.

(** ** Characters and strings, as Python's [str] methods see them *)

Definition code (c : ascii) : nat := nat_of_ascii c.

Definition between (lo hi n : nat) : bool := (lo <=? n)%nat && (n <=? hi)%nat.

(** [\d] *)
Definition is_digit (c : ascii) : bool := between 48 57 (code c).

(** [\s] and [str.isspace] *)
Definition is_space (c : ascii) : bool :=
  between 9 13 (code c) || between 28 32 (code c)
  || (code c =? 133)%nat || (code c =? 160)%nat.

Definition is_upper (c : ascii) : bool := between 65 90 (code c).
Definition is_lower (c : ascii) : bool := between 97 122 (code c).
Definition is_alpha (c : ascii) : bool := is_upper c || is_lower c.

(** [str.lower] on one character *)
Definition lower_char (c : ascii) : ascii :=
  let n := code c in
  if between 65 90 n || (between 192 222 n && negb (n =? 215)%nat)
  then ascii_of_nat (n + 32)
  else c.

Fixpoint lower (s : string) : string :=
  match s with
  | EmptyString => EmptyString
  | String c s' => String (lower_char c) (lower s')
  end.

Definition nl : ascii := ascii_of_nat 10.

Fixpoint lstrip (s : string) : string :=
  match s with
  | EmptyString => EmptyString
  | String c s' => if is_space c then lstrip s' else s
  end.

Fixpoint rstrip (s : string) : string :=
  match s with
  | EmptyString => EmptyString
  | String c s' =>
      match rstrip s' with
      | EmptyString => if is_space c then EmptyString else String c EmptyString
      | r => String c r
      end
  end.

(** [s.strip()] *)
Definition strip (s : string) : string := rstrip (lstrip s).

(** [s.startswith(p)] *)
Fixpoint startswith (p s : string) : bool :=
  match p, s with
  | EmptyString, _ => true
  | String a p', String b s' => Ascii.eqb a b && startswith p' s'
  | String _ _, EmptyString => false
  end.

(** [s.endswith(p)] *)
Fixpoint endswith (p s : string) : bool :=
  String.eqb p s ||
  match s with
  | EmptyString => false
  | String _ s' => endswith p s'
  end.

(** [p in s] *)
Fixpoint contains (p s : string) : bool :=
  startswith p s ||
  match s with
  | EmptyString => false
  | String _ s' => contains p s'
  end.

(** [s.replace(a, b)] for single characters, and deletion of a character *)
Fixpoint replace_char (a b : ascii) (s : string) : string :=
  match s with
  | EmptyString => EmptyString
  | String c s' =>
      String (if Ascii.eqb c a then b else c) (replace_char a b s')
  end.

Fixpoint remove_char (a : ascii) (s : string) : string :=
  match s with
  | EmptyString => EmptyString
  | String c s' =>
      if Ascii.eqb c a then remove_char a s' else String c (remove_char a s')
  end.

(** [text.split('\n')]: never the empty list *)
Fixpoint split_lines (s : string) : list string :=
  match s with
  | EmptyString => [EmptyString]
  | String c s' =>
      if Ascii.eqb c nl then EmptyString :: split_lines s'
      else match split_lines s' with
           | l :: ls => String c l :: ls
           | [] => [String c EmptyString]
           end
  end.

(** [float(s)] on the unsigned decimal literals the patterns capture
    (digits, optionally a point and digits); any other string is the
    [ValueError] case. *)
Definition digit_val (c : ascii) : Z := Z.of_nat (code c) - 48.

Fixpoint all_digits (s : string) : bool :=
  match s with
  | EmptyString => true
  | String c s' => is_digit c && all_digits s'
  end.

Fixpoint digits_val (acc : Z) (s : string) : Z :=
  match s with
  | EmptyString => acc
  | String c s' => digits_val (10 * acc + digit_val c) s'
  end.

Fixpoint split_point (s : string) : string * option string :=
  match s with
  | EmptyString => (EmptyString, None)
  | String c s' =>
      if Ascii.eqb c "." then (EmptyString, Some s')
      else let (i, f) := split_point s' in (String c i, f)
  end.

Definition float (s : string) : option Q :=
  match split_point s with
  | (EmptyString, _) => None
  | (i, None) =>
      if all_digits i then Some (inject_Z (digits_val 0 i)) else None
  | (_, Some EmptyString) => None
  | (i, Some f) =>
      if all_digits i && all_digits f
      then Some (Qred (Qmake (digits_val 0 (i ++ f))
                             (Pos.pow 10 (Pos.of_nat (String.length f)))))
      else None
  end.

(** ** Regular-expression pieces

    Each matcher works at the head of its argument and returns what it
    captured together with the unconsumed rest.  The quantifiers of the
    source patterns are greedy, and in every pattern the element after a
    quantified one cannot match a character the quantified one accepts
    (or nothing follows it), so the greedy choice is the only one that
    can succeed and no backtracking is modelled. *)

(** [re.search]: the leftmost position at which the pattern matches. *)
Fixpoint search {A : Type} (m : string -> option A) (s : string) : option A :=
  match m s with
  | Some r => Some r
  | None =>
      match s with
      | EmptyString => None
      | String _ s' => search m s'
      end
  end.

(** A literal under [re.IGNORECASE]; the literal is given in lower case. *)
Fixpoint lit_ci (p s : string) : option string :=
  match p, s with
  | EmptyString, _ => Some s
  | String a p', String b s' =>
      if Ascii.eqb a (lower_char b) then lit_ci p' s' else None
  | String _ _, EmptyString => None
  end.

(** [c?] *)
Definition opt_char (a : ascii) (s : string) : string :=
  match s with
  | String c s' => if Ascii.eqb c a then s' else s
  | EmptyString => s
  end.

(** [\s*] *)
Fixpoint skip_spaces (s : string) : string :=
  match s with
  | EmptyString => EmptyString
  | String c s' => if is_space c then skip_spaces s' else s
  end.

(** [\s+] *)
Definition spaces1 (s : string) : option string :=
  match s with
  | String c s' => if is_space c then Some (skip_spaces s') else None
  | EmptyString => None
  end.

(** [[class]*], greedy: the longest prefix in the class and the rest. *)
Fixpoint span (p : ascii -> bool) (s : string) : string * string :=
  match s with
  | EmptyString => (EmptyString, EmptyString)
  | String c s' =>
      if p c then let (a, r) := span p s' in (String c a, r)
      else (EmptyString, s)
  end.

(** [\d{0,n}], greedy. *)
Fixpoint take_digits (n : nat) (s : string) : string * string :=
  match n, s with
  | S n', String c s' =>
      if is_digit c then let (d, r) := take_digits n' s' in (String c d, r)
      else (EmptyString, s)
  | _, _ => (EmptyString, s)
  end.

(** [\d{lo,hi}], greedy. *)
Definition digits_range (lo hi : nat) (s : string) : option (string * string) :=
  let (d, r) := take_digits hi s in
  if (lo <=? String.length d)%nat then Some (d, r) else None.

(** [(?:,\d{3})*], greedy. *)
Fixpoint comma_groups (s : string) : string * string :=
  match s with
  | String c0 (String c1 (String c2 (String c3 s'))) =>
      if Ascii.eqb c0 "," && is_digit c1 && is_digit c2 && is_digit c3
      then let (g, r) := comma_groups s' in
           (String c0 (String c1 (String c2 (String c3 g))), r)
      else (EmptyString, s)
  | _ => (EmptyString, s)
  end.

(** [(?:\.\d{2})?], greedy. *)
Definition fraction (s : string) : string * string :=
  match s with
  | String c0 (String c1 (String c2 s')) =>
      if Ascii.eqb c0 "." && is_digit c1 && is_digit c2
      then (String c0 (String c1 (String c2 EmptyString)), s')
      else (EmptyString, s)
  | _ => (EmptyString, s)
  end.

(** [(\d{1,3}(?:,\d{3})*(?:\.\d{2})?)] *)
Definition number (s : string) : option (string * string) :=
  match digits_range 1 3 s with
  | None => None
  | Some (d, r1) =>
      let (g, r2) := comma_groups r1 in
      let (f, r3) := fraction r2 in
      Some (d ++ g ++ f, r3)
  end.

(** [[\/\-\.]] *)
Definition is_date_sep (c : ascii) : bool :=
  Ascii.eqb c "/" || Ascii.eqb c "-" || Ascii.eqb c ".".

Definition date_sep (s : string) : option (ascii * string) :=
  match s with
  | String c s' => if is_date_sep c then Some (c, s') else None
  | EmptyString => None
  end.

(** [[A-Z0-9\-]] under [re.IGNORECASE] *)
Definition is_invoice_char (c : ascii) : bool :=
  is_alpha c || is_digit c || Ascii.eqb c "-".

(** [[A-Za-z\s]] *)
Definition is_label_char (c : ascii) : bool := is_alpha c || is_space c.

(** ** Python dictionaries: insertion-ordered, assignment overwrites *)

Fixpoint dict_set {V : Type} (k : string) (v : V) (d : list (string * V))
  : list (string * V) :=
  match d with
  | [] => [(k, v)]
  | (k', v') :: d' =>
      if String.eqb k k' then (k', v) :: d' else (k', v') :: dict_set k v d'
  end.

Fixpoint dict_get {V : Type} (k : string) (d : list (string * V)) : option V :=
  match d with
  | [] => None
  | (k', v') :: d' => if String.eqb k k' then Some v' else dict_get k d'
  end.

Definition dict_keys {V : Type} (d : list (string * V)) : list string :=
  map fst d.

(** ** Indexing by label

    [row[col]], [df.loc[idx, column]] and [series[idx]] give the one cell
    under the label when the label occurs once, and the cells of all its
    occurrences, as a [Series], when it occurs more than once. *)

Inductive reading (A : Type) : Type :=
| One (a : A)
| Many (l : list A).

Arguments One {A} a.
Arguments Many {A} l.

(** The cells whose label is [l], in order *)
Definition under {L A : Type} (eqb : L -> L -> bool) (l : L)
  (labels : list L) (cells : list A) : list A :=
  map snd (filter (fun lc => eqb l (fst lc)) (combine labels cells)).

Definition read {A : Type} (hits : list A) : reading A :=
  match hits with
  | [a] => One a
  | _ => Many hits
  end.

Definition loc {L A : Type} (eqb : L -> L -> bool) (l : L)
  (labels : list L) (cells : list A) : reading A :=
  read (under eqb l labels cells).

(** ** The document source (pdfplumber) and the file system *)

Definition raw_table : Type := list (list (option string)).

Record Page : Type := {
  page_text : option string;      (* page.extract_text() *)
  page_tables : list raw_table    (* page.extract_tables() *)
}.

Inductive file : Type :=
| PdfFile (pages : list Page)     (* pdfplumber.open succeeds *)
| OtherFile.                      (* pdfplumber.open raises *)

Definition filesystem : Type := string -> option file.

(** [pd.DataFrame(table[1:], columns=table[0])] *)
Record Table : Type := {
  columns : list (option string);
  rows : list (list (option string))
}.

(** ** src/pdf_extractor.py: class PDFExtractor *)

Record PDFExtractor : Type := { pdf_path : string }.

Definition _validate_file (fs : filesystem) (self : PDFExtractor)
  : result unit :=
  match fs (pdf_path self) with
  | None => Raise FileNotFoundError
  | Some _ =>
      if negb (endswith ".pdf" (lower (pdf_path self)))
      then Raise ValueError
      else Ok tt
  end.

Definition __init__ (fs : filesystem) (path : string) : result PDFExtractor :=
  let self := {| pdf_path := path |} in
  _ <- _validate_file fs self ;;
  Ok self.

(** [pdfplumber.open(self.pdf_path)] *)
Definition pdf_open (fs : filesystem) (self : PDFExtractor)
  : result (list Page) :=
  match fs (pdf_path self) with
  | Some (PdfFile pages) => Ok pages
  | Some OtherFile => Raise PDFSyntaxError
  | None => Raise FileNotFoundError
  end.

(** [if text:] *)
Definition truthy_text (t : option string) : option string :=
  match t with
  | Some (String c s) => Some (String c s)
  | _ => None
  end.

Fixpoint page_texts (pages : list Page) : list string :=
  match pages with
  | [] => []
  | p :: ps =>
      match truthy_text (page_text p) with
      | Some t => t :: page_texts ps
      | None => page_texts ps
      end
  end.

Definition extract_text (fs : filesystem) (self : PDFExtractor)
  : result (list string) :=
  pages <- pdf_open fs self ;;
  Ok (page_texts pages).

Fixpoint frames (ts : list raw_table) : list Table :=
  match ts with
  | [] => []
  | [] :: ts' => frames ts'
  | (header :: body) :: ts' =>
      {| columns := header; rows := body |} :: frames ts'
  end.

Definition extract_tables (fs : filesystem) (self : PDFExtractor)
  : result (list Table) :=
  pages <- pdf_open fs self ;;
  Ok (flat_map (fun p => frames (page_tables p)) pages).

(** ** src/pdf_extractor.py: class InvoiceExtractor *)

Definition item : Type := list (string * reading (option string)).

Record InvoiceData : Type := {
  invoice_number : option string;
  invoice_date : option string;
  total_amount : option Q;
  vendor : option string;
  line_items : list item
}.

(** [r'Invoice\s*#?:?\s*([A-Z0-9\-]+)'] with [re.IGNORECASE]; group 1 *)
Definition invoice_pattern (s : string) : option string :=
  match lit_ci "invoice" s with
  | None => None
  | Some r =>
      match span is_invoice_char
              (skip_spaces (opt_char ":" (opt_char "#" (skip_spaces r)))) with
      | (EmptyString, _) => None
      | (g, _) => Some g
      end
  end.

(** [(\d{1,2}[\/\-\.]\d{1,2}[\/\-\.]\d{2,4})] *)
Definition date_token (s : string) : option string :=
  match digits_range 1 2 s with
  | None => None
  | Some (a, r1) =>
  match date_sep r1 with
  | None => None
  | Some (p, r2) =>
  match digits_range 1 2 r2 with
  | None => None
  | Some (b, r3) =>
  match date_sep r3 with
  | None => None
  | Some (q, r4) =>
  match digits_range 2 4 r4 with
  | None => None
  | Some (c, _) => Some (a ++ String p b ++ String q c)
  end end end end end.

(** [r'Date:?\s*(\d{1,2}[\/\-\.]\d{1,2}[\/\-\.]\d{2,4})'] with
    [re.IGNORECASE]; group 1 *)
Definition date_pattern (s : string) : option string :=
  match lit_ci "date" s with
  | None => None
  | Some r => date_token (skip_spaces (opt_char ":" r))
  end.

(** First alternative: [Total:?\s*\$?(number)] *)
Definition total_labelled (s : string) : option string :=
  match lit_ci "total" s with
  | None => None
  | Some r =>
      option_map fst (number (opt_char "$" (skip_spaces (opt_char ":" r))))
  end.

(** Second alternative: [\$(number)] *)
Definition bare_currency (s : string) : option string :=
  match s with
  | String c r => if Ascii.eqb c "$" then option_map fst (number r) else None
  | EmptyString => None
  end.

(** [r'Total:?\s*\$?(...)|\$(...)'] with [re.IGNORECASE]: at one position
    the first alternative is tried before the second; the result is
    (group 1, group 2). *)
Definition amount_pattern (s : string) : option (option string * option string) :=
  match total_labelled s with
  | Some g => Some (Some g, None)
  | None =>
      match bare_currency s with
      | Some g => Some (None, Some g)
      | None => None
      end
  end.

(** [a or b] on optional strings *)
Definition py_or (a b : option string) : option string :=
  match a with
  | Some (String _ _) => a
  | _ => b
  end.

Definition keywords : list string := ["price"; "amount"; "total"; "cost"].

(** [[col for col in table.columns
      if any(keyword in col.lower() for keyword in keywords)]];
    a header cell that is [None] has no [lower]. *)
Fixpoint price_columns (cols : list (option string))
  : result (list string) :=
  match cols with
  | [] => Ok []
  | None :: _ => Raise AttributeError
  | Some col :: cols' =>
      rest <- price_columns cols' ;;
      Ok (if existsb (fun keyword => contains keyword (lower col)) keywords
          then col :: rest else rest)
  end.

(** [table.columns] once every header cell is known to be a string *)
Fixpoint column_names (cols : list (option string)) : list string :=
  match cols with
  | [] => []
  | Some col :: cols' => col :: column_names cols'
  | None :: cols' => column_names cols'
  end.

(** [{col: row[col] for col in table.columns}], the row being positional
    under the header: a header cell that occurs once is the key of the
    cell below it, a header cell that occurs several times is the key of
    all the cells below its occurrences. *)
Definition row_item (cols : list string) (row : list (option string)) : item :=
  fold_left (fun d col => dict_set col (loc String.eqb col cols row) d) cols [].

(** The loop over [tables] that fills [invoice_data["line_items"]] *)
Fixpoint table_items (tables : list Table) : result (list item) :=
  match tables with
  | [] => Ok []
  | table :: tables' =>
      price_cols <- price_columns (columns table) ;;
      rest <- table_items tables' ;;
      Ok (match price_cols with
          | [] => rest
          | _ :: _ =>
              (map (row_item (column_names (columns table))) (rows table)
               ++ rest)%list
          end)
  end.

Definition empty_invoice : InvoiceData :=
  {| invoice_number := None; invoice_date := None; total_amount := None;
     vendor := None; line_items := [] |}.

(** The field assignments of [extract_invoice_data] made from the text of
    the first page. *)
Definition invoice_fields (text : string) : result InvoiceData :=
  let number_field :=
    match search invoice_pattern text with
    | Some g => Some (strip g)
    | None => None
    end in
  let date_field := search date_pattern text in
  amount_field <-
    match search amount_pattern text with
    | Some (g1, g2) =>
        match py_or g1 g2 with
        | Some (String c a) =>
            match float (remove_char "," (String c a)) with
            | Some q => Ok (Some q)
            | None => Raise ValueError
            end
        | _ => Ok None
        end
    | None => Ok None
    end ;;
  let vendor_field :=
    match split_lines text with
    | line :: _ => Some (strip line)
    | [] => None
    end in
  Ok {| invoice_number := number_field; invoice_date := date_field;
        total_amount := amount_field; vendor := vendor_field;
        line_items := [] |}.

Definition extract_invoice_data (fs : filesystem) (self : PDFExtractor)
  : result InvoiceData :=
  pages <- extract_text fs self ;;
  match pages with
  | [] => Ok empty_invoice
  | text :: _ =>
      data <- invoice_fields text ;;
      tables <- extract_tables fs self ;;
      items <- table_items tables ;;
      Ok {| invoice_number := invoice_number data;
            invoice_date := invoice_date data;
            total_amount := total_amount data;
            vendor := vendor data;
            line_items := items |}
  end.

(** ** src/pdf_extractor.py: class ReportExtractor *)

Inductive metric : Type :=
| MFloat (q : Q)
| MStr (s : string).

Record ReportData : Type := {
  title : option string;
  report_date : option string;
  summary : option string;
  key_metrics : list (string * metric);
  tables : list Table
}.

(** [r'([A-Za-z\s]+):\s*\$?(number)']: (group 1, group 2) and the rest of
    the text after the match. *)
Definition metric_pattern (s : string) : option ((string * string) * string) :=
  match span is_label_char s with
  | (EmptyString, _) => None
  | (label, String c r) =>
      if Ascii.eqb c ":" then
        match number (opt_char "$" (skip_spaces r)) with
        | Some (v, rest) => Some ((label, v), rest)
        | None => None
        end
      else None
  | (_, EmptyString) => None
  end.

(** [re.finditer]: the matches from left to right, each search resuming
    where the previous match ended.  Every match consumes a character, so
    a fuel of one more than the length of the text is never exhausted. *)
Fixpoint finditer_fuel {A : Type} (m : string -> option (A * string))
  (fuel : nat) (s : string) : list A :=
  match fuel with
  | O => []
  | S fuel' =>
      match m s with
      | Some (a, rest) => a :: finditer_fuel m fuel' rest
      | None =>
          match s with
          | EmptyString => []
          | String _ s' => finditer_fuel m fuel' s'
          end
      end
  end.

Definition finditer {A : Type} (m : string -> option (A * string))
  (s : string) : list A :=
  finditer_fuel m (S (String.length s)) s.

(** The body of the loop over [metric_matches] *)
Definition store_metric (d : list (string * metric)) (mt : string * string)
  : list (string * metric) :=
  let key := strip (fst mt) in
  let value := remove_char "," (snd mt) in
  match float value with
  | Some q => dict_set key (MFloat q) d
  | None => dict_set key (MStr value) d
  end.

Definition extract_key_metrics (text : string) : list (string * metric) :=
  fold_left store_metric (finditer metric_pattern text) [].

(** [(?:Summary|Abstract|Executive\s+Summary)] with [re.IGNORECASE] *)
Definition summary_heading (s : string) : option string :=
  match lit_ci "summary" s with
  | Some r => Some r
  | None =>
      match lit_ci "abstract" s with
      | Some r => Some r
      | None =>
          match lit_ci "executive" s with
          | Some r =>
              match spaces1 r with
              | Some r' => lit_ci "summary" r'
              | None => None
              end
          | None => None
          end
      end
  end.

(** [(?=\n\n|\n[A-Z]|\Z)] with [re.IGNORECASE] *)
Definition at_boundary (s : string) : bool :=
  match s with
  | EmptyString => true
  | String c r =>
      Ascii.eqb c nl &&
      match r with
      | String d _ => Ascii.eqb d nl || is_alpha d
      | EmptyString => false
      end
  end.

(** [(.*?)] before the lookahead, with [re.DOTALL]: the shortest text
    after which the lookahead holds. *)
Fixpoint lazy_body (s : string) : string :=
  if at_boundary s then EmptyString
  else match s with
       | EmptyString => EmptyString
       | String c r => String c (lazy_body r)
       end.

(** [r'(?:Summary|Abstract|Executive\s+Summary):(.*?)(?=\n\n|\n[A-Z]|\Z)'];
    group 1 *)
Definition summary_pattern (s : string) : option string :=
  match summary_heading s with
  | Some (String c r) =>
      if Ascii.eqb c ":" then Some (lazy_body r) else None
  | _ => None
  end.

Definition extract_report_data (fs : filesystem) (self : PDFExtractor)
  : result ReportData :=
  pages <- extract_text fs self ;;
  tables <- extract_tables fs self ;;
  match pages with
  | [] =>
      Ok {| title := None; report_date := None; summary := None;
            key_metrics := []; tables := tables |}
  | text :: _ =>
      Ok {| title :=
              match split_lines text with
              | line :: _ => Some (strip line)
              | [] => None
              end;
            report_date := search date_pattern text;
            summary :=
              match search summary_pattern text with
              | Some g => Some (strip g)
              | None => None
              end;
            key_metrics := extract_key_metrics text;
            tables := tables |}
  end.

(** ** pandas: values, series and frames

    A cell is null ([None], [NaN] or [NaT]), a number, a string, a
    timestamp at midnight or a monthly period.  A frame keeps its columns
    in order. *)

Record Date : Type := { year : Z; month : Z; day : Z }.

(** A monthly period, [Period('2023-01', 'M')] *)
Record Period : Type := { p_year : Z; p_month : Z }.

Inductive value : Type :=
| VNull
| VNum (q : Q)
| VStr (s : string)
| VDate (d : Date)
| VPeriod (p : Period).

Inductive dtype : Type :=
| DObject
| DNumber
| DDatetime
| DPeriod.

Record Series : Type := { s_dtype : dtype; s_values : list value }.

Inductive Index : Type :=
| RangeIndex (n : nat)
| LabelIndex (name : string) (labels : list value).

Record DataFrame : Type := {
  df_index : Index;
  df_columns : list (string * Series)
}.

(** [pd.DataFrame()] *)
Definition empty_frame : DataFrame :=
  {| df_index := RangeIndex 0; df_columns := [] |}.

Definition index_length (i : Index) : nat :=
  match i with
  | RangeIndex n => n
  | LabelIndex _ labels => List.length labels
  end.

(** [df.empty]: some axis has length zero *)
Definition empty (df : DataFrame) : bool :=
  (index_length (df_index df) =? 0)%nat
  || (List.length (df_columns df) =? 0)%nat.

Definition is_null (v : value) : bool :=
  match v with
  | VNull => true
  | _ => false
  end.

(** Equality of row labels *)
Definition value_eqb (a b : value) : bool :=
  match a, b with
  | VNull, VNull => true
  | VNum p, VNum q => Qeq_bool p q
  | VStr s, VStr t => String.eqb s t
  | VDate d, VDate e =>
      (year d =? year e)%Z && (month d =? month e)%Z && (day d =? day e)%Z
  | VPeriod p, VPeriod q =>
      (p_year p =? p_year q)%Z && (p_month p =? p_month q)%Z
  | _, _ => false
  end.

(** [series.isna().all()] *)
Definition isna_all (s : Series) : bool := forallb is_null (s_values s).

Definition is_number_or_null (v : value) : bool :=
  match v with
  | VNull | VNum _ => true
  | _ => false
  end.

(** The dtype pandas infers for a column built from Python objects. *)
Definition infer_dtype (vs : list value) : dtype :=
  if forallb is_null vs then DObject
  else if forallb is_number_or_null vs then DNumber
  else DObject.

Definition record : Type := list (string * value).

(** Column labels of [pd.DataFrame(records)]: the keys in first-seen order *)
Definition add_key (acc : list string) (k : string) : list string :=
  if existsb (String.eqb k) acc then acc else (acc ++ [k])%list.

Definition union_keys (records : list record) : list string :=
  fold_left (fun acc r => fold_left add_key (dict_keys r) acc) records [].

Definition cell (k : string) (r : record) : value :=
  match dict_get k r with
  | Some v => v
  | None => VNull
  end.

(** [pd.DataFrame(records)] *)
Definition frame_of_records (records : list record) : DataFrame :=
  {| df_index := RangeIndex (List.length records);
     df_columns :=
       map (fun k =>
              let vs := map (cell k) records in
              (k, {| s_dtype := infer_dtype vs; s_values := vs |}))
           (union_keys records) |}.

(** [name in df.columns] and [df[name]] *)
Definition column (name : string) (df : DataFrame) : option Series :=
  dict_get name (df_columns df).

(** [df[name] = s] *)
Definition set_column (name : string) (s : Series) (df : DataFrame)
  : DataFrame :=
  {| df_index := df_index df; df_columns := dict_set name s (df_columns df) |}.

Fixpoint drop_column (name : string) (cols : list (string * Series))
  : list (string * Series) :=
  match cols with
  | [] => []
  | (k, s) :: cols' =>
      if String.eqb name k then cols' else (k, s) :: drop_column name cols'
  end.

(** [df.set_index(name, inplace=True)] *)
Definition set_index (name : string) (df : DataFrame) : DataFrame :=
  match column name df with
  | Some s =>
      {| df_index := LabelIndex name (s_values s);
         df_columns := drop_column name (df_columns df) |}
  | None => df
  end.

Definition of_string (o : option string) : value :=
  match o with
  | Some s => VStr s
  | None => VNull
  end.

Definition of_float (o : option Q) : value :=
  match o with
  | Some q => VNum q
  | None => VNull
  end.

Definition of_len {A : Type} (l : list A) : value :=
  VNum (inject_Z (Z.of_nat (List.length l))).

Definition of_metric (m : metric) : value :=
  match m with
  | MFloat q => VNum q
  | MStr s => VStr s
  end.

(** ** src/data_processor.py: class DataProcessor *)

(** An entry of [data_list]: the dictionary built by one of the two
    extractors.  [data.get(key)] is [None] for a key the dictionary does
    not have. *)
Inductive Data : Type :=
| Invoice (d : InvoiceData)
| Report (d : ReportData).

Definition get_invoice_number (data : Data) : option string :=
  match data with
  | Invoice d => invoice_number d
  | Report _ => None
  end.

Definition get_date (data : Data) : option string :=
  match data with
  | Invoice d => invoice_date d
  | Report d => report_date d
  end.

Definition get_vendor (data : Data) : option string :=
  match data with
  | Invoice d => vendor d
  | Report _ => None
  end.

Definition get_total_amount (data : Data) : option Q :=
  match data with
  | Invoice d => total_amount d
  | Report _ => None
  end.

Definition get_line_items (data : Data) : list item :=
  match data with
  | Invoice d => line_items d
  | Report _ => []
  end.

Definition get_title (data : Data) : option string :=
  match data with
  | Invoice _ => None
  | Report d => title d
  end.

Definition get_summary (data : Data) : option string :=
  match data with
  | Invoice _ => None
  | Report d => summary d
  end.

Definition get_tables (data : Data) : list Table :=
  match data with
  | Invoice _ => []
  | Report d => tables d
  end.

Definition get_key_metrics (data : Data) : list (string * metric) :=
  match data with
  | Invoice _ => []
  | Report d => key_metrics d
  end.

Record DataProcessor : Type := {
  data_list : list Data;
  processed_data : DataFrame
}.

Definition DataProcessor__init__ (data_list : list Data) : DataProcessor :=
  {| data_list := data_list; processed_data := empty_frame |}.

Definition add_data (self : DataProcessor) (data : Data) : DataProcessor :=
  {| data_list := (data_list self ++ [data])%list;
     processed_data := processed_data self |}.

Definition date_formats : list string :=
  ["%m/%d/%Y"; "%d/%m/%Y"; "%m-%d-%Y"; "%d-%m-%Y"; "%m.%d.%Y"; "%d.%m.%Y"].

Definition invoice_info (data : Data) : record :=
  [("invoice_number", of_string (get_invoice_number data));
   ("date", of_string (get_date data));
   ("vendor", of_string (get_vendor data));
   ("total_amount", of_float (get_total_amount data));
   ("line_item_count", of_len (get_line_items data))].

Definition safe_key (key : string) : string :=
  lower (replace_char " " "_" key).

Definition report_info (data : Data) : record :=
  fold_left
    (fun report_dict kv =>
       dict_set ("metric_" ++ safe_key (fst kv)) (of_metric (snd kv))
                report_dict)
    (get_key_metrics data)
    [("title", of_string (get_title data));
     ("date", of_string (get_date data));
     ("summary", of_string (get_summary data));
     ("table_count", of_len (get_tables data))].

Section Tabulation.

(** [strptime fmt s]: the timestamp ([VDate]) or [NaT] ([VNull]) that
    pandas parses from [s] under format [fmt], or [None] when the
    string does not parse. *)
Variable strptime : string -> string -> option value.

Definition parse_value (fmt : string) (v : value) : option value :=
  match v with
  | VNull => Some VNull
  | VStr s => strptime fmt s
  | VDate d => Some (VDate d)
  | VNum _ | VPeriod _ => None
  end.

Fixpoint parse_all (fmt : string) (vs : list value) : option (list value) :=
  match vs with
  | [] => Some []
  | v :: vs' =>
      match parse_value fmt v, parse_all fmt vs' with
      | Some d, Some ds => Some (d :: ds)
      | _, _ => None
      end
  end.

(** [pd.to_datetime(s, format=fmt, errors='ignore')]: a series that is
    already of datetime dtype is returned as it is; otherwise every
    value parses and the series becomes a datetime series, or the
    input is returned unchanged. *)
Definition to_datetime (s : Series) (fmt : string) : result Series :=
  match s_dtype s with
  | DDatetime => Ok s
  | _ =>
      match parse_all fmt (s_values s) with
      | Some ds => Ok {| s_dtype := DDatetime; s_values := ds |}
      | None => Ok s
      end
  end.

(** The loop over the date formats, with its [try ... except: continue] *)
Definition try_formats (s : Series) : Series :=
  fold_left
    (fun s date_format =>
       match to_datetime s date_format with
       | Ok s' => s'
       | Raise _ => s
       end)
    date_formats s.

(** [if 'date' in df.columns and not df['date'].isna().all(): ...] *)
Definition convert_dates (df : DataFrame) : DataFrame :=
  match column "date" df with
  | Some s =>
      if negb (isna_all s) then set_column "date" (try_formats s) df
      else df
  | None => df
  end.

Definition process_invoice_data (self : DataProcessor)
  : DataProcessor * DataFrame :=
  match data_list self with
  | [] => (self, empty_frame)
  | _ :: _ =>
      let df := frame_of_records (map invoice_info (data_list self)) in
      let df := convert_dates df in
      let df :=
        match column "invoice_number" df with
        | Some s =>
            if negb (isna_all s) then set_index "invoice_number" df else df
        | None => df
        end in
      ({| data_list := data_list self; processed_data := df |}, df)
  end.

Definition process_report_data (self : DataProcessor)
  : DataProcessor * DataFrame :=
  match data_list self with
  | [] => (self, empty_frame)
  | _ :: _ =>
      let df := frame_of_records (map report_info (data_list self)) in
      let df := convert_dates df in
      ({| data_list := data_list self; processed_data := df |}, df)
  end.

End Tabulation.

(** The three export methods return what they hand to the writer. *)
Definition save_to_csv (self : DataProcessor) : result DataFrame :=
  if empty (processed_data self) then Raise ValueError
  else Ok (processed_data self).

Definition save_to_excel (self : DataProcessor) : result DataFrame :=
  if empty (processed_data self) then Raise ValueError
  else Ok (processed_data self).

Definition export_as_json (self : DataProcessor) : result (list Data) :=
  Ok (data_list self).

(** ** An instance of the format parser

    pandas compiles a format into a regular expression, matches it at the
    head of the string, requires the match to reach the end of the string
    and then checks the calendar date and the range of nanosecond
    timestamps.  The directives of [date_formats] are covered:
    [%m] is [1[0-2]|0[1-9]|[1-9]], [%d] is
    [3[0-1]|[1-2]\d|0[1-9]|[1-9]| [1-9]], [%Y] is [\d\d\d\d]. *)

Inductive directive : Type :=
| Dm
| Dd
| DY
| Lit (c : ascii).

Fixpoint directives (fmt : string) : option (list directive) :=
  match fmt with
  | EmptyString => Some []
  | String c EmptyString =>
      if Ascii.eqb c "%" then None else Some [Lit c]
  | String c (String c' r as r') =>
      if Ascii.eqb c "%" then
        match directives r with
        | None => None
        | Some ds =>
            if Ascii.eqb c' "m" then Some (Dm :: ds)
            else if Ascii.eqb c' "d" then Some (Dd :: ds)
            else if Ascii.eqb c' "Y" then Some (DY :: ds)
            else None
        end
      else option_map (cons (Lit c)) (directives r')
  end.

Definition in_range (lo hi : Z) (c : ascii) : bool :=
  (lo <=? digit_val c)%Z && (digit_val c <=? hi)%Z.

(** The alternatives of a directive that match at the head of [s], in the
    order of the regular expression: the value read and the rest. *)
Definition month_alts (s : string) : list (Z * string) :=
  (match s with
   | String a (String b r) =>
       (if Ascii.eqb a "1" && in_range 0 2 b then [(10 + digit_val b, r)] else [])
       ++ (if Ascii.eqb a "0" && in_range 1 9 b then [(digit_val b, r)] else [])
   | _ => []
   end ++
   match s with
   | String a r => if in_range 1 9 a then [(digit_val a, r)] else []
   | EmptyString => []
   end)%list%Z.

Definition day_alts (s : string) : list (Z * string) :=
  (match s with
   | String a (String b r) =>
       (if Ascii.eqb a "3" && in_range 0 1 b then [(30 + digit_val b, r)] else [])
       ++ (if in_range 1 2 a && is_digit b
           then [(10 * digit_val a + digit_val b, r)] else [])
       ++ (if Ascii.eqb a "0" && in_range 1 9 b then [(digit_val b, r)] else [])
   | _ => []
   end ++
   match s with
   | String a r => if in_range 1 9 a then [(digit_val a, r)] else []
   | EmptyString => []
   end ++
   match s with
   | String a (String b r) =>
       if Ascii.eqb a " " && in_range 1 9 b then [(digit_val b, r)] else []
   | _ => []
   end)%list%Z.

Definition year_alts (s : string) : list (Z * string) :=
  match s with
  | String a (String b (String c (String d r))) =>
      if is_digit a && is_digit b && is_digit c && is_digit d
      then [(digits_val 0 (String a (String b (String c (String d EmptyString)))), r)]
      else []
  | _ => []
  end.

Fixpoint first_some {A B : Type} (f : A -> option B) (l : list A) : option B :=
  match l with
  | [] => None
  | a :: l' =>
      match f a with
      | Some b => Some b
      | None => first_some f l'
      end
  end.

(** The first match of the compiled format at the head of [s]; the
    fields start from [strptime]'s defaults. *)
Fixpoint match_directives (ds : list directive) (s : string) (acc : Date)
  : option (Date * string) :=
  match ds with
  | [] => Some (acc, s)
  | Lit c :: ds' =>
      match s with
      | String c' s' =>
          if Ascii.eqb c c' then match_directives ds' s' acc else None
      | EmptyString => None
      end
  | Dm :: ds' =>
      first_some
        (fun vr => match_directives ds' (snd vr)
                     {| year := year acc; month := fst vr; day := day acc |})
        (month_alts s)
  | Dd :: ds' =>
      first_some
        (fun vr => match_directives ds' (snd vr)
                     {| year := year acc; month := month acc; day := fst vr |})
        (day_alts s)
  | DY :: ds' =>
      first_some
        (fun vr => match_directives ds' (snd vr)
                     {| year := fst vr; month := month acc; day := day acc |})
        (year_alts s)
  end.

Definition is_leap (y : Z) : bool :=
  ((y mod 4 =? 0) && (negb (y mod 100 =? 0) || (y mod 400 =? 0)))%Z.

Definition days_in_month (y m : Z) : Z :=
  (if m =? 2 then (if is_leap y then 29 else 28)
   else if (m =? 4) || (m =? 6) || (m =? 9) || (m =? 11) then 30
   else 31)%Z.

Definition valid_date (d : Date) : bool :=
  ((1 <=? month d) && (month d <=? 12) && (1 <=? day d)
   && (day d <=? days_in_month (year d) (month d)))%Z.

Definition ordinal (d : Date) : Z := ((year d * 16 + month d) * 32 + day d)%Z.

(** Midnight timestamps that fit 64-bit nanoseconds since 1970:
    1677-09-22 to 2262-04-11. *)
Definition in_bounds (d : Date) : bool :=
  ((ordinal {| year := 1677; month := 9; day := 22 |} <=? ordinal d)
   && (ordinal d <=? ordinal {| year := 2262; month := 4; day := 11 |}))%Z.

Definition nat_strings : list string :=
  ["NaT"; "nat"; "NAT"; "nan"; "NaN"; "NAN"].

Definition pandas_strptime (fmt s : string) : option value :=
  if (String.length s =? 0)%nat || existsb (String.eqb s) nat_strings
  then Some VNull
  else
    match directives fmt with
    | None => None
    | Some ds =>
        match match_directives ds s {| year := 1900; month := 1; day := 1 |} with
        | Some (d, EmptyString) =>
            if valid_date d && in_bounds d then Some (VDate d) else None
        | _ => None
        end
    end.

(** ** src/data_processor.py: class DataAnalyzer *)

(** A float that may be infinite or not a number *)
Inductive fnum : Type :=
| Fin (q : Q)
| PInf
| NInf
| NaN.

(** [a / b] on finite floats *)
Definition fdiv (a b : Q) : fnum :=
  if Qeq_bool b 0 then
    if Qeq_bool a 0 then NaN
    else if Qle_bool 0 a then PInf else NInf
  else Fin (a / b)%Q.

(** [x + c] and [x * c] for a finite [c], [0 < c] in the second *)
Definition fadd (x : fnum) (c : Q) : fnum :=
  match x with
  | Fin q => Fin (Qred (q + c))
  | other => other
  end.

Definition fscale (x : fnum) (c : Q) : fnum :=
  match x with
  | Fin q => Fin (Qred (q * c))
  | other => other
  end.

Inductive insight : Type :=
| IError (msg : string)
| ISeries (entries : list (Period * fnum)).

Definition insights_dict : Type := list (string * insight).

Record DataAnalyzer : Type := {
  data : DataFrame;
  insights : insights_dict
}.

Definition DataAnalyzer__init__ (data : DataFrame) : DataAnalyzer :=
  {| data := data; insights := [] |}.

(** [series.dt.to_period('M')] on one value *)
Definition to_period (v : value) : value :=
  match v with
  | VDate d => VPeriod {| p_year := year d; p_month := month d |}
  | _ => VNull
  end.

Definition period_ord (p : Period) : Z := (p_year p * 12 + p_month p)%Z.

(** One row added to the groups of [groupby(...).sum()]; the groups are
    kept in increasing order of their key. *)
Fixpoint add_to_group (p : Period) (q : Q) (groups : list (Period * Q))
  : list (Period * Q) :=
  match groups with
  | [] => [(p, q)]
  | (p', q') :: groups' =>
      match (period_ord p ?= period_ord p')%Z with
      | Lt => (p, q) :: groups
      | Eq => (p', Qred (q' + q)) :: groups'
      | Gt => (p', q') :: add_to_group p q groups'
      end
  end.

(** [df.groupby(key)[column].sum()]: rows whose key is null are dropped,
    a null value adds nothing to its group. *)
Definition groupby_sum (keys vals : list value) : list (Period * Q) :=
  fold_left
    (fun groups kv =>
       match fst kv with
       | VPeriod p =>
           add_to_group p
             (match snd kv with VNum q => q | _ => 0%Q end) groups
       | _ => groups
       end)
    (combine keys vals) [].

(** [series.pct_change()]: nothing to compare the first entry with *)
Fixpoint pct_change_from (prev : Q) (l : list (Period * Q))
  : list (Period * fnum) :=
  match l with
  | [] => []
  | (p, q) :: l' => (p, fadd (fdiv q prev) (-1)) :: pct_change_from q l'
  end.

Definition pct_change (l : list (Period * Q)) : list (Period * fnum) :=
  match l with
  | [] => []
  | (p, q) :: l' => (p, NaN) :: pct_change_from q l'
  end.

Definition is_nan (x : fnum) : bool :=
  match x with
  | NaN => true
  | _ => false
  end.

(** [series.dropna()] *)
Definition dropna (l : list (Period * fnum)) : list (Period * fnum) :=
  filter (fun kv => negb (is_nan (snd kv))) l.

(** [select_dtypes(include=['number'])] on one column *)
Definition is_number_dtype (s : Series) : bool :=
  match s_dtype s with
  | DNumber => true
  | _ => false
  end.

(** The basic statistics, [sum()], [mean()], [max()] and [min()] of a
    column: a [TypeError] unless the cells are numbers or null. *)
Definition basic_statistics (s : Series) : result unit :=
  match s_dtype s with
  | DNumber => Ok tt
  | DObject =>
      if forallb is_number_or_null (s_values s) then Ok tt
      else Raise TypeError
  | DDatetime | DPeriod => Raise TypeError
  end.

(** [groupby('vendor')['total_amount'].sum().nlargest(3)]: [nlargest]
    refuses a column that is not of a numeric dtype, as is the object
    column of amounts that are all [None]. *)
Definition top_vendors_by_spend (s : Series) : result unit :=
  if is_number_dtype s then Ok tt else Raise TypeError.

(** The entries of the time-series block, from the monthly totals: the
    month-over-month change is written when there is more than one
    month. *)
Definition monthly_insights (monthly_totals : list (Period * Q))
  : insights_dict :=
  let insights :=
    [("monthly_totals",
      ISeries (map (fun kv => (fst kv, Fin (snd kv))) monthly_totals))] in
  if (1 <? List.length monthly_totals)%nat then
    let monthly_pct_changes :=
      map (fun kv => (fst kv, fscale (snd kv) 100))
          (pct_change monthly_totals) in
    dict_set "monthly_change" (ISeries (dropna monthly_pct_changes)) insights
  else insights.

(** The time-series block of [analyze_invoices] *)
Definition time_series_analysis (self : DataAnalyzer)
  : result (DataAnalyzer * insights_dict) :=
  match column "date" (data self) with
  | Some {| s_dtype := DDatetime; s_values := dates |} =>
      let months := map to_period dates in
      let data' :=
        set_column "month" {| s_dtype := DPeriod; s_values := months |}
                   (data self) in
      match column "total_amount" data' with
      | None => Raise KeyError
      | Some amounts =>
          let insights :=
            monthly_insights (groupby_sum months (s_values amounts)) in
          Ok ({| data := data'; insights := insights |}, insights)
      end
  | _ => Ok ({| data := data self; insights := [] |}, [])
  end.

(** [analyze_invoices]: the early return, the exceptions of the basic
    statistics and of the vendor analysis, and the entries of the
    time-series block.  The entries of the basic statistics and of the
    vendor analysis are not tracked. *)
Definition analyze_invoices (self : DataAnalyzer)
  : result (DataAnalyzer * insights_dict) :=
  if empty (data self) then
    Ok (self, [("error", IError "No data available for analysis")])
  else
    u <- match column "total_amount" (data self) with
         | Some amounts => basic_statistics amounts
         | None => Ok tt
         end ;;
    v <- match column "vendor" (data self), column "total_amount" (data self) with
         | Some _, Some amounts => top_vendors_by_spend amounts
         | _, _ => Ok tt
         end ;;
    time_series_analysis self.

(** The non-null numbers of a column *)
Fixpoint numbers (vs : list value) : list Q :=
  match vs with
  | [] => []
  | VNum q :: vs' => q :: numbers vs'
  | _ :: vs' => numbers vs'
  end.

Definition qsum (xs : list Q) : Q := fold_right Qplus 0%Q xs.

Definition qlen (xs : list Q) : Q := inject_Z (Z.of_nat (List.length xs)).

(** [series.mean()]: [None] is [NaN] *)
Definition series_mean (vs : list value) : option Q :=
  match numbers vs with
  | [] => None
  | xs => Some (Qred (qsum xs / qlen xs))
  end.

(** The square of [series.std(ddof=ddof)]: the squared deviations from the
    mean, summed and divided by the count less [ddof]; [NaN] when the
    count does not exceed [ddof]. *)
Definition series_var (ddof : nat) (vs : list value) : option Q :=
  let xs := numbers vs in
  match series_mean vs with
  | None => None
  | Some mean =>
      if (List.length xs <=? ddof)%nat then None
      else Some (Qred (qsum (map (fun x => (x - mean) * (x - mean))%Q xs)
                       / inject_Z (Z.of_nat (List.length xs - ddof))))
  end.

(** [abs(dev / std) > threshold] for [0 < std], decided on the squares *)
Definition exceeds (dev var threshold : Q) : bool :=
  if negb (Qle_bool 0 threshold) then true
  else negb (Qle_bool (dev * dev) (threshold * threshold * var)).

(** One reported anomaly.  ['value'] and ['z_score'] are read back by row
    label; ['z_score'] is [a_deviation / sqrt a_variance], cell by cell,
    and ['std'] is [sqrt a_variance]. *)
Record Anomaly : Type := {
  a_index : value;
  a_column : string;
  a_value : reading value;
  a_deviation : reading value;
  a_mean : Q;
  a_variance : Q
}.

(** [df.index] as a list of row labels *)
Definition index_labels (i : Index) : list value :=
  match i with
  | RangeIndex n => map (fun k => VNum (inject_Z (Z.of_nat k))) (seq 0 n)
  | LabelIndex _ labels => labels
  end.

(** [series - mean] on one cell: a null cell stays null *)
Definition deviation (mean : Q) (v : value) : value :=
  match v with
  | VNum x => VNum (Qred (x - mean))
  | _ => VNull
  end.

(** [abs(z_scores) > threshold] on one cell: [NaN] compares false *)
Definition flagged (var threshold : Q) (d : value) : bool :=
  match d with
  | VNum dev => exceeds dev var threshold
  | _ => false
  end.

(** The anomalies of one numeric column, [std] being taken with [ddof].
    [anomaly_indices] holds the labels of the flagged rows, in row order;
    for each of them the value and the z-score are read back by label
    ([self.data.loc[idx, column]] and [z_scores[idx]]), which under a
    label that occurs more than once gives the cells of all its rows.  A
    null value has a [NaN] z-score and is never flagged. *)
Definition column_anomalies (ddof : nat) (threshold : Q)
  (labels : list value) (name : string) (s : Series) : list Anomaly :=
  match series_mean (s_values s), series_var ddof (s_values s) with
  | Some mean, Some var =>
      if Qeq_bool var 0 then []
      else
        let deviations := map (deviation mean) (s_values s) in
        let anomaly_indices :=
          map fst (filter (fun lz => flagged var threshold (snd lz))
                          (combine labels deviations)) in
        map (fun idx =>
               {| a_index := idx; a_column := name;
                  a_value := loc value_eqb idx labels (s_values s);
                  a_deviation := loc value_eqb idx labels deviations;
                  a_mean := mean; a_variance := var |})
            anomaly_indices
  | _, _ => []
  end.

Definition anomalies_ddof (ddof : nat) (self : DataAnalyzer) (threshold : Q)
  : list Anomaly :=
  if empty (data self) then []
  else
    flat_map
      (fun c => column_anomalies ddof threshold
                  (index_labels (df_index (data self))) (fst c) (snd c))
      (filter (fun c => is_number_dtype (snd c)) (df_columns (data self))).

(** [get_anomalies]: [Series.std()] is called with its default, [ddof=1] *)
Definition get_anomalies (self : DataAnalyzer) (threshold : Q) : list Anomaly :=
  anomalies_ddof 1 self threshold.


(** The column labels of a frame of invoice rows *)
Definition invoice_keys : list string :=
  ["invoice_number"; "date"; "vendor"; "total_amount"; "line_item_count"].

(** ** src/visualizer.py: class DataVisualizer, the choice of charts

    Drawing a figure and writing it to a file belong to matplotlib; they
    are the parameter [draw], which may raise.  Of the insights only the
    entry ['anomalies'] is read: [v_anomalies] is [None] when the
    dictionary has no such key. *)

Inductive chart : Type :=
| InvoiceSummary
| ReportSummary
| AnomalyChart.

Record DataVisualizer : Type := {
  v_data : DataFrame;
  v_anomalies : option (list Anomaly)
}.

(** [os.path.join(a, b)] *)
Definition path_join (a b : string) : string :=
  if startswith "/" b then b
  else if String.eqb a EmptyString || endswith "/" a then a ++ b
  else a ++ "/" ++ b.

(** [col in self.data.columns] *)
Definition has_column (name : string) (df : DataFrame) : bool :=
  existsb (String.eqb name) (dict_keys (df_columns df)).

(** [[col for col in self.data.columns if col.startswith('metric_')]] *)
Definition metric_columns (df : DataFrame) : list string :=
  filter (startswith "metric_") (dict_keys (df_columns df)).

Definition save_visualizations (draw : chart -> result unit)
  (self : DataVisualizer) (output_dir prefix : string) : result (list string) :=
  saved_files <-
    (if has_column "vendor" (v_data self)
        || has_column "total_amount" (v_data self)
     then _ <- draw InvoiceSummary ;;
          Ok [path_join output_dir (prefix ++ "_invoice_summary.png")]
     else Ok []) ;;
  saved_files <-
    (match metric_columns (v_data self) with
     | _ :: _ =>
         _ <- draw ReportSummary ;;
         Ok (saved_files
             ++ [path_join output_dir (prefix ++ "_report_summary.png")])%list
     | [] => Ok saved_files
     end) ;;
  match v_anomalies self with
  | Some (_ :: _) =>
      _ <- draw AnomalyChart ;;
      Ok (saved_files ++ [path_join output_dir (prefix ++ "_anomalies.png")])%list
  | _ => Ok saved_files
  end.

(** ** src/main.py: process_invoices and process_reports, from the list of
    files to the three exports

    [pdf_files] is the result of [glob.glob].  The ['filename'] entry that
    the loop adds to each record is read by no method of the processor
    and is not represented.  The analysis and the charts that follow the
    exports are not part of these two definitions. *)

Definition invoice_record (fs : filesystem) (extractor : PDFExtractor)
  : result Data :=
  invoice_data <- extract_invoice_data fs extractor ;;
  Ok (Invoice invoice_data).

Definition report_record (fs : filesystem) (extractor : PDFExtractor)
  : result Data :=
  report_data <- extract_report_data fs extractor ;;
  Ok (Report report_data).

(** The body of the [try] block for one file *)
Definition try_file (fs : filesystem)
  (extract : filesystem -> PDFExtractor -> result Data) (pdf_file : string)
  : result Data :=
  extractor <- __init__ fs pdf_file ;;
  extract fs extractor.

(** The loop over the files, with its [except Exception: continue] *)
Definition collect (fs : filesystem)
  (extract : filesystem -> PDFExtractor -> result Data)
  (pdf_files : list string) : DataProcessor :=
  fold_left
    (fun processor pdf_file =>
       match try_file fs extract pdf_file with
       | Ok data => add_data processor data
       | Raise _ => processor
       end)
    pdf_files (DataProcessor__init__ []).

Record Exports : Type := {
  to_csv : DataFrame;
  to_excel : DataFrame;
  to_json : list Data
}.

Definition export_all (processor : DataProcessor) : result Exports :=
  csv <- save_to_csv processor ;;
  excel <- save_to_excel processor ;;
  json <- export_as_json processor ;;
  Ok {| to_csv := csv; to_excel := excel; to_json := json |}.

(** [None] is the early [return {}]. *)
Definition process_invoices_exports
  (strptime : string -> string -> option value) (fs : filesystem)
  (pdf_files : list string) : result (option Exports) :=
  match pdf_files with
  | [] => Ok None
  | _ :: _ =>
      let processor := collect fs invoice_record pdf_files in
      let (processor, df) := process_invoice_data strptime processor in
      if empty df then Ok None
      else exports <- export_all processor ;; Ok (Some exports)
  end.

Definition process_reports_exports
  (strptime : string -> string -> option value) (fs : filesystem)
  (pdf_files : list string) : result (option Exports) :=
  match pdf_files with
  | [] => Ok None
  | _ :: _ =>
      let processor := collect fs report_record pdf_files in
      let (processor, df) := process_report_data strptime processor in
      if empty df then Ok None
      else exports <- export_all processor ;; Ok (Some exports)
  end.

(** The records of the files that load and extract without error, in the
    order of the files *)
Definition extracted (fs : filesystem)
  (extract : filesystem -> PDFExtractor -> result Data)
  (pdf_files : list string) : list Data :=
  flat_map
    (fun pdf_file =>
       match try_file fs extract pdf_file with
       | Ok data => [data]
       | Raise _ => []
       end)
    pdf_files.

(** ** Driving a processor: sequences of method calls *)

Inductive call : Type :=
| AddData (d : Data)
| ProcessInvoice
| ProcessReport.

Definition step (strptime : string -> string -> option value)
  (self : DataProcessor) (c : call) : DataProcessor :=
  match c with
  | AddData d => add_data self d
  | ProcessInvoice => fst (process_invoice_data strptime self)
  | ProcessReport => fst (process_report_data strptime self)
  end.

Definition run (strptime : string -> string -> option value)
  (self : DataProcessor) (calls : list call) : DataProcessor :=
  fold_left (step strptime) calls self.

Definition is_add (c : call) : bool :=
  match c with
  | AddData _ => true
  | _ => false
  end.

(** ** The wording of the specification, for comparison with the code *)

(** The text before the first newline *)
Fixpoint first_line (s : string) : string :=
  match s with
  | EmptyString => EmptyString
  | String c s' => if Ascii.eqb c nl then EmptyString else String c (first_line s')
  end.

(** "first non-empty line of page-one text" *)
Definition first_nonempty_line (text : string) : option string :=
  find (fun line => negb (String.eqb line EmptyString)) (split_lines text).

(** "ends in '.pdf' case-insensitively" *)
Definition ends_in_pdf (path : string) : Prop :=
  exists stem c1 c2 c3,
    path = stem ++ String "." (String c1 (String c2 (String c3 EmptyString)))
    /\ (c1 = "p" \/ c1 = "P")%char
    /\ (c2 = "d" \/ c2 = "D")%char
    /\ (c3 = "f" \/ c3 = "F")%char.

(** "a Total-labelled number is authoritative; a bare currency-prefixed
    number only when no Total label matches anywhere in the text" *)
Definition labelled_total_first (text : string) : option string :=
  match search total_labelled text with
  | Some g => Some g
  | None => search bare_currency text
  end.

(** "the first candidate format that parses every non-null value of the
    column determines the dates of the entire column; if none does, the
    column is left as raw strings" *)
Definition parses_nonnull (strptime : string -> string -> option value)
  (fmt : string) (vs : list value) : bool :=
  forallb
    (fun v =>
       is_null v ||
       match parse_value strptime fmt v with
       | Some _ => true
       | None => false
       end)
    vs.

Definition parsed_or_null (strptime : string -> string -> option value)
  (fmt : string) (v : value) : value :=
  match parse_value strptime fmt v with
  | Some d => d
  | None => VNull
  end.

Definition column_wide_dates (strptime : string -> string -> option value)
  (vs : list value) : Series :=
  match find (fun fmt => parses_nonnull strptime fmt vs) date_formats with
  | Some fmt =>
      {| s_dtype := DDatetime; s_values := map (parsed_or_null strptime fmt) vs |}
  | None => {| s_dtype := DObject; s_values := vs |}
  end.

(** "no field pattern matches" *)
Definition invoice_patterns_miss (text : string) : Prop :=
  search invoice_pattern text = None
  /\ search date_pattern text = None
  /\ search amount_pattern text = None.

Definition report_patterns_miss (text : string) : Prop :=
  search date_pattern text = None
  /\ finditer metric_pattern text = []
  /\ search summary_pattern text = None.

Definition all_tables (pages : list Page) : list Table :=
  flat_map (fun p => frames (page_tables p)) pages.

Definition no_price_table (ts : list Table) : Prop :=
  forall t, In t ts -> price_columns (columns t) = Ok [].

Definition headers_are_text (ts : list Table) : Prop :=
  forall t c, In t ts -> In c (columns t) -> c <> None.

(** "parsed dates all fall within a single calendar month" *)
Definition single_month (dates : list value) : Prop :=
  forall d1 d2, In (VDate d1) dates -> In (VDate d2) dates ->
    year d1 = year d2 /\ month d1 = month d2.

(** The pattern [m] matches at no position inside [pre] of the text
    [pre ++ s]. *)
Fixpoint misses {A : Type} (m : string -> option A) (pre s : string) : bool :=
  match pre with
  | EmptyString => true
  | String c pre' =>
      match m (pre ++ s) with
      | Some _ => false
      | None => misses m pre' s
      end
  end.

(** A text that is empty or ends in a character that cannot belong to a
    label: a label that follows it starts a new run of label characters. *)
Fixpoint ends_outside_label (s : string) : bool :=
  match s with
  | EmptyString => true
  | String c EmptyString => negb (is_label_char c)
  | String _ s' => ends_outside_label s'
  end.

Fixpoint forall_chars (p : ascii -> bool) (s : string) : bool :=
  match s with
  | EmptyString => true
  | String c s' => p c && forall_chars p s'
  end.

(** A matcher that consumes at least one character when it matches *)
Definition consuming {A : Type} (m : string -> option (A * string)) : Prop :=
  forall s a r, m s = Some (a, r) -> (String.length r < String.length s)%nat.

(** The order of the groups of [groupby]: by month, strictly *)
Definition earlier (a b : Period * Q) : Prop :=
  (period_ord (fst a) < period_ord (fst b))%Z.

(** The amounts of the rows that have a date, in row order *)
Fixpoint dated_amounts (dates amounts : list value) : list Q :=
  match dates, amounts with
  | VDate _ :: dates', VNum q :: amounts' => q :: dated_amounts dates' amounts'
  | _ :: dates', _ :: amounts' => dated_amounts dates' amounts'
  | _, _ => []
  end.

(** A string without whitespace at either end *)
Fixpoint last_char (c : ascii) (s : string) : ascii :=
  match s with
  | EmptyString => c
  | String d r => last_char d r
  end.

Definition trimmed (s : string) : bool :=
  match s with
  | EmptyString => true
  | String c r => negb (is_space c) && negb (is_space (last_char c r))
  end.

(** A character of a date token: a digit or one of the separators *)
Definition is_date_char (c : ascii) : bool := is_digit c || is_date_sep c.

(** No line break inside the string is followed by a letter or by another
    line break. *)
Fixpoint no_break (s : string) : bool :=
  match s with
  | String c (String d _ as r) =>
      negb (Ascii.eqb c nl && (Ascii.eqb d nl || is_alpha d)) && no_break r
  | _ => true
  end.

(** The records handed to [add_data] by a sequence of calls, in order *)
Definition added_data (calls : list call) : list Data :=
  flat_map (fun c => match c with AddData d => [d] | _ => [] end) calls.

(** The column labels every frame of reports starts with *)
Definition report_keys : list string :=
  ["title"; "date"; "summary"; "table_count"].

(** [df.columns] *)
Definition labels (df : DataFrame) : list string := dict_keys (df_columns df).

(** A character that a normalised metric key can contain: no blank and no
    upper-case letter A-Z *)
Definition is_safe_char (c : ascii) : bool :=
  negb (Ascii.eqb c " ") && negb (is_upper c).

(** A header cell that names a price: one of the keywords occurs in it,
    in any case; and a table that has such a cell *)
Definition is_price_label (col : string) : bool :=
  existsb (fun keyword => contains keyword (lower col)) keywords.

Definition has_price_header (t : Table) : bool :=
  existsb is_price_label (column_names (columns t)).

(** ** Inputs used in the examples *)

Definition text_page (text : string) : Page :=
  {| page_text := Some text; page_tables := [] |}.

Definition one_file (path : string) (f : file) : filesystem :=
  fun p => if String.eqb p path then Some f else None.

Definition NL : string := String nl EmptyString.

Definition invoice_of (number date : option string) (amount : option Q) : Data :=
  Invoice {| invoice_number := number; invoice_date := date;
             total_amount := amount; vendor := Some "Acme";
             line_items := [] |}.

Definition numeric_frame (name : string) (xs : list Q) : DataFrame :=
  {| df_index := RangeIndex (List.length xs);
     df_columns := [(name, {| s_dtype := DNumber; s_values := map VNum xs |})] |}.

Definition five_points : list Q := [10; 10; 10; 10; 1000]%Q.

(** * Properties *)

(** ** Characters *)

Ltac by_cases_on_char c :=
  destruct c as [[] [] [] [] [] [] [] []]; vm_compute; intuition congruence.

Lemma lower_char_dot : forall c, lower_char c = "."%char -> c = "."%char.
Proof. intro c. by_cases_on_char c. Qed.

Lemma lower_char_p : forall c,
  lower_char c = "p"%char -> (c = "p" \/ c = "P")%char.
Proof. intro c. by_cases_on_char c. Qed.

Lemma lower_char_d : forall c,
  lower_char c = "d"%char -> (c = "d" \/ c = "D")%char.
Proof. intro c. by_cases_on_char c. Qed.

Lemma lower_char_f : forall c,
  lower_char c = "f"%char -> (c = "f" \/ c = "F")%char.
Proof. intro c. by_cases_on_char c. Qed.

Lemma digit_not_point : forall c, is_digit c = true -> Ascii.eqb c "." = false.
Proof. intro c. by_cases_on_char c. Qed.

Lemma digit_not_comma : forall c, is_digit c = true -> Ascii.eqb c "," = false.
Proof. intro c. by_cases_on_char c. Qed.

Lemma digit_not_space : forall c, is_digit c = true -> is_space c = false.
Proof. intro c. by_cases_on_char c. Qed.

Lemma digit_not_label : forall c, is_digit c = true -> is_label_char c = false.
Proof. intro c. by_cases_on_char c. Qed.

Lemma colon_not_label : is_label_char ":" = false.
Proof. reflexivity. Qed.

(** ** Strings *)

Lemma lower_app : forall a b, lower (a ++ b) = lower a ++ lower b.
Proof.
  induction a as [|c a IH]; intro b; simpl.
  - reflexivity.
  - now rewrite IH.
Qed.

Lemma lower_split : forall a b s,
  lower s = a ++ b -> exists x y, s = x ++ y /\ lower x = a /\ lower y = b.
Proof.
  induction a as [|c a IH]; intros b s H.
  - exists EmptyString, s. auto.
  - destruct s as [|c' s']; simpl in H; [discriminate|].
    injection H as Hc Hs.
    destruct (IH _ _ Hs) as (x & y & -> & Hx & Hy).
    exists (String c' x), y. simpl. now rewrite Hc, Hx.
Qed.

Lemma endswith_app : forall p pre, endswith p (pre ++ p) = true.
Proof.
  intros p pre. induction pre as [|c pre IH]; simpl.
  - destruct p; simpl.
    + reflexivity.
    + rewrite Ascii.eqb_refl, String.eqb_refl. reflexivity.
  - rewrite IH. apply orb_true_r.
Qed.

Lemma endswith_inv : forall p s,
  endswith p s = true -> exists pre, s = pre ++ p.
Proof.
  intros p s. induction s as [|c s IH]; intro H.
  - simpl in H. rewrite orb_false_r in H.
    apply String.eqb_eq in H. subst p. now exists EmptyString.
  - simpl in H. apply orb_true_iff in H. destruct H as [H|H].
    + apply String.eqb_eq in H. subst p. now exists EmptyString.
    + destruct (IH H) as [pre ->]. now exists (String c pre).
Qed.

Lemma endswith_pdf_iff : forall path,
  endswith ".pdf" (lower path) = true <-> ends_in_pdf path.
Proof.
  intro path. split.
  - intro H. apply endswith_inv in H. destruct H as [pre H].
    apply lower_split in H. destruct H as (x & y & -> & _ & Hy).
    destruct y as [|c0 [|c1 [|c2 [|c3 [|c4 y]]]]]; simpl in Hy; try discriminate.
    injection Hy as H0 H1 H2 H3.
    apply lower_char_dot in H0. subst c0.
    exists x, c1, c2, c3.
    auto using lower_char_p, lower_char_d, lower_char_f.
  - intros (stem & c1 & c2 & c3 & -> & H1 & H2 & H3).
    rewrite lower_app.
    replace (lower (String "." (String c1 (String c2 (String c3 EmptyString)))))
      with ".pdf".
    + apply endswith_app.
    + destruct H1, H2, H3; subst; reflexivity.
Qed.

(** ** Construction of an extractor *)

(** C9.  Constructing an extractor raises [FileNotFoundError] when the
    path does not exist, otherwise [ValueError] when the path does not end
    in '.pdf' case-insensitively, and otherwise succeeds; the outcome
    depends on the path and on whether it exists, not on what is stored
    there. *)
Theorem validate_file_path_only : forall (fs : filesystem) (path : string),
  (fs path = None -> __init__ fs path = Raise FileNotFoundError)
  /\ (fs path <> None -> ~ ends_in_pdf path ->
      __init__ fs path = Raise ValueError)
  /\ (fs path <> None -> ends_in_pdf path ->
      __init__ fs path = Ok {| pdf_path := path |})
  /\ (forall fs' : filesystem,
        (fs path = None <-> fs' path = None) ->
        __init__ fs path = __init__ fs' path).
Proof.
  intros fs path. unfold __init__, _validate_file. simpl.
  repeat split.
  - intros ->. reflexivity.
  - intros Hex Hext. destruct (fs path); [|congruence].
    destruct (endswith ".pdf" (lower path)) eqn:E; [|reflexivity].
    apply endswith_pdf_iff in E. contradiction.
  - intros Hex Hext. destruct (fs path); [|congruence].
    apply endswith_pdf_iff in Hext. rewrite Hext. reflexivity.
  - intros fs' [H1 H2].
    destruct (fs path) eqn:E, (fs' path) eqn:E'; try reflexivity.
    + specialize (H2 eq_refl). discriminate.
    + specialize (H1 eq_refl). discriminate.
Qed.

Lemma validate_file_path_only_witness :
  __init__ (one_file "scan.PDF" OtherFile) "scan.PDF"
  = Ok {| pdf_path := "scan.PDF" |}
  /\ __init__ (one_file "scan.PDF" OtherFile) "notes.txt"
     = Raise FileNotFoundError.
Proof.
  split.
  - apply (proj1 (proj2 (proj2
      (validate_file_path_only (one_file "scan.PDF" OtherFile) "scan.PDF")))).
    + discriminate.
    + exists "scan", "P"%char, "D"%char, "F"%char. repeat split; auto.
  - apply (proj1
      (validate_file_path_only (one_file "scan.PDF" OtherFile) "notes.txt")).
    reflexivity.
Defined.

(** ** Dictionaries *)

Lemma dict_set_not_nil : forall (V : Type) k (v : V) d, dict_set k v d <> [].
Proof.
  intros V k v d. destruct d as [|[k' v'] d]; simpl.
  - discriminate.
  - destruct (String.eqb k k'); discriminate.
Qed.

Lemma dict_set_keeps_key : forall (V : Type) k k' (v : V) d,
  In k (dict_keys d) -> In k (dict_keys (dict_set k' v d)).
Proof.
  intros V k k' v d. unfold dict_keys.
  induction d as [|[k0 v0] d IH]; simpl; intro H.
  - destruct H.
  - destruct (String.eqb k' k0); simpl; destruct H; auto.
Qed.

Lemma dict_get_set_same : forall (V : Type) k (v : V) d,
  dict_get k (dict_set k v d) = Some v.
Proof.
  intros V k v d. induction d as [|[k' v'] d IH]; simpl.
  - now rewrite String.eqb_refl.
  - destruct (String.eqb k k') eqn:E; simpl; rewrite E; auto.
Qed.

Lemma dict_get_set_other : forall (V : Type) k k' (v : V) d,
  String.eqb k k' = false -> dict_get k (dict_set k' v d) = dict_get k d.
Proof.
  intros V k k' v d Hne. induction d as [|[k0 v0] d IH]; simpl.
  - now rewrite Hne.
  - destruct (String.eqb k' k0) eqn:E; simpl.
    + apply String.eqb_eq in E. subst k0. now rewrite Hne.
    + destruct (String.eqb k k0); auto.
Qed.

Lemma dict_get_map : forall (V : Type) (f : string -> V) k ks,
  dict_get k (map (fun x => (x, f x)) ks)
  = if existsb (String.eqb k) ks then Some (f k) else None.
Proof.
  intros V f k ks. induction ks as [|x ks IH]; simpl.
  - reflexivity.
  - destruct (String.eqb k x) eqn:E; simpl.
    + apply String.eqb_eq in E. now subst.
    + exact IH.
Qed.

(** ** The frame built from records *)

Lemma add_key_grows : forall acc k, acc <> [] -> add_key acc k <> [].
Proof.
  intros acc k H. unfold add_key.
  destruct (existsb (String.eqb k) acc); [assumption|].
  destruct acc; [contradiction|discriminate].
Qed.

Lemma add_key_keeps : forall acc k x,
  existsb (String.eqb x) acc = true ->
  existsb (String.eqb x) (add_key acc k) = true.
Proof.
  intros acc k x H. unfold add_key.
  destruct (existsb (String.eqb k) acc); [assumption|].
  rewrite existsb_app, H. reflexivity.
Qed.

Lemma add_key_adds : forall acc k,
  existsb (String.eqb k) (add_key acc k) = true.
Proof.
  intros acc k. unfold add_key.
  destruct (existsb (String.eqb k) acc) eqn:E; [assumption|].
  rewrite existsb_app. simpl. rewrite String.eqb_refl.
  now rewrite orb_true_r.
Qed.

Lemma add_keys_keep : forall ks acc x,
  existsb (String.eqb x) acc = true ->
  existsb (String.eqb x) (fold_left add_key ks acc) = true.
Proof.
  induction ks as [|k ks IH]; intros acc x H; simpl.
  - assumption.
  - apply IH. now apply add_key_keeps.
Qed.

Lemma union_keys_keep : forall (rs : list record) acc x,
  existsb (String.eqb x) acc = true ->
  existsb (String.eqb x)
    (fold_left (fun acc r => fold_left add_key (dict_keys r) acc) rs acc) = true.
Proof.
  induction rs as [|r rs IH]; intros acc x H; simpl.
  - assumption.
  - apply IH. now apply add_keys_keep.
Qed.

Lemma add_keys_add : forall ks acc x,
  In x ks -> existsb (String.eqb x) (fold_left add_key ks acc) = true.
Proof.
  induction ks as [|k ks IH]; intros acc x H; simpl.
  - destruct H.
  - destruct H as [->|H].
    + apply add_keys_keep, add_key_adds.
    + now apply IH.
Qed.

(** The keys of the first record are column labels of the frame. *)
Lemma union_keys_first : forall (r : record) rs x,
  In x (dict_keys r) -> existsb (String.eqb x) (union_keys (r :: rs)) = true.
Proof.
  intros r rs x H. unfold union_keys. simpl.
  apply union_keys_keep. now apply add_keys_add.
Qed.

Lemma column_of_records : forall (rs : list record) k,
  existsb (String.eqb k) (union_keys rs) = true ->
  column k (frame_of_records rs)
  = Some {| s_dtype := infer_dtype (map (cell k) rs);
            s_values := map (cell k) rs |}.
Proof.
  intros rs k H. unfold column, frame_of_records. simpl.
  rewrite (dict_get_map _
    (fun k => {| s_dtype := infer_dtype (map (cell k) rs);
                 s_values := map (cell k) rs |})).
  now rewrite H.
Qed.

Lemma invoice_keys_stable : forall ds,
  fold_left (fun acc r => fold_left add_key (dict_keys r) acc)
            (map invoice_info ds) invoice_keys = invoice_keys.
Proof.
  induction ds as [|d ds IH]; simpl.
  - reflexivity.
  - exact IH.
Qed.

Lemma union_keys_invoice : forall d ds,
  union_keys (map invoice_info (d :: ds)) = invoice_keys.
Proof.
  intros d ds. unfold union_keys. simpl. apply invoice_keys_stable.
Qed.

(** ** Date normalisation *)

Section Dates.

Variable strptime : string -> string -> option value.

Lemma parse_all_spec : forall fmt vs,
  parse_all strptime fmt vs
  = if parses_nonnull strptime fmt vs
    then Some (map (parsed_or_null strptime fmt) vs) else None.
Proof.
  intros fmt vs. induction vs as [|v vs IH]; simpl.
  - reflexivity.
  - rewrite IH. unfold parsed_or_null.
    destruct v; simpl; try reflexivity;
      try (destruct (parses_nonnull strptime fmt vs); reflexivity).
    destruct (strptime fmt s); simpl; [|reflexivity].
    destruct (parses_nonnull strptime fmt vs); reflexivity.
Qed.

Lemma formats_keep_datetime : forall fmts s,
  s_dtype s = DDatetime ->
  fold_left
    (fun s date_format =>
       match to_datetime strptime s date_format with
       | Ok s' => s'
       | Raise _ => s
       end) fmts s = s.
Proof.
  induction fmts as [|fmt fmts IH]; intros s H; simpl.
  - reflexivity.
  - unfold to_datetime at 2. rewrite H. now apply IH.
Qed.

Lemma formats_first_wins : forall fmts vs,
  fold_left
    (fun s date_format =>
       match to_datetime strptime s date_format with
       | Ok s' => s'
       | Raise _ => s
       end) fmts {| s_dtype := DObject; s_values := vs |}
  = match find (fun fmt => parses_nonnull strptime fmt vs) fmts with
    | Some fmt =>
        {| s_dtype := DDatetime;
           s_values := map (parsed_or_null strptime fmt) vs |}
    | None => {| s_dtype := DObject; s_values := vs |}
    end.
Proof.
  induction fmts as [|fmt fmts IH]; intro vs; simpl.
  - reflexivity.
  - unfold to_datetime at 2. simpl. rewrite parse_all_spec.
    destruct (parses_nonnull strptime fmt vs).
    + now apply formats_keep_datetime.
    + apply IH.
Qed.

Lemma try_formats_column_wide : forall vs,
  try_formats strptime {| s_dtype := DObject; s_values := vs |}
  = column_wide_dates strptime vs.
Proof. intro vs. apply formats_first_wins. Qed.

Lemma nulls_parse : forall fmt vs,
  forallb is_null vs = true ->
  parses_nonnull strptime fmt vs = true
  /\ map (parsed_or_null strptime fmt) vs = vs.
Proof.
  intros fmt vs. induction vs as [|v vs IH]; simpl; intro H.
  - auto.
  - apply andb_true_iff in H. destruct H as [Hv Hvs].
    destruct (IH Hvs) as [IH1 IH2].
    destruct v; try discriminate.
    split.
    + unfold parses_nonnull in *. simpl. exact IH1.
    + simpl. now rewrite IH2.
Qed.

Lemma column_wide_nulls : forall vs,
  forallb is_null vs = true ->
  s_values (column_wide_dates strptime vs) = vs.
Proof.
  intros vs H. unfold column_wide_dates, date_formats. simpl.
  destruct (nulls_parse "%m/%d/%Y" vs H) as [-> ->]. reflexivity.
Qed.

End Dates.

Lemma infer_dtype_strings : forall (l : list (option string)),
  infer_dtype (map of_string l) = DObject.
Proof.
  intro l. unfold infer_dtype.
  destruct (forallb is_null (map of_string l)) eqn:E; [reflexivity|].
  replace (forallb is_number_or_null (map of_string l)) with false;
    [reflexivity|].
  induction l as [|o l IH]; simpl in *.
  - discriminate.
  - destruct o; simpl in *; auto.
Qed.

Lemma date_cells_invoice : forall dl,
  map (cell "date") (map invoice_info dl)
  = map of_string (map get_date dl).
Proof. intro dl. rewrite !map_map. reflexivity. Qed.

Lemma number_cells_invoice : forall dl,
  map (cell "invoice_number") (map invoice_info dl)
  = map of_string (map get_invoice_number dl).
Proof. intro dl. rewrite !map_map. reflexivity. Qed.

Lemma report_cell_kept : forall ms (r : record) k,
  (forall x, String.eqb k ("metric_" ++ x) = false) ->
  dict_get k
    (fold_left
       (fun report_dict (kv : string * metric) =>
          dict_set ("metric_" ++ safe_key (fst kv)) (of_metric (snd kv))
                   report_dict) ms r)
  = dict_get k r.
Proof.
  induction ms as [|m ms IH]; intros r k H; simpl.
  - reflexivity.
  - rewrite IH by assumption.
    apply dict_get_set_other. exact (H (safe_key (fst m))).
Qed.

Lemma report_keys_start : forall ms (r : record) k,
  In k (dict_keys r) ->
  In k (dict_keys
    (fold_left
       (fun report_dict (kv : string * metric) =>
          dict_set ("metric_" ++ safe_key (fst kv)) (of_metric (snd kv))
                   report_dict) ms r)).
Proof.
  induction ms as [|m ms IH]; intros r k H; simpl.
  - assumption.
  - apply IH. now apply dict_set_keeps_key.
Qed.

Lemma date_cells_report : forall dl,
  map (cell "date") (map report_info dl)
  = map of_string (map get_date dl).
Proof.
  intro dl. rewrite !map_map. apply map_ext. intro d.
  unfold cell, report_info. rewrite report_cell_kept; reflexivity.
Qed.

Lemma date_is_report_label : forall d ds,
  existsb (String.eqb "date") (union_keys (map report_info (d :: ds))) = true.
Proof.
  intros d ds. change (map report_info (d :: ds))
    with (report_info d :: map report_info ds).
  apply union_keys_first.
  unfold report_info. apply report_keys_start. simpl. auto.
Qed.

(** ** Tabulation of invoices and reports *)

Lemma invoice_frame_raw : forall d ds,
  frame_of_records (map invoice_info (d :: ds))
  = {| df_index := RangeIndex (S (List.length ds));
       df_columns :=
         map (fun k =>
                (k, {| s_dtype :=
                         infer_dtype (map (cell k) (map invoice_info (d :: ds)));
                       s_values := map (cell k) (map invoice_info (d :: ds)) |}))
             invoice_keys |}.
Proof.
  intros d ds. unfold frame_of_records.
  rewrite union_keys_invoice, length_map. reflexivity.
Qed.

(** The frame of a non-empty list of invoices, column by column. *)
Lemma process_invoice_shape : forall f d ds pd,
  let dl := d :: ds in
  let numbers := {| s_dtype := DObject;
                    s_values := map of_string (map get_invoice_number dl) |} in
  let dates0 := {| s_dtype := DObject;
                   s_values := map of_string (map get_date dl) |} in
  let dates := if negb (isna_all dates0) then try_formats f dates0 else dates0 in
  exists vendors totals counts,
    snd (process_invoice_data f {| data_list := dl; processed_data := pd |})
    = if negb (isna_all numbers)
      then {| df_index := LabelIndex "invoice_number" (s_values numbers);
              df_columns := [("date", dates); ("vendor", vendors);
                             ("total_amount", totals);
                             ("line_item_count", counts)] |}
      else {| df_index := RangeIndex (List.length dl);
              df_columns := [("invoice_number", numbers); ("date", dates);
                             ("vendor", vendors); ("total_amount", totals);
                             ("line_item_count", counts)] |}.
Proof.
  intros f d ds pd dl numbers dates0 dates.
  unfold process_invoice_data. subst dl. cbn [data_list snd].
  rewrite invoice_frame_raw.
  pose proof (date_cells_invoice (d :: ds)) as Hd.
  pose proof (number_cells_invoice (d :: ds)) as Hn.
  set (recs := map invoice_info (d :: ds)) in *.
  unfold convert_dates, column, invoice_keys.
  cbn [map df_columns dict_get String.eqb Ascii.eqb Bool.eqb].
  rewrite Hd, Hn, !infer_dtype_strings.
  fold dates0. fold numbers.
  do 3 eexists.
  unfold dates.
  destruct (negb (isna_all dates0));
    unfold set_column, set_index, column;
    cbn [map df_columns df_index dict_get dict_set drop_column
         String.eqb Ascii.eqb Bool.eqb];
    destruct (negb (isna_all numbers)); reflexivity.
Qed.

Lemma process_invoice_state : forall f self,
  data_list self <> [] ->
  fst (process_invoice_data f self)
  = {| data_list := data_list self;
       processed_data := snd (process_invoice_data f self) |}.
Proof.
  intros f self H. unfold process_invoice_data.
  destruct (data_list self); [contradiction|reflexivity].
Qed.

Lemma process_report_state : forall f self,
  data_list self <> [] ->
  fst (process_report_data f self)
  = {| data_list := data_list self;
       processed_data := snd (process_report_data f self) |}.
Proof.
  intros f self H. unfold process_report_data.
  destruct (data_list self); [contradiction|reflexivity].
Qed.

(** The date column of a frame of reports, and the size of the frame. *)
Lemma process_report_shape : forall f d ds pd,
  let dl := d :: ds in
  let dates0 := {| s_dtype := DObject;
                   s_values := map of_string (map get_date dl) |} in
  let df := snd (process_report_data f {| data_list := dl; processed_data := pd |}) in
  column "date" df
  = Some (if negb (isna_all dates0) then try_formats f dates0 else dates0)
  /\ df_index df = RangeIndex (List.length dl)
  /\ df_columns df <> [].
Proof.
  intros f d ds pd dl dates0 df. subst df dl.
  unfold process_report_data. cbn [data_list snd].
  unfold convert_dates.
  rewrite column_of_records by apply date_is_report_label.
  rewrite date_cells_report, infer_dtype_strings. fold dates0.
  destruct (negb (isna_all dates0)).
  - unfold set_column, column. cbn [df_columns df_index].
    rewrite dict_get_set_same. repeat split.
    + unfold frame_of_records. cbn [df_index]. now rewrite length_map.
    + apply dict_set_not_nil.
  - rewrite column_of_records by apply date_is_report_label.
    rewrite date_cells_report, infer_dtype_strings. repeat split.
    + unfold frame_of_records. cbn [df_index]. now rewrite length_map.
    + unfold frame_of_records. cbn [df_columns].
      pose proof (date_is_report_label d ds) as H.
      destruct (union_keys (map report_info (d :: ds))); [discriminate|].
      discriminate.
Qed.

(** C5.  The date column of the tabulated invoices, and of the tabulated
    reports, holds the dates given by the first format of the ordered
    list that parses every non-null value of the column; the decision is
    taken for the column as a whole, and when no format parses every
    value the column keeps its raw strings.  Nothing is raised. *)
Theorem date_format_column_wide :
  forall (strptime : string -> string -> option value) d ds pd df,
  let self := {| data_list := d :: ds; processed_data := pd |} in
  let raw := map of_string (map get_date (d :: ds)) in
  df = snd (process_invoice_data strptime self)
  \/ df = snd (process_report_data strptime self) ->
  exists s,
    column "date" df = Some s
    /\ s_values s = s_values (column_wide_dates strptime raw)
    /\ (forallb is_null raw = false -> s = column_wide_dates strptime raw).
Proof.
  intros strptime d ds pd df self raw Hdf.
  set (dates0 := {| s_dtype := DObject; s_values := raw |}).
  assert (Hcol : column "date" df
                 = Some (if negb (isna_all dates0)
                         then try_formats strptime dates0 else dates0)).
  { subst self. destruct Hdf as [-> | ->].
    - destruct (process_invoice_shape strptime d ds pd)
        as (vendors & totals & counts & ->).
      fold raw. fold dates0.
      destruct (negb (isna_all _)); reflexivity.
    - apply (process_report_shape strptime d ds pd). }
  rewrite Hcol. eexists. split; [reflexivity|].
  unfold isna_all, dates0. cbn [s_values].
  rewrite try_formats_column_wide.
  destruct (forallb is_null raw) eqn:E; cbn [negb].
  - split; [|discriminate].
    cbn [s_values]. symmetry. now apply column_wide_nulls.
  - auto.
Qed.

Lemma date_format_column_wide_witness :
  exists s,
    column "date"
      (snd (process_invoice_data pandas_strptime
              (DataProcessor__init__
                 [invoice_of (Some "A-1") (Some "13/01/2023") None;
                  invoice_of (Some "A-2") (Some "02/03/2023") None])))
    = Some s
    /\ s = {| s_dtype := DDatetime;
              s_values := [VDate {| year := 2023; month := 1; day := 13 |};
                           VDate {| year := 2023; month := 3; day := 2 |}] |}.
Proof.
  destruct (date_format_column_wide pandas_strptime
              (invoice_of (Some "A-1") (Some "13/01/2023") None)
              [invoice_of (Some "A-2") (Some "02/03/2023") None]
              empty_frame _ (or_introl eq_refl)) as (s & Hs & _ & Heq).
  exists s. split; [exact Hs|].
  rewrite (Heq eq_refl). reflexivity.
Defined.

(** C3 (amended).  The invoice-number column becomes the row index as
    soon as one record has an invoice number; the rows stay positionally
    indexed only when no record has one. *)
Theorem invoice_index_when_any_number :
  forall (strptime : string -> string -> option value) self,
  df_index (snd (process_invoice_data strptime self))
  = if existsb (fun d => match get_invoice_number d with
                         | Some _ => true
                         | None => false
                         end) (data_list self)
    then LabelIndex "invoice_number"
           (map of_string (map get_invoice_number (data_list self)))
    else RangeIndex (List.length (data_list self)).
Proof.
  intros strptime [dl pd]. cbn [data_list].
  destruct dl as [|d ds]; [reflexivity|].
  destruct (process_invoice_shape strptime d ds pd)
    as (vendors & totals & counts & ->).
  unfold isna_all. cbn [s_values].
  replace (forallb is_null (map of_string (map get_invoice_number (d :: ds))))
    with (negb (existsb (fun d => match get_invoice_number d with
                                  | Some _ => true
                                  | None => false
                                  end) (d :: ds))).
  - rewrite negb_involutive. destruct (existsb _ (d :: ds)); reflexivity.
  - generalize (d :: ds). intro l. induction l as [|x l IH]; simpl.
    + reflexivity.
    + rewrite negb_orb, IH. destruct (get_invoice_number x); reflexivity.
Qed.

(** C3, as stated, fails: one record without an invoice number does not
    keep the rows positionally indexed. *)
Lemma index_set_despite_missing_number :
  df_index
    (snd (process_invoice_data pandas_strptime
            (DataProcessor__init__
               [invoice_of (Some "A-1") None None; invoice_of None None None])))
  = LabelIndex "invoice_number" [VStr "A-1"; VNull]
  /\ ~ (exists n,
          df_index
            (snd (process_invoice_data pandas_strptime
                    (DataProcessor__init__
                       [invoice_of (Some "A-1") None None;
                        invoice_of None None None])))
          = RangeIndex n).
Proof.
  split.
  - reflexivity.
  - intros [n H]. vm_compute in H. discriminate.
Qed.

(** ** Export *)

Lemma processed_invoices_not_empty : forall f self,
  data_list self <> [] ->
  empty (snd (process_invoice_data f self)) = false.
Proof.
  intros f [dl pd] H. cbn [data_list] in H.
  destruct dl as [|d ds]; [contradiction|].
  destruct (process_invoice_shape f d ds pd)
    as (vendors & totals & counts & ->).
  destruct (negb (isna_all _)); reflexivity.
Qed.

Lemma processed_reports_not_empty : forall f self,
  data_list self <> [] ->
  empty (snd (process_report_data f self)) = false.
Proof.
  intros f [dl pd] H. cbn [data_list] in H.
  destruct dl as [|d ds]; [contradiction|].
  destruct (process_report_shape f d ds pd) as (_ & Hi & Hc).
  unfold empty. rewrite Hi. cbn [index_length List.length Nat.eqb orb].
  destruct (df_columns _); [contradiction|reflexivity].
Qed.

Lemma run_invariant : forall f (P : DataProcessor -> Prop),
  (forall self c, P self -> P (step f self c)) ->
  forall calls self, P self -> P (run f self calls).
Proof.
  intros f P Hstep. unfold run.
  induction calls as [|c calls IH]; intros self H; simpl.
  - assumption.
  - apply IH. now apply Hstep.
Qed.

(** Without records nothing has been tabulated into the processor. *)
Lemma no_records_no_frame : forall f init_data calls,
  let self := run f (DataProcessor__init__ init_data) calls in
  data_list self = [] -> processed_data self = empty_frame.
Proof.
  intros f init_data calls.
  apply (run_invariant f
           (fun self => data_list self = [] -> processed_data self = empty_frame)).
  - intros self c IH. destruct c; simpl.
    + intro H. destruct (data_list self); discriminate.
    + unfold process_invoice_data.
      destruct (data_list self) eqn:E; simpl; [rewrite E; exact IH|].
      discriminate.
    + unfold process_report_data.
      destruct (data_list self) eqn:E; simpl; [rewrite E; exact IH|].
      discriminate.
  - reflexivity.
Qed.

Lemma only_additions_no_frame : forall f calls self,
  forallb is_add calls = true ->
  processed_data (run f self calls) = processed_data self.
Proof.
  intros f. unfold run.
  induction calls as [|c calls IH]; intros self H; simpl in *.
  - reflexivity.
  - apply andb_true_iff in H. destruct H as [Hc H].
    rewrite IH by assumption. destruct c; try discriminate. reflexivity.
Qed.

(** C2 (amended).  The delimited-file and spreadsheet exports raise
    exactly on an empty processed dataset: before any tabulation, and
    also after tabulations of zero records, which leave the processor as
    it was; after a tabulation of at least one record they return.  The
    JSON export has no precondition and returns in every state. *)
Theorem export_precondition :
  forall (strptime : string -> string -> option value) init_data calls,
  let self := run strptime (DataProcessor__init__ init_data) calls in
  export_as_json self = Ok (data_list self)
  /\ (forallb is_add calls = true ->
      save_to_csv self = Raise ValueError
      /\ save_to_excel self = Raise ValueError)
  /\ (data_list self = [] ->
      fst (process_invoice_data strptime self) = self
      /\ fst (process_report_data strptime self) = self
      /\ save_to_csv self = Raise ValueError
      /\ save_to_excel self = Raise ValueError)
  /\ (data_list self <> [] ->
      returns (save_to_csv (fst (process_invoice_data strptime self)))
      /\ returns (save_to_excel (fst (process_invoice_data strptime self)))
      /\ returns (save_to_csv (fst (process_report_data strptime self)))
      /\ returns (save_to_excel (fst (process_report_data strptime self)))).
Proof.
  intros strptime init_data calls self. split; [reflexivity|]. split; [|split].
  - intro H. unfold save_to_csv, save_to_excel. subst self.
    rewrite only_additions_no_frame by assumption. split; reflexivity.
  - intro H.
    pose proof (no_records_no_frame strptime init_data calls H) as Hf.
    fold self in Hf.
    unfold process_invoice_data, process_report_data, save_to_csv,
      save_to_excel.
    rewrite H, Hf. repeat split; reflexivity.
  - intro H.
    rewrite process_invoice_state, process_report_state by assumption.
    unfold save_to_csv, save_to_excel. cbn [processed_data].
    rewrite processed_invoices_not_empty, processed_reports_not_empty
      by assumption.
    repeat split; eexists; reflexivity.
Qed.

Lemma export_precondition_witness :
  save_to_csv
    (run pandas_strptime (DataProcessor__init__ [])
         [AddData (invoice_of None None None)])
  = Raise ValueError
  /\ returns
       (save_to_csv
          (fst (process_invoice_data pandas_strptime
                  (run pandas_strptime (DataProcessor__init__ [])
                       [AddData (invoice_of None None None)]))))
  /\ save_to_excel
       (run pandas_strptime (DataProcessor__init__ []) [ProcessReport])
     = Raise ValueError.
Proof.
  pose proof (export_precondition pandas_strptime []
                [AddData (invoice_of None None None)]) as (_ & Hadd & _ & Hrun).
  pose proof (export_precondition pandas_strptime [] [ProcessReport])
    as (_ & _ & Hzero & _).
  split; [|split].
  - apply Hadd. reflexivity.
  - apply Hrun. discriminate.
  - apply Hzero. reflexivity.
Defined.

(** C2, as stated, fails twice: the JSON export returns before any
    tabulation, and the delimited-file export raises after a tabulation
    that produced zero rows. *)
Lemma export_json_unguarded_and_csv_raises_on_zero_rows :
  export_as_json (DataProcessor__init__ []) = Ok []
  /\ ~ raises (export_as_json (DataProcessor__init__ []))
  /\ save_to_csv
       (fst (process_invoice_data pandas_strptime (DataProcessor__init__ [])))
     = Raise ValueError.
Proof.
  split; [reflexivity|]. split; [|reflexivity].
  intros [e H]. discriminate.
Qed.

(** ** The number pattern *)

Lemma app_assoc_s : forall a b c : string, (a ++ b) ++ c = a ++ (b ++ c).
Proof.
  induction a as [|x a IH]; intros b c; simpl.
  - reflexivity.
  - now rewrite IH.
Qed.

Lemma app_nil_r_s : forall a : string, a ++ EmptyString = a.
Proof.
  induction a as [|x a IH]; simpl.
  - reflexivity.
  - now rewrite IH.
Qed.

Lemma length_app_s : forall a b : string,
  String.length (a ++ b) = (String.length a + String.length b)%nat.
Proof.
  induction a as [|x a IH]; intro b; simpl.
  - reflexivity.
  - now rewrite IH.
Qed.

Lemma all_digits_app : forall a b,
  all_digits (a ++ b) = all_digits a && all_digits b.
Proof.
  induction a as [|x a IH]; intro b; simpl.
  - reflexivity.
  - now rewrite IH, andb_assoc.
Qed.

Lemma remove_char_app : forall c a b,
  remove_char c (a ++ b) = remove_char c a ++ remove_char c b.
Proof.
  intros c. induction a as [|x a IH]; intro b; simpl.
  - reflexivity.
  - destruct (Ascii.eqb x c); simpl; now rewrite IH.
Qed.

Lemma remove_comma_digits : forall d,
  all_digits d = true -> remove_char "," d = d.
Proof.
  induction d as [|x d IH]; simpl; intro H.
  - reflexivity.
  - apply andb_true_iff in H. destruct H as [Hx Hd].
    rewrite (digit_not_comma _ Hx), IH by assumption. reflexivity.
Qed.

Lemma take_digits_spec : forall n s d r,
  take_digits n s = (d, r) ->
  s = d ++ r /\ all_digits d = true /\ (String.length d <= n)%nat.
Proof.
  induction n as [|n IH]; intros s d r H.
  - destruct s; simpl in H; injection H as <- <-; simpl; auto.
  - destruct s as [|c s]; simpl in H.
    + injection H as <- <-. simpl. auto with arith.
    + destruct (is_digit c) eqn:E.
      * destruct (take_digits n s) as [d' r'] eqn:E'.
        injection H as <- <-.
        destruct (IH _ _ _ E') as (-> & Hd & Hl).
        simpl. rewrite E, Hd. auto with arith.
      * injection H as <- <-. simpl. auto with arith.
Qed.

Lemma comma_groups_stop : forall c s,
  Ascii.eqb c "," = false -> comma_groups (String c s) = (EmptyString, String c s).
Proof.
  intros c s H. destruct s as [|c1 [|c2 [|c3 s]]]; simpl; rewrite ?H; reflexivity.
Qed.

Lemma comma_groups_spec_len : forall n s g r,
  (String.length s <= n)%nat ->
  comma_groups s = (g, r) ->
  s = g ++ r /\ all_digits (remove_char "," g) = true.
Proof.
  induction n as [|n IH]; intros s g r Hn H.
  - destruct s; [|simpl in Hn; lia].
    simpl in H. injection H as <- <-. auto.
  - destruct s as [|c0 [|c1 [|c2 [|c3 s]]]];
      try (simpl in H; injection H as <- <-; auto; fail).
    cbn [comma_groups] in H.
    destruct (Ascii.eqb c0 "," && is_digit c1 && is_digit c2 && is_digit c3) eqn:E.
    + destruct (comma_groups s) as [g' r'] eqn:E'.
      injection H as <- <-.
      assert (Hs : (String.length s <= n)%nat) by (simpl in Hn; lia).
      destruct (IH _ _ _ Hs E') as (-> & Hg).
      apply andb_true_iff in E. destruct E as [E E3].
      apply andb_true_iff in E. destruct E as [E E2].
      apply andb_true_iff in E. destruct E as [E0 E1].
      split; [reflexivity|].
      cbn [remove_char]. rewrite E0.
      rewrite (digit_not_comma _ E1), (digit_not_comma _ E2),
        (digit_not_comma _ E3).
      cbn [all_digits]. now rewrite E1, E2, E3, Hg.
    + injection H as <- <-. auto.
Qed.

Lemma comma_groups_spec : forall s g r,
  comma_groups s = (g, r) ->
  s = g ++ r /\ all_digits (remove_char "," g) = true.
Proof.
  intros s g r. apply (comma_groups_spec_len (String.length s)). lia.
Qed.

Lemma fraction_stop : forall c s,
  Ascii.eqb c "." = false -> fraction (String c s) = (EmptyString, String c s).
Proof.
  intros c s H. destruct s as [|c1 [|c2 s]]; simpl; rewrite ?H; reflexivity.
Qed.

Lemma fraction_spec : forall s f r,
  fraction s = (f, r) ->
  s = f ++ r
  /\ (f = EmptyString
      \/ exists a b, f = String "." (String a (String b EmptyString))
                     /\ is_digit a = true /\ is_digit b = true).
Proof.
  intros s f r H.
  destruct s as [|c0 [|c1 [|c2 s]]];
    try (simpl in H; injection H as <- <-; auto; fail).
  cbn [fraction] in H.
  destruct (Ascii.eqb c0 "." && is_digit c1 && is_digit c2) eqn:E.
  - injection H as <- <-.
    apply andb_true_iff in E. destruct E as [E E2].
    apply andb_true_iff in E. destruct E as [E0 E1].
    apply Ascii.eqb_eq in E0. subst c0.
    split; [reflexivity|]. right. exists c1, c2. auto.
  - injection H as <- <-. auto.
Qed.

Lemma split_point_digits : forall d rest,
  all_digits d = true ->
  split_point (d ++ rest)
  = (d ++ fst (split_point rest), snd (split_point rest)).
Proof.
  induction d as [|c d IH]; intros rest H; simpl.
  - now destruct (split_point rest).
  - simpl in H. apply andb_true_iff in H. destruct H as [Hc Hd].
    rewrite (digit_not_point _ Hc), IH by assumption. reflexivity.
Qed.

Lemma float_digits : forall d,
  d <> EmptyString -> all_digits d = true ->
  float d = Some (inject_Z (digits_val 0 d)).
Proof.
  intros d Hne Hd. unfold float.
  rewrite <- (app_nil_r_s d) at 1.
  rewrite split_point_digits by assumption. simpl.
  rewrite app_nil_r_s.
  destruct d; [contradiction|]. now rewrite Hd.
Qed.

Lemma float_digits_fraction : forall d a b,
  d <> EmptyString -> all_digits d = true ->
  is_digit a = true -> is_digit b = true ->
  exists q,
    float (d ++ String "." (String a (String b EmptyString))) = Some q.
Proof.
  intros d a b Hne Hd Ha Hb. unfold float.
  rewrite split_point_digits by assumption. simpl.
  rewrite app_nil_r_s.
  destruct d; [contradiction|]. rewrite Hd, Ha, Hb. simpl. eauto.
Qed.

(** What the number pattern captures is a non-empty prefix of the text,
    and [float] accepts it once the commas are removed. *)
Lemma number_spec : forall s g r,
  number s = Some (g, r) ->
  s = g ++ r
  /\ (exists c g', g = String c g')
  /\ exists q, float (remove_char "," g) = Some q.
Proof.
  intros s g r H. unfold number, digits_range in H.
  destruct (take_digits 3 s) as [d r1] eqn:Ed.
  destruct (1 <=? String.length d)%nat eqn:El; [|discriminate].
  destruct (comma_groups r1) as [cg r2] eqn:Ec.
  destruct (fraction r2) as [f r3] eqn:Ef.
  injection H as <- <-.
  apply take_digits_spec in Ed. destruct Ed as (-> & Hd & _).
  apply comma_groups_spec in Ec. destruct Ec as (-> & Hcg).
  apply fraction_spec in Ef. destruct Ef as (-> & Hf).
  apply Nat.leb_le in El.
  split; [now rewrite !app_assoc_s|]. split.
  - destruct d; [simpl in El; lia|]. simpl. eauto.
  - rewrite !remove_char_app, (remove_comma_digits d Hd), <- app_assoc_s.
    assert (Hne : d ++ remove_char "," cg <> EmptyString)
      by (destruct d; [simpl in El; lia|discriminate]).
    assert (Hall : all_digits (d ++ remove_char "," cg) = true)
      by (now rewrite all_digits_app, Hd, Hcg).
    destruct Hf as [-> | (a & b & -> & Ha & Hb)].
    + simpl. rewrite app_nil_r_s. eexists. now apply float_digits.
    + cbn [remove_char]. rewrite (digit_not_comma _ Ha), (digit_not_comma _ Hb).
      replace (Ascii.eqb "." ",") with false by reflexivity.
      now apply float_digits_fraction.
Qed.

Lemma number_shorter : forall s g r,
  number s = Some (g, r) -> (String.length r < String.length s)%nat.
Proof.
  intros s g r H. apply number_spec in H.
  destruct H as (-> & (c & g' & ->) & _).
  rewrite length_app_s. simpl. lia.
Qed.

(** More than three digits in a row: the pattern takes the first three and
    stops in front of the fourth. *)
Lemma number_four_digits : forall d1 d2 d3 d4 rest,
  is_digit d1 = true -> is_digit d2 = true -> is_digit d3 = true ->
  is_digit d4 = true ->
  number (String d1 (String d2 (String d3 (String d4 rest))))
  = Some (String d1 (String d2 (String d3 EmptyString)), String d4 rest).
Proof.
  intros d1 d2 d3 d4 rest H1 H2 H3 H4. unfold number, digits_range.
  cbn [take_digits]. rewrite H1, H2, H3. cbn [String.length Nat.leb].
  rewrite (comma_groups_stop _ _ (digit_not_comma _ H4)).
  rewrite (fraction_stop _ _ (digit_not_point _ H4)).
  reflexivity.
Qed.

(** ** Searching *)

Lemma search_found : forall (A : Type) (m : string -> option A) s r,
  search m s = Some r -> exists pre t, s = pre ++ t /\ m t = Some r.
Proof.
  intros A m s. induction s as [|c s IH]; intros r H; simpl in H.
  - destruct (m EmptyString) eqn:E; [|discriminate].
    injection H as <-. now exists EmptyString, EmptyString.
  - destruct (m (String c s)) eqn:E.
    + injection H as <-. now exists EmptyString, (String c s).
    + destruct (IH _ H) as (pre & t & -> & Ht).
      now exists (String c pre), t.
Qed.

Lemma search_here : forall (A : Type) (m : string -> option A) s r,
  m s = Some r -> search m s = Some r.
Proof. intros A m s r H. destruct s; simpl; now rewrite H. Qed.

(** Positions at which the pattern does not match are passed over. *)
Lemma search_misses : forall (A : Type) (m : string -> option A) pre s,
  misses m pre s = true -> search m (pre ++ s) = search m s.
Proof.
  intros A m. induction pre as [|c pre IH]; intros s H.
  - reflexivity.
  - cbn [misses] in H. cbn [append search] in *.
    destruct (m (String c (pre ++ s))); [discriminate|]. now apply IH.
Qed.

(** ** The fields read from the first page of an invoice *)

Lemma bare_currency_not_labelled : forall s g,
  bare_currency s = Some g -> total_labelled s = None.
Proof.
  intros s g H. destruct s as [|c s]; [discriminate|].
  simpl in H. destruct (Ascii.eqb c "$") eqn:E; [|discriminate].
  apply Ascii.eqb_eq in E. subst c. reflexivity.
Qed.

(** A group of a pattern is what the number pattern captured somewhere. *)
Lemma total_labelled_number : forall s g,
  total_labelled s = Some g -> exists x r, number x = Some (g, r).
Proof.
  intros s g H. unfold total_labelled in H.
  destruct (lit_ci "total" s) as [r|]; [|discriminate].
  destruct (number _) as [[g' r']|] eqn:E; [|discriminate].
  injection H as <-. eauto.
Qed.

Lemma bare_currency_number : forall s g,
  bare_currency s = Some g -> exists x r, number x = Some (g, r).
Proof.
  intros s g H. destruct s as [|c s]; [discriminate|]. simpl in H.
  destruct (Ascii.eqb c "$"); [|discriminate].
  destruct (number s) as [[g' r']|] eqn:E; [|discriminate].
  injection H as <-. eauto.
Qed.

Lemma amount_groups : forall s g1 g2,
  amount_pattern s = Some (g1, g2) ->
  exists g x r,
    number x = Some (g, r)
    /\ ((g1 = Some g /\ g2 = None /\ total_labelled s = Some g)
        \/ (g1 = None /\ g2 = Some g /\ total_labelled s = None
            /\ bare_currency s = Some g)).
Proof.
  intros s g1 g2 H. unfold amount_pattern in H.
  destruct (total_labelled s) as [g|] eqn:Et.
  - injection H as <- <-.
    destruct (total_labelled_number _ _ Et) as (x & r & Hn).
    exists g, x, r. auto.
  - destruct (bare_currency s) as [g|] eqn:Eb; [|discriminate].
    injection H as <- <-.
    destruct (bare_currency_number _ _ Eb) as (x & r & Hn).
    exists g, x, r. split; [assumption|]. right. auto.
Qed.

Lemma split_lines_first : forall s,
  exists rest, split_lines s = first_line s :: rest.
Proof.
  induction s as [|c s [rest IH]]; simpl.
  - eauto.
  - destruct (Ascii.eqb c nl).
    + eauto.
    + rewrite IH. eauto.
Qed.

(** [invoice_fields] returns for every text: the number and the date are
    the groups of the leftmost matches, the amount is the float of the
    leftmost match of the amount pattern, and the vendor is the first
    line, stripped. *)
Lemma invoice_fields_returns : forall text,
  exists amount,
    invoice_fields text
    = Ok {| invoice_number := option_map strip (search invoice_pattern text);
            invoice_date := search date_pattern text;
            total_amount := amount;
            vendor := Some (strip (first_line text));
            line_items := [] |}
    /\ (search amount_pattern text = None -> amount = None)
    /\ (forall g1 g2, search amount_pattern text = Some (g1, g2) ->
        exists g q, py_or g1 g2 = Some g
                    /\ float (remove_char "," g) = Some q
                    /\ amount = Some q).
Proof.
  intro text. unfold invoice_fields.
  destruct (split_lines_first text) as [rest ->].
  destruct (search amount_pattern text) as [[g1 g2]|] eqn:E.
  - destruct (search_found _ _ _ _ E) as (pre & t & _ & Ht).
    destruct (amount_groups _ _ _ Ht) as (g & x & r & Hn & Hg).
    destruct (number_spec _ _ _ Hn) as (_ & (c & g' & ->) & (q & Hq)).
    assert (Hor : py_or g1 g2 = Some (String c g'))
      by (destruct Hg as [(-> & -> & _) | (-> & -> & _)]; reflexivity).
    rewrite Hor, Hq. cbn [bind].
    exists (Some q). split; [|split].
    + destruct (search invoice_pattern text); reflexivity.
    + discriminate.
    + intros h1 h2 Heq. injection Heq as <- <-. eauto.
  - cbn [bind]. exists None. split; [|split].
    + destruct (search invoice_pattern text); reflexivity.
    + reflexivity.
    + discriminate.
Qed.

(** ** Invoice amount *)

(** C4 (amended).  The total amount is the number at the leftmost place
    of the first-page text where either form matches: a Total-labelled
    number or a bare dollar-prefixed number.  Whichever of the two comes
    first in the text is taken, whatever follows it; a bare dollar number
    in front of the first Total label therefore wins.  The text in front
    of the match is any text inside which the pattern matches at no
    position. *)
Theorem amount_leftmost_match : forall pre s g,
  misses amount_pattern pre s = true ->
  bare_currency s = Some g \/ total_labelled s = Some g ->
  exists d q,
    invoice_fields (pre ++ s) = Ok d
    /\ float (remove_char "," g) = Some q
    /\ total_amount d = Some q.
Proof.
  intros pre s g Hpre Hs.
  assert (Hm : exists g1 g2,
             amount_pattern s = Some (g1, g2) /\ py_or g1 g2 = Some g).
  { unfold amount_pattern. destruct Hs as [Hb | Ht].
    - rewrite (bare_currency_not_labelled _ _ Hb), Hb.
      exists None, (Some g). auto.
    - rewrite Ht. exists (Some g), None. split; [reflexivity|].
      destruct (total_labelled_number _ _ Ht) as (x & r & Hn).
      destruct (number_spec _ _ _ Hn) as (_ & (c & g' & ->) & _).
      reflexivity. }
  destruct Hm as (g1 & g2 & Hpat & Hor).
  assert (Hsearch : search amount_pattern (pre ++ s) = Some (g1, g2)).
  { rewrite search_misses by assumption. now apply search_here. }
  destruct (invoice_fields_returns (pre ++ s)) as (amount & Hret & _ & Hsome).
  destruct (Hsome _ _ Hsearch) as (g' & q & Hor' & Hq & ->).
  rewrite Hor in Hor'. injection Hor' as <-.
  eexists. exists q. split; [exact Hret|]. auto.
Qed.

Lemma amount_leftmost_match_witness :
  exists d,
    invoice_fields ("Date: 01/02/2023" ++ NL ++ "Total due " ++ "$5.00"
                    ++ NL ++ "Total: $10.00") = Ok d
    /\ total_amount d = Some (5 # 1).
Proof.
  destruct (amount_leftmost_match ("Date: 01/02/2023" ++ NL ++ "Total due ")
              ("$5.00" ++ NL ++ "Total: $10.00")
              "5.00" eq_refl (or_introl eq_refl)) as (d & q & Hd & Hq & Ht).
  exists d. split; [exact Hd|].
  rewrite Ht. rewrite <- Hq. reflexivity.
Defined.

(** C4, as stated, fails: with a bare dollar number in front of the
    Total label, the Total-labelled number is not the one extracted. *)
Lemma bare_amount_before_total_wins :
  labelled_total_first ("$5.00" ++ NL ++ "Total: $10.00") = Some "10.00"
  /\ exists d,
       invoice_fields ("$5.00" ++ NL ++ "Total: $10.00") = Ok d
       /\ total_amount d = float "5.00"
       /\ total_amount d <> float "10.00".
Proof.
  split; [reflexivity|].
  eexists. split; [reflexivity|]. split; [reflexivity|].
  vm_compute. discriminate.
Qed.

(** ** Extraction from a loaded document *)

Lemma price_columns_text : forall cols,
  (forall c, In c cols -> c <> None) -> exists l, price_columns cols = Ok l.
Proof.
  induction cols as [|c cols IH]; intro H; simpl.
  - eauto.
  - destruct c as [col|].
    + destruct IH as [l ->]; [intros; apply H; now right|].
      simpl. eauto.
    + exfalso. apply (H None); [now left|reflexivity].
Qed.

Lemma table_items_text : forall ts,
  headers_are_text ts -> exists items, table_items ts = Ok items.
Proof.
  induction ts as [|t ts IH]; intro H; simpl.
  - eauto.
  - destruct (price_columns_text (columns t)) as [l ->].
    { intros c Hc. apply (H t c); [now left|assumption]. }
    destruct IH as [items ->].
    { intros t' c Ht' Hc. apply (H t' c); [now right|assumption]. }
    simpl. eauto.
Qed.

Lemma table_items_no_price : forall ts,
  no_price_table ts -> table_items ts = Ok [].
Proof.
  induction ts as [|t ts IH]; intro H; simpl.
  - reflexivity.
  - rewrite (H t) by now left.
    rewrite IH by (intros t' Ht'; apply H; now right).
    reflexivity.
Qed.

Lemma extract_invoice_loaded : forall fs self pages text rest,
  pdf_open fs self = Ok pages ->
  page_texts pages = text :: rest ->
  exists amount,
    extract_invoice_data fs self
    = (items <- table_items (all_tables pages) ;;
       Ok {| invoice_number := option_map strip (search invoice_pattern text);
             invoice_date := search date_pattern text;
             total_amount := amount;
             vendor := Some (strip (first_line text));
             line_items := items |})
    /\ (search amount_pattern text = None -> amount = None).
Proof.
  intros fs self pages text rest Hopen Htext.
  destruct (invoice_fields_returns text) as (amount & Hf & Hnone & _).
  exists amount. split; [|assumption].
  unfold extract_invoice_data, extract_text, extract_tables.
  rewrite Hopen. cbn [bind]. rewrite Htext, Hf. reflexivity.
Qed.

Lemma extract_report_loaded : forall fs self pages,
  pdf_open fs self = Ok pages ->
  extract_report_data fs self
  = Ok match page_texts pages with
       | [] =>
           {| title := None; report_date := None; summary := None;
              key_metrics := []; tables := all_tables pages |}
       | text :: _ =>
           {| title := Some (strip (first_line text));
              report_date := search date_pattern text;
              summary := option_map strip (search summary_pattern text);
              key_metrics := extract_key_metrics text;
              tables := all_tables pages |}
       end.
Proof.
  intros fs self pages Hopen.
  unfold extract_report_data, extract_text, extract_tables.
  rewrite Hopen. cbn [bind].
  destruct (page_texts pages) as [|text rest]; [reflexivity|].
  destruct (split_lines_first text) as [ls ->].
  destruct (search summary_pattern text); reflexivity.
Qed.

(** An error of [pdfplumber.open] is the error of the extraction. *)
Lemma load_errors_propagate : forall fs self e,
  pdf_open fs self = Raise e ->
  extract_invoice_data fs self = Raise e
  /\ extract_report_data fs self = Raise e.
Proof.
  intros fs self e H.
  unfold extract_invoice_data, extract_report_data, extract_text.
  rewrite H. split; reflexivity.
Qed.

(** C6 (amended).  The vendor of an invoice whose first page yields text
    is the first line of that text (the text in front of the first line
    break), stripped of surrounding whitespace, whether or not the line
    is empty. *)
Theorem vendor_is_first_line : forall fs self pages text rest,
  pdf_open fs self = Ok pages ->
  page_texts pages = text :: rest ->
  (forall d, extract_invoice_data fs self = Ok d ->
             vendor d = Some (strip (first_line text)))
  /\ (headers_are_text (all_tables pages) ->
      exists d, extract_invoice_data fs self = Ok d
                /\ vendor d = Some (strip (first_line text))).
Proof.
  intros fs self pages text rest Hopen Htext.
  destruct (extract_invoice_loaded _ _ _ _ _ Hopen Htext) as (amount & -> & _).
  split.
  - intros d H. destruct (table_items (all_tables pages)); [|discriminate].
    injection H as <-. reflexivity.
  - intro Hh. destruct (table_items_text _ Hh) as [items ->].
    eexists. split; reflexivity.
Qed.

Lemma vendor_is_first_line_witness :
  exists d,
    extract_invoice_data
      (one_file "in.pdf" (PdfFile [text_page ("  Acme Corp " ++ NL ++ "Invoice #7")]))
      {| pdf_path := "in.pdf" |} = Ok d
    /\ vendor d = Some "Acme Corp".
Proof.
  destruct (vendor_is_first_line
              (one_file "in.pdf"
                 (PdfFile [text_page ("  Acme Corp " ++ NL ++ "Invoice #7")]))
              {| pdf_path := "in.pdf" |}
              [text_page ("  Acme Corp " ++ NL ++ "Invoice #7")]
              ("  Acme Corp " ++ NL ++ "Invoice #7") [] eq_refl eq_refl)
    as [_ H].
  destruct H as (d & Hd & Hv).
  - intros t c Ht. destruct Ht.
  - exists d. split; [exact Hd|exact Hv].
Defined.

(** C6, as stated, fails: when the text starts with a line break the
    vendor is the empty first line, not the first non-empty line. *)
Lemma vendor_empty_on_leading_line_break :
  option_map strip (first_nonempty_line (NL ++ "Acme Corp")) = Some "Acme Corp"
  /\ exists d,
       extract_invoice_data
         (one_file "in.pdf" (PdfFile [text_page (NL ++ "Acme Corp")]))
         {| pdf_path := "in.pdf" |} = Ok d
       /\ vendor d = Some ""
       /\ vendor d
          <> option_map strip (first_nonempty_line (NL ++ "Acme Corp")).
Proof.
  split; [reflexivity|].
  eexists. split; [reflexivity|]. split; [reflexivity|].
  vm_compute. discriminate.
Qed.

(** ** Extraction when nothing matches *)

(** C7 (amended).  On a loadable document in which no field pattern
    matches, extraction returns a record whose pattern-extracted fields
    are null and whose line-item and metric collections are empty; the
    vendor (invoice) or title (report) is not among them: it is the
    stripped first line of the first page whenever a page yields text,
    and null only when no page does.  Report extraction returns for every
    loadable document, and invoice extraction for every loadable document
    whose table headers are all text. *)
Theorem extraction_without_matches : forall fs self pages,
  pdf_open fs self = Ok pages ->
  (page_texts pages = [] ->
   extract_invoice_data fs self = Ok empty_invoice
   /\ extract_report_data fs self
      = Ok {| title := None; report_date := None; summary := None;
              key_metrics := []; tables := all_tables pages |})
  /\ (forall text rest, page_texts pages = text :: rest ->
      (invoice_patterns_miss text -> no_price_table (all_tables pages) ->
       extract_invoice_data fs self
       = Ok {| invoice_number := None; invoice_date := None;
               total_amount := None;
               vendor := Some (strip (first_line text));
               line_items := [] |})
      /\ (report_patterns_miss text ->
          extract_report_data fs self
          = Ok {| title := Some (strip (first_line text));
                  report_date := None; summary := None;
                  key_metrics := []; tables := all_tables pages |}))
  /\ returns (extract_report_data fs self)
  /\ (headers_are_text (all_tables pages) ->
      returns (extract_invoice_data fs self)).
Proof.
  intros fs self pages Hopen. split; [|split; [|split]].
  - intro Hnone. split.
    + unfold extract_invoice_data, extract_text.
      rewrite Hopen. cbn [bind]. now rewrite Hnone.
    + rewrite (extract_report_loaded _ _ _ Hopen), Hnone. reflexivity.
  - intros text rest Htext. split.
    + intros (Hn & Hd & Ha) Hp.
      destruct (extract_invoice_loaded _ _ _ _ _ Hopen Htext)
        as (amount & -> & Hnone).
      rewrite (table_items_no_price _ Hp), Hn, Hd, (Hnone Ha). reflexivity.
    + intros (Hd & Hm & Hs).
      rewrite (extract_report_loaded _ _ _ Hopen), Htext.
      unfold extract_key_metrics. rewrite Hd, Hm, Hs. reflexivity.
  - rewrite (extract_report_loaded _ _ _ Hopen). eexists. reflexivity.
  - intro Hh. destruct (page_texts pages) as [|text rest] eqn:Htext.
    + unfold extract_invoice_data, extract_text.
      rewrite Hopen. cbn [bind]. rewrite Htext. eexists. reflexivity.
    + destruct (extract_invoice_loaded _ _ _ _ _ Hopen Htext)
        as (amount & -> & _).
      destruct (table_items_text _ Hh) as [items ->].
      eexists. reflexivity.
Qed.

Lemma extraction_without_matches_witness :
  extract_invoice_data
    (one_file "in.pdf"
       (PdfFile [{| page_text := Some "Hello world";
                    page_tables := [[[Some "Item"; Some "Qty"];
                                     [Some "Pen"; Some "2"]]] |}]))
    {| pdf_path := "in.pdf" |}
  = Ok {| invoice_number := None; invoice_date := None; total_amount := None;
          vendor := Some "Hello world"; line_items := [] |}
  /\ returns
       (extract_report_data
          (one_file "in.pdf"
             (PdfFile [{| page_text := Some "Hello world";
                          page_tables := [[[Some "Item"; Some "Qty"];
                                           [Some "Pen"; Some "2"]]] |}]))
          {| pdf_path := "in.pdf" |}).
Proof.
  pose proof (extraction_without_matches
    (one_file "in.pdf"
       (PdfFile [{| page_text := Some "Hello world";
                    page_tables := [[[Some "Item"; Some "Qty"];
                                     [Some "Pen"; Some "2"]]] |}]))
    {| pdf_path := "in.pdf" |} _ eq_refl) as (_ & Htext & Hrep & _).
  split; [|exact Hrep].
  apply (proj1 (Htext "Hello world" [] eq_refl)).
  - repeat split; reflexivity.
  - intros t [<- | []]. reflexivity.
Defined.

(** C7, as stated, fails: with no pattern matching, the vendor is still
    set from the first line of the text. *)
Lemma vendor_set_without_matches :
  invoice_patterns_miss "Hello world"
  /\ exists d,
       extract_invoice_data
         (one_file "in.pdf" (PdfFile [text_page "Hello world"]))
         {| pdf_path := "in.pdf" |} = Ok d
       /\ vendor d = Some "Hello world"
       /\ vendor d <> None.
Proof.
  split.
  - repeat split; reflexivity.
  - eexists. split; [reflexivity|]. split; [reflexivity|]. discriminate.
Qed.

(** A header cell that is [None] makes the line-item stage raise. *)
Example none_header_raises :
  extract_invoice_data
    (one_file "in.pdf"
       (PdfFile [{| page_text := Some "Hello world";
                    page_tables := [[[None; Some "Amount"];
                                     [Some "Pen"; Some "2"]]] |}]))
    {| pdf_path := "in.pdf" |}
  = Raise AttributeError.
Proof. reflexivity. Qed.

(** ** Key metrics of a report *)

Lemma span_spec : forall p s a r,
  span p s = (a, r) -> s = a ++ r /\ forall_chars p a = true.
Proof.
  intros p. induction s as [|c s IH]; intros a r H; simpl in H.
  - injection H as <- <-. auto.
  - destruct (p c) eqn:E.
    + destruct (span p s) as [a' r'] eqn:E'. injection H as <- <-.
      destruct (IH _ _ eq_refl) as [-> Ha]. simpl. now rewrite E, Ha.
    + injection H as <- <-. auto.
Qed.

Lemma span_app : forall p a c r,
  forall_chars p a = true -> p c = false ->
  span p (a ++ String c r) = (a, String c r).
Proof.
  intros p. induction a as [|x a IH]; intros c r Ha Hc; simpl.
  - now rewrite Hc.
  - simpl in Ha. apply andb_true_iff in Ha. destruct Ha as [Hx Ha].
    now rewrite Hx, IH.
Qed.

Lemma skip_spaces_shorter : forall s,
  (String.length (skip_spaces s) <= String.length s)%nat.
Proof.
  induction s as [|c s IH]; simpl.
  - lia.
  - destruct (is_space c); simpl; lia.
Qed.

Lemma skip_spaces_app : forall ws c r,
  forall_chars is_space ws = true -> is_space c = false ->
  skip_spaces (ws ++ String c r) = String c r.
Proof.
  induction ws as [|x ws IH]; intros c r Hws Hc; simpl.
  - now rewrite Hc.
  - simpl in Hws. apply andb_true_iff in Hws. destruct Hws as [Hx Hws].
    now rewrite Hx, IH.
Qed.

Lemma opt_char_shorter : forall a s,
  (String.length (opt_char a s) <= String.length s)%nat.
Proof.
  intros a s. destruct s as [|c s]; simpl.
  - lia.
  - destruct (Ascii.eqb c a); simpl; lia.
Qed.

Lemma metric_pattern_consuming : consuming metric_pattern.
Proof.
  intros s a r H. unfold metric_pattern in H.
  destruct (span is_label_char s) as [label rest] eqn:E.
  apply span_spec in E. destruct E as [-> _].
  destruct label as [|l label]; [discriminate|].
  destruct rest as [|c rest]; [discriminate|].
  destruct (Ascii.eqb c ":"); [|discriminate].
  destruct (number _) as [[v r']|] eqn:En; [|discriminate].
  injection H as _ <-.
  apply number_shorter in En.
  pose proof (opt_char_shorter "$" (skip_spaces rest)).
  pose proof (skip_spaces_shorter rest).
  rewrite length_app_s. simpl. lia.
Qed.

Lemma finditer_fuel_enough : forall (A : Type) (m : string -> option (A * string)),
  consuming m ->
  forall n n' s,
    (String.length s < n)%nat -> (String.length s < n')%nat ->
    finditer_fuel m n s = finditer_fuel m n' s.
Proof.
  intros A m Hm. induction n as [|n IH]; intros n' s Hn Hn'; [lia|].
  destruct n' as [|n']; [lia|]. simpl.
  destruct (m s) as [[a r]|] eqn:E.
  - f_equal. apply Hm in E. apply IH; lia.
  - destruct s as [|c s]; [reflexivity|]. simpl in *. apply IH; lia.
Qed.

Lemma finditer_match : forall (A : Type) (m : string -> option (A * string)),
  consuming m ->
  forall s a r, m s = Some (a, r) -> finditer m s = a :: finditer m r.
Proof.
  intros A m Hm s a r H. unfold finditer.
  pose proof (Hm _ _ _ H) as Hlen.
  rewrite (finditer_fuel_enough A m Hm (S (String.length r)) (String.length s) r)
    by lia.
  simpl. now rewrite H.
Qed.

Lemma finditer_skip : forall (A : Type) (m : string -> option (A * string)) c s,
  m (String c s) = None -> finditer m (String c s) = finditer m s.
Proof. intros A m c s H. unfold finditer. simpl. now rewrite H. Qed.

Lemma store_metric_other : forall ms d k,
  (forall m, In m ms -> strip (fst m) <> k) ->
  dict_get k (fold_left store_metric ms d) = dict_get k d.
Proof.
  induction ms as [|m ms IH]; intros d k H; simpl.
  - reflexivity.
  - rewrite IH by (intros m' Hm'; apply H; now right).
    assert (Hne : String.eqb k (strip (fst m)) = false).
    { apply String.eqb_neq. intro Heq. apply (H m); [now left|]. now symmetry. }
    unfold store_metric. destruct (float _); now apply dict_get_set_other.
Qed.

(** *** Matches in front of a label

    When the text in front of a label is empty or ends in a character
    that cannot belong to a label, no match that starts in it reaches
    into the label: the scan of [finditer] arrives at the start of the
    label. *)

Lemma ends_outside_label_suffix : forall a b,
  ends_outside_label (a ++ b) = true -> ends_outside_label b = true.
Proof.
  induction a as [|x a IH]; intros b H; [exact H|].
  destruct b as [|y b]; [reflexivity|].
  apply IH. cbn [append] in H.
  destruct (a ++ String y b) eqn:E.
  - destruct a; discriminate E.
  - exact H.
Qed.

Lemma ends_outside_label_tail : forall c s,
  ends_outside_label (String c s) = true -> ends_outside_label s = true.
Proof.
  intros c s H.
  exact (ends_outside_label_suffix (String c EmptyString) s H).
Qed.

Lemma chars_outside_app : forall a b,
  forall_chars (fun c => negb (is_label_char c)) (a ++ b)
  = forall_chars (fun c => negb (is_label_char c)) a
    && forall_chars (fun c => negb (is_label_char c)) b.
Proof.
  induction a as [|x a IH]; intro b; simpl.
  - reflexivity.
  - now rewrite IH, andb_assoc.
Qed.

Lemma digits_outside_label : forall d,
  all_digits d = true ->
  forall_chars (fun c => negb (is_label_char c)) d = true.
Proof.
  induction d as [|c d IH]; simpl; intro H.
  - reflexivity.
  - apply andb_true_iff in H. destruct H as [Hc Hd].
    now rewrite (digit_not_label _ Hc), IH.
Qed.

Lemma groups_outside_label : forall g,
  all_digits (remove_char "," g) = true ->
  forall_chars (fun c => negb (is_label_char c)) g = true.
Proof.
  induction g as [|c g IH]; cbn [remove_char forall_chars]; intro H.
  - reflexivity.
  - destruct (Ascii.eqb c ",") eqn:E.
    + apply Ascii.eqb_eq in E. subst c. now rewrite IH.
    + cbn [all_digits] in H. apply andb_true_iff in H. destruct H as [Hc Hg].
      now rewrite (digit_not_label _ Hc), IH.
Qed.

(** What the number pattern takes has no character of a label. *)
Lemma number_outside_label : forall s g r,
  number s = Some (g, r) ->
  forall_chars (fun c => negb (is_label_char c)) g = true.
Proof.
  intros s g r H. unfold number, digits_range in H.
  destruct (take_digits 3 s) as [d r1] eqn:Ed.
  destruct (1 <=? String.length d)%nat; [|discriminate].
  destruct (comma_groups r1) as [cg r2] eqn:Ec.
  destruct (fraction r2) as [f r3] eqn:Ef.
  injection H as <- _.
  apply take_digits_spec in Ed. destruct Ed as (_ & Hd & _).
  apply comma_groups_spec in Ec. destruct Ec as (_ & Hcg).
  apply fraction_spec in Ef. destruct Ef as (_ & Hf).
  rewrite !chars_outside_app, (digits_outside_label _ Hd),
    (groups_outside_label _ Hcg).
  destruct Hf as [-> | (a & b & -> & Ha & Hb)]; [reflexivity|].
  cbn [forall_chars]. now rewrite (digit_not_label _ Ha), (digit_not_label _ Hb).
Qed.

(** A prefix without label characters of a text [u ++ t], where [t]
    starts with a label character, lies within [u]. *)
Lemma prefix_within : forall p u t r c0 t0,
  t = String c0 t0 -> is_label_char c0 = true ->
  forall_chars (fun c => negb (is_label_char c)) p = true ->
  u ++ t = p ++ r ->
  exists w, u = p ++ w /\ r = w ++ t.
Proof.
  induction p as [|x p IH]; intros u t r c0 t0 Ht Hc Hp H.
  - exists u. split; [reflexivity|]. now symmetry.
  - cbn [forall_chars] in Hp. apply andb_true_iff in Hp.
    destruct Hp as [Hx Hp]. destruct u as [|y u].
    + cbn [append] in H. subst t. injection H as <- _.
      rewrite Hc in Hx. discriminate.
    + cbn [append] in H. injection H as <- H.
      destruct (IH u t r c0 t0 Ht Hc Hp H) as (w & -> & ->).
      exists w. auto.
Qed.

Lemma number_within : forall u t c0 t0 v r,
  t = String c0 t0 -> is_label_char c0 = true ->
  ends_outside_label u = true ->
  number (u ++ t) = Some (v, r) ->
  exists w, r = w ++ t /\ ends_outside_label w = true
            /\ (String.length w <= String.length u)%nat.
Proof.
  intros u t c0 t0 v r Ht Hc Hu H.
  pose proof (number_outside_label _ _ _ H) as Hv.
  apply number_spec in H. destruct H as (Heq & _ & _).
  destruct (prefix_within v u t r c0 t0 Ht Hc Hv Heq) as (w & -> & ->).
  exists w. split; [reflexivity|]. split.
  - exact (ends_outside_label_suffix _ _ Hu).
  - rewrite length_app_s. lia.
Qed.

(** A label and its colon: after the white space in front nothing that
    could start a number. *)
Lemma no_number_at_label : forall label rest,
  forall_chars is_label_char label = true ->
  number (opt_char "$" (skip_spaces (label ++ String ":" rest))) = None.
Proof.
  induction label as [|x label IH]; intros rest H.
  - reflexivity.
  - cbn [forall_chars] in H. apply andb_true_iff in H. destruct H as [Hx Hl].
    cbn [append skip_spaces]. destruct (is_space x) eqn:Es.
    + now apply IH.
    + unfold is_label_char in Hx. rewrite Es, orb_false_r in Hx.
      clear - Hx. revert Hx. by_cases_on_char x.
Qed.

Lemma number_needs_digit : forall c s,
  is_label_char c = true -> number (String c s) = None.
Proof.
  intros c s H. unfold number, digits_range. cbn [take_digits].
  destruct (is_digit c) eqn:E; [|reflexivity].
  rewrite (digit_not_label _ E) in H. discriminate.
Qed.

Lemma label_not_dollar : forall c,
  is_label_char c = true -> Ascii.eqb c "$" = false.
Proof. intro c. by_cases_on_char c. Qed.

(** The value part of the metric pattern, started within the text in
    front of a label, ends within it. *)
Lemma value_within : forall u label rest v r,
  label <> EmptyString ->
  forall_chars is_label_char label = true ->
  ends_outside_label u = true ->
  number (opt_char "$" (skip_spaces (u ++ label ++ String ":" rest)))
  = Some (v, r) ->
  exists w, r = w ++ label ++ String ":" rest
            /\ ends_outside_label w = true
            /\ (String.length w <= String.length u)%nat.
Proof.
  intros u label rest v r Hne Hlabel.
  destruct label as [|c0 label0] eqn:El; [contradiction|].
  rewrite <- El in *. clear Hne.
  assert (Hc0 : is_label_char c0 = true).
  { rewrite El in Hlabel. cbn [forall_chars] in Hlabel.
    now apply andb_true_iff in Hlabel. }
  set (t := label ++ String ":" rest).
  assert (Ht : t = String c0 (label0 ++ String ":" rest))
    by (unfold t; rewrite El; reflexivity).
  induction u as [|x u IH]; intros Hu H.
  - cbn [append] in H. unfold t in H.
    rewrite no_number_at_label in H by assumption. discriminate.
  - cbn [append skip_spaces] in H. destruct (is_space x) eqn:Es.
    + destruct u as [|y u'].
      * cbn [ends_outside_label] in Hu. unfold is_label_char in Hu.
        rewrite Es, orb_true_r in Hu. discriminate.
      * destruct (IH (ends_outside_label_tail _ _ Hu) H) as (w & Hr & Hw & Hlen).
        exists w. split; [assumption|]. split; [assumption|].
        cbn [String.length] in *. lia.
    + cbn [opt_char] in H. destruct (Ascii.eqb x "$") eqn:Ed.
      * destruct u as [|y u'].
        { cbn [append] in H. rewrite Ht in H.
          rewrite number_needs_digit in H by assumption. discriminate. }
        destruct (number_within _ t c0 _ v r Ht Hc0
                    (ends_outside_label_tail _ _ Hu) H) as (w & Hr & Hw & Hlen).
        exists w. split; [assumption|]. split; [assumption|].
        cbn [String.length] in *. lia.
      * change (String x (u ++ t)) with (String x u ++ t) in H.
        exact (number_within _ t c0 _ v r Ht Hc0 Hu H).
Qed.

Lemma span_inside : forall pre t,
  pre <> EmptyString -> ends_outside_label pre = true ->
  exists lab c rest,
    pre = lab ++ String c rest
    /\ is_label_char c = false
    /\ span is_label_char (pre ++ t) = (lab, String c rest ++ t).
Proof.
  induction pre as [|x pre IH]; intros t Hne Hend; [contradiction|].
  cbn [append span]. destruct (is_label_char x) eqn:Ex.
  - destruct pre as [|y pre'].
    + cbn [ends_outside_label] in Hend. rewrite Ex in Hend. discriminate.
    + assert (Hcons : String y pre' <> EmptyString) by discriminate.
      destruct (IH t Hcons (ends_outside_label_tail _ _ Hend))
        as (lab & c & rest & Hpre & Hc & Hspan).
      rewrite Hspan. exists (String x lab), c, rest.
      split; [cbn [append]; now rewrite <- Hpre|]. auto.
  - exists EmptyString, x, pre. auto.
Qed.

(** A match of the metric pattern that starts in the text in front of a
    label ends in that text. *)
Lemma metric_match_within : forall pre label rest a r,
  pre <> EmptyString -> ends_outside_label pre = true ->
  label <> EmptyString -> forall_chars is_label_char label = true ->
  metric_pattern (pre ++ label ++ String ":" rest) = Some (a, r) ->
  exists w, r = w ++ label ++ String ":" rest
            /\ ends_outside_label w = true
            /\ (String.length w < String.length pre)%nat.
Proof.
  intros pre label rest a r Hne Hend Hlne Hlabel H.
  destruct (span_inside pre (label ++ String ":" rest) Hne Hend)
    as (lab & c & u & Hpre & Hc & Hspan).
  unfold metric_pattern in H. rewrite Hspan in H.
  destruct lab as [|l0 lab]; [discriminate|].
  cbn [append] in H. destruct (Ascii.eqb c ":"); [|discriminate].
  destruct (number _) as [[v r']|] eqn:En; [|discriminate].
  injection H as _ <-.
  assert (Hu : ends_outside_label u = true).
  { rewrite Hpre in Hend.
    apply ends_outside_label_suffix in Hend.
    exact (ends_outside_label_tail _ _ Hend). }
  destruct (value_within u label rest v r' Hlne Hlabel Hu En)
    as (w & Hr & Hw & Hlen).
  exists w. split; [assumption|]. split; [assumption|].
  rewrite Hpre, length_app_s. cbn [String.length]. lia.
Qed.

(** The scan over the text in front of a label arrives at the label. *)
Lemma finditer_reaches_label : forall n pre label rest,
  (String.length pre <= n)%nat ->
  ends_outside_label pre = true ->
  label <> EmptyString -> forall_chars is_label_char label = true ->
  exists before,
    finditer metric_pattern (pre ++ label ++ String ":" rest)
    = (before ++ finditer metric_pattern (label ++ String ":" rest))%list.
Proof.
  induction n as [|n IH]; intros pre label rest Hn Hend Hlne Hlabel.
  - destruct pre; [|cbn [String.length] in Hn; lia]. now exists [].
  - destruct pre as [|c pre]; [now exists []|].
    destruct (metric_pattern (String c pre ++ label ++ String ":" rest))
      as [[a r]|] eqn:E.
    + assert (Hcons : String c pre <> EmptyString) by discriminate.
      destruct (metric_match_within _ _ _ _ _ Hcons Hend Hlne Hlabel E)
        as (w & Hr & Hw & Hlen).
      rewrite (finditer_match _ _ metric_pattern_consuming _ _ _ E), Hr.
      assert (Hwn : (String.length w <= n)%nat)
        by (cbn [String.length] in *; lia).
      destruct (IH w label rest Hwn Hw Hlne Hlabel) as [before ->].
      now exists (a :: before).
    + cbn [append] in *. rewrite finditer_skip by assumption.
      apply IH; try assumption.
      * cbn [String.length] in Hn. lia.
      * exact (ends_outside_label_tail _ _ Hend).
Qed.

(** C10.  A label followed by a run of more than three digits without
    thousands separators, after any text that is empty or ends in a
    character that cannot belong to a label: the metric pattern matches
    the label with the first three digits only, the value stored for the
    label is the float of these three digits, and the scan goes on at the
    fourth digit, so the remaining digits are neither part of the value
    nor rejected. *)
Theorem metric_keeps_three_digits :
  forall pre label ws (dollar : bool) d1 d2 d3 d4 rest,
  ends_outside_label pre = true ->
  label <> EmptyString ->
  forall_chars is_label_char label = true ->
  forall_chars is_space ws = true ->
  is_digit d1 = true -> is_digit d2 = true -> is_digit d3 = true ->
  is_digit d4 = true ->
  let digits := String d1 (String d2 (String d3 EmptyString)) in
  let value :=
    MFloat (inject_Z (100 * digit_val d1 + 10 * digit_val d2 + digit_val d3)) in
  let text :=
    pre ++ label ++ String ":" (ws ++ (if dollar then "$" else "")
                                   ++ digits ++ String d4 rest) in
  (exists before,
     finditer metric_pattern text
     = (before ++ (label, digits)
               :: finditer metric_pattern (String d4 rest))%list)
  /\ store_metric [] (label, digits) = [(strip label, value)]
  /\ ((forall m, In m (finditer metric_pattern (String d4 rest)) ->
                 strip (fst m) <> strip label) ->
      dict_get (strip label) (extract_key_metrics text) = Some value).
Proof.
  intros pre label ws dollar d1 d2 d3 d4 rest Hpre Hne Hlabel Hws H1 H2 H3 H4
         digits value text.
  assert (Hpat : metric_pattern
                   (label ++ String ":" (ws ++ (if dollar then "$" else "")
                                            ++ digits ++ String d4 rest))
                 = Some ((label, digits), String d4 rest)).
  { unfold metric_pattern.
    rewrite span_app by (assumption || reflexivity).
    destruct label as [|l label]; [contradiction|].
    replace (Ascii.eqb ":" ":") with true by reflexivity.
    assert (Hskip : opt_char "$"
                      (skip_spaces (ws ++ (if dollar then "$" else "")
                                       ++ digits ++ String d4 rest))
                    = digits ++ String d4 rest).
    { destruct dollar; simpl.
      - rewrite skip_spaces_app by (assumption || reflexivity). reflexivity.
      - rewrite skip_spaces_app by (auto using digit_not_space).
        simpl. destruct (Ascii.eqb d1 "$") eqn:E; [|reflexivity].
        apply Ascii.eqb_eq in E. subst d1. discriminate. }
    rewrite Hskip. unfold digits. simpl.
    now rewrite number_four_digits. }
  assert (Hstore : forall d,
             store_metric d (label, digits) = dict_set (strip label) value d).
  { intro d. unfold store_metric. cbn [fst snd].
    assert (Hd : all_digits digits = true)
      by (unfold digits; simpl; now rewrite H1, H2, H3).
    rewrite (remove_comma_digits _ Hd).
    rewrite float_digits by (assumption || discriminate).
    unfold value, digits. cbn [digits_val].
    do 3 f_equal. lia. }
  assert (Hiter : exists before,
             finditer metric_pattern text
             = (before ++ (label, digits)
                       :: finditer metric_pattern (String d4 rest))%list).
  { unfold text.
    destruct (finditer_reaches_label (String.length pre) pre label
                (ws ++ (if dollar then "$" else "") ++ digits ++ String d4 rest)
                (Nat.le_refl _) Hpre Hne Hlabel) as [before ->].
    exists before. f_equal.
    now apply finditer_match; [apply metric_pattern_consuming|]. }
  split; [exact Hiter|]. split; [apply Hstore|].
  intro Hlater. destruct Hiter as [before Hiter].
  unfold extract_key_metrics. rewrite Hiter, fold_left_app.
  cbn [fold_left]. rewrite store_metric_other by assumption.
  rewrite Hstore. apply dict_get_set_same.
Qed.

Lemma metric_keeps_three_digits_witness :
  dict_get "Revenue"
    (extract_key_metrics ("Annual Report 2023" ++ NL ++ "Revenue: 1234"))
  = Some (MFloat (123 # 1))
  /\ dict_get "Net Profit"
       (extract_key_metrics
          ("Costs: 12" ++ NL ++ "Net Profit: $98765" ++ NL ++ "Staff: 7"))
     = Some (MFloat (987 # 1)).
Proof.
  split.
  - destruct (metric_keeps_three_digits "Annual Report 2023" (NL ++ "Revenue")
                " " false "1" "2" "3" "4" ""
                eq_refl ltac:(discriminate) eq_refl eq_refl
                eq_refl eq_refl eq_refl eq_refl) as (_ & _ & Hget).
    apply Hget. intros m [].
  - destruct (metric_keeps_three_digits "Costs: 12" (NL ++ "Net Profit")
                " " true "9" "8" "7" "6" ("5" ++ NL ++ "Staff: 7")
                eq_refl ltac:(discriminate) eq_refl eq_refl
                eq_refl eq_refl eq_refl eq_refl) as (_ & _ & Hget).
    apply Hget. intros m [<- | []]. vm_compute. discriminate.
Defined.

(** ** Monthly totals and their changes *)

Lemma add_to_group_ords : forall (P : Z -> Prop) p q groups,
  P (period_ord p) ->
  Forall (fun e => P (period_ord (fst e))) groups ->
  Forall (fun e => P (period_ord (fst e))) (add_to_group p q groups).
Proof.
  intros P p q groups Hp. induction groups as [|[p' q'] groups IH]; intro H.
  - simpl. auto.
  - inversion H as [|e l He Hl]; subst. simpl.
    destruct (period_ord p ?= period_ord p')%Z; auto.
Qed.

Lemma add_to_group_sorted : forall p q groups,
  StronglySorted earlier groups ->
  StronglySorted earlier (add_to_group p q groups).
Proof.
  intros p q groups H. induction H as [|[p' q'] groups Hs IH Hall]; simpl.
  - repeat constructor.
  - destruct (period_ord p ?= period_ord p')%Z eqn:E.
    + apply Z.compare_eq in E. constructor; [assumption|].
      unfold earlier in *. simpl in *. exact Hall.
    + apply -> Z.compare_lt_iff in E.
      constructor; [constructor; assumption|].
      constructor; [exact E|].
      unfold earlier in *. simpl in *.
      eapply Forall_impl; [|exact Hall]. simpl. intros; lia.
    + apply -> Z.compare_gt_iff in E.
      constructor; [assumption|].
      apply (add_to_group_ords (fun o => period_ord p' < o)%Z);
        assumption.
Qed.

Lemma groupby_sum_sorted : forall keys vals,
  StronglySorted earlier (groupby_sum keys vals).
Proof.
  intros keys vals. unfold groupby_sum.
  assert (H : StronglySorted earlier []) by constructor.
  revert H. generalize (@nil (Period * Q)).
  induction (combine keys vals) as [|[k v] l IH]; intros acc H; simpl.
  - assumption.
  - apply IH. destruct k; try assumption. now apply add_to_group_sorted.
Qed.

Lemma first_group_not_later : forall p q groups,
  StronglySorted earlier ((p, q) :: groups) -> ~ In p (map fst groups).
Proof.
  intros p q groups H Hin. inversion H as [|e l _ Hall]; subst.
  apply in_map_iff in Hin. destruct Hin as ([p' q'] & Heq & Hin).
  simpl in Heq. subst p'.
  rewrite Forall_forall in Hall. specialize (Hall _ Hin).
  unfold earlier in Hall. simpl in Hall. lia.
Qed.

Lemma pct_change_from_keys : forall l prev,
  map fst (pct_change_from prev l) = map fst l.
Proof.
  induction l as [|[p q] l IH]; intro prev; simpl.
  - reflexivity.
  - now rewrite IH.
Qed.

(** The entries that remain after [dropna] are keyed by months other than
    the first, and none of them is [NaN]. *)
Lemma changes_keys : forall p q groups k,
  In k (map fst (dropna (map (fun kv => (fst kv, fscale (snd kv) 100))
                             (pct_change ((p, q) :: groups))))) ->
  In k (map fst groups).
Proof.
  intros p q groups k H. simpl in H. unfold dropna in H.
  rewrite <- (pct_change_from_keys groups q).
  apply in_map_iff in H. destruct H as (e & <- & He).
  apply filter_In in He. destruct He as [He _].
  apply in_map_iff in He. destruct He as (e' & <- & He').
  simpl. now apply in_map.
Qed.

Lemma dropna_no_nan : forall l p x, In (p, x) (dropna l) -> x <> NaN.
Proof.
  intros l p x H. unfold dropna in H. apply filter_In in H.
  destruct H as [_ H]. simpl in H. intros ->. discriminate.
Qed.

Lemma add_to_group_single : forall o p q groups,
  period_ord p = o ->
  (List.length groups <= 1)%nat ->
  Forall (fun e => period_ord (fst e) = o) groups ->
  (List.length (add_to_group p q groups) <= 1)%nat.
Proof.
  intros o p q groups Hp Hlen Hall.
  destruct groups as [|[p' q'] [|e groups]]; simpl in *; try lia.
  inversion Hall as [|e l He _]; subst. simpl in He.
  rewrite He, Z.compare_refl. simpl. lia.
Qed.

Lemma period_of_date : forall dates p,
  In (VPeriod p) (map to_period dates) ->
  exists d, In (VDate d) dates
            /\ p = {| p_year := year d; p_month := month d |}.
Proof.
  intros dates p H. apply in_map_iff in H. destruct H as (v & Hv & Hin).
  destruct v; try discriminate. injection Hv as <-. eauto.
Qed.

Lemma groupby_sum_single : forall keys vals o,
  (forall p, In (VPeriod p) keys -> period_ord p = o) ->
  (List.length (groupby_sum keys vals) <= 1)%nat.
Proof.
  intros keys vals o Hkeys. unfold groupby_sum.
  assert (Hin : forall kv, In kv (combine keys vals) -> In (fst kv) keys)
    by (intros [k v] H; simpl; eapply in_combine_l; exact H).
  assert (H : (List.length (@nil (Period * Q)) <= 1)%nat
              /\ Forall (fun e : Period * Q => period_ord (fst e) = o) [])
    by (split; [simpl; lia|constructor]).
  revert H Hin. generalize (@nil (Period * Q)).
  induction (combine keys vals) as [|[k v] l IH]; intros acc [Hlen Hall] Hin;
    simpl.
  - assumption.
  - apply IH; [|intros kv Hkv; apply Hin; now right].
    destruct k; auto.
    assert (Hp : period_ord p = o)
      by (apply Hkeys; apply (Hin (VPeriod p, v)); now left).
    split.
    + now apply (add_to_group_single o).
    + now apply (add_to_group_ords (fun z => z = o)).
Qed.

Lemma in_dec_first_date : forall dates,
  (exists d, In (VDate d) dates) \/ (forall d, ~ In (VDate d) dates).
Proof.
  induction dates as [|v dates [[d Hd] | Hnone]].
  - right. intros d [].
  - left. exists d. now right.
  - destruct v as [| | |d|]; try (right; intros d' [Hd'|Hd'];
      [discriminate|exact (Hnone d' Hd')]).
    left. exists d. now left.
Qed.

Lemma single_month_one_group : forall dates vals,
  single_month dates ->
  (List.length (groupby_sum (map to_period dates) vals) <= 1)%nat.
Proof.
  intros dates vals H.
  destruct (in_dec_first_date dates) as [[d0 Hd0] | Hnone].
  - apply (groupby_sum_single _ _
             (period_ord {| p_year := year d0; p_month := month d0 |})).
    intros p Hp. apply period_of_date in Hp. destruct Hp as (d & Hd & ->).
    destruct (H d d0 Hd Hd0) as [-> ->]. reflexivity.
  - apply (groupby_sum_single _ _ 0%Z).
    intros p Hp. apply period_of_date in Hp. destruct Hp as (d & Hd & _).
    exfalso. exact (Hnone d Hd).
Qed.

(** What [analyze_invoices] returns is the early error entry or the
    result of the time-series block. *)
Lemma analyze_invoices_returned : forall self r,
  analyze_invoices self = Ok r ->
  (empty (data self) = true
   /\ r = (self, [("error", IError "No data available for analysis")]))
  \/ (empty (data self) = false /\ time_series_analysis self = Ok r).
Proof.
  intros self r H. unfold analyze_invoices in H.
  destruct (empty (data self)).
  - left. split; [reflexivity|]. congruence.
  - right. split; [reflexivity|].
    destruct (match column "total_amount" (data self) with
              | Some amounts => basic_statistics amounts
              | None => Ok tt
              end) as [u|e]; [|discriminate].
    cbn [bind] in H.
    destruct (match column "vendor" (data self) with
              | Some _ =>
                  match column "total_amount" (data self) with
                  | Some amounts => top_vendors_by_spend amounts
                  | None => Ok tt
                  end
              | None => Ok tt
              end) as [v|e]; [|discriminate].
    exact H.
Qed.

(** With amounts of a numeric dtype neither the basic statistics nor the
    vendor analysis raises. *)
Lemma analyze_invoices_numeric : forall self amounts,
  empty (data self) = false ->
  column "total_amount" (data self) = Some amounts ->
  is_number_dtype amounts = true ->
  analyze_invoices self = time_series_analysis self.
Proof.
  intros self amounts Hne Hamt Hnum. unfold analyze_invoices.
  rewrite Hne, Hamt. unfold basic_statistics, top_vendors_by_spend.
  rewrite Hnum. unfold is_number_dtype in Hnum.
  destruct (s_dtype amounts); try discriminate.
  cbn [bind]. destruct (column "vendor" (data self)); reflexivity.
Qed.

(** With amounts that are not of a numeric dtype the vendor analysis
    raises. *)
Lemma analyze_invoices_not_numeric : forall self amounts vendors,
  empty (data self) = false ->
  column "total_amount" (data self) = Some amounts ->
  column "vendor" (data self) = Some vendors ->
  is_number_dtype amounts = false ->
  analyze_invoices self = Raise TypeError.
Proof.
  intros self amounts vendors Hne Hamt Hven Hnum. unfold analyze_invoices.
  rewrite Hne, Hamt, Hven. unfold top_vendors_by_spend. rewrite Hnum.
  destruct (basic_statistics amounts) as [u|e] eqn:E; [reflexivity|].
  cbn [bind]. unfold basic_statistics in E.
  destruct (s_dtype amounts); try discriminate E; try congruence.
  destruct (forallb is_number_or_null (s_values amounts)); congruence.
Qed.

Lemma time_series_dated : forall self dates amounts,
  column "date" (data self)
  = Some {| s_dtype := DDatetime; s_values := dates |} ->
  column "total_amount" (data self) = Some amounts ->
  exists self',
    time_series_analysis self
    = Ok (self',
          monthly_insights
            (groupby_sum (map to_period dates) (s_values amounts))).
Proof.
  intros self dates amounts Hdate Hamt. unfold time_series_analysis.
  rewrite Hdate.
  assert (Hcol : column "total_amount"
                   (set_column "month"
                      {| s_dtype := DPeriod; s_values := map to_period dates |}
                      (data self)) = Some amounts).
  { unfold column, set_column in *. cbn [df_columns].
    rewrite dict_get_set_other by reflexivity. exact Hamt. }
  rewrite Hcol. eexists. reflexivity.
Qed.

Lemma monthly_insights_totals : forall totals,
  dict_get "monthly_totals" (monthly_insights totals)
  = Some (ISeries (map (fun kv => (fst kv, Fin (snd kv))) totals)).
Proof.
  intro totals. unfold monthly_insights.
  destruct (1 <? List.length totals)%nat; reflexivity.
Qed.

Lemma monthly_insights_change : forall totals,
  dict_get "monthly_change" (monthly_insights totals)
  = if (1 <? List.length totals)%nat then
      Some (ISeries (dropna (map (fun kv => (fst kv, fscale (snd kv) 100))
                                 (pct_change totals))))
    else None.
Proof.
  intro totals. unfold monthly_insights.
  destruct (1 <? List.length totals)%nat; reflexivity.
Qed.

(** C8.  For an invoice dataset whose date column was parsed, in every
    insights report that [analyze_invoices] returns: when the dates all
    fall within one calendar month the report has no month-over-month
    change entry at all; and whenever the entry is present, it has no
    value for the first month and none of its values is [NaN].  The
    report is returned whenever the amounts are of a numeric dtype. *)
Theorem monthly_change_absent_for_single_month : forall self dates amounts,
  column "date" (data self)
  = Some {| s_dtype := DDatetime; s_values := dates |} ->
  column "total_amount" (data self) = Some amounts ->
  (forall self' ins,
     analyze_invoices self = Ok (self', ins) ->
     (single_month dates -> dict_get "monthly_change" ins = None)
     /\ (forall changes,
           dict_get "monthly_change" ins = Some (ISeries changes) ->
           (forall p x, In (p, x) changes -> x <> NaN)
           /\ (forall first total rest,
                 dict_get "monthly_totals" ins
                 = Some (ISeries ((first, total) :: rest)) ->
                 ~ In first (map fst changes))))
  /\ (is_number_dtype amounts = true ->
      exists self' ins, analyze_invoices self = Ok (self', ins)).
Proof.
  intros self dates amounts Hdate Hamt.
  destruct (time_series_dated self dates amounts Hdate Hamt) as [self0 Hts].
  split.
  - intros self' ins Hrun.
    apply analyze_invoices_returned in Hrun.
    destruct Hrun as [[_ Hr] | [_ Hr]].
    { injection Hr as _ ->. split; [reflexivity|]. intros changes H.
      discriminate. }
    rewrite Hts in Hr. injection Hr as _ <-.
    set (groups := groupby_sum (map to_period dates) (s_values amounts)).
    pose proof (groupby_sum_sorted (map to_period dates) (s_values amounts))
      as Hsorted.
    fold groups in Hsorted.
    rewrite monthly_insights_change, monthly_insights_totals.
    destruct (1 <? List.length groups)%nat eqn:Hlen.
    + split.
      * intro Hsingle.
        pose proof (single_month_one_group dates (s_values amounts) Hsingle)
          as H1.
        fold groups in H1. apply Nat.ltb_lt in Hlen. lia.
      * intros changes Hch. injection Hch as <-. split.
        -- intros p x. apply dropna_no_nan.
        -- intros first total rest Htot. injection Htot as Htot.
           destruct groups as [|[p q] groups']; [discriminate|].
           cbn [map fst snd] in Htot. injection Htot as <- _ _.
           intro Hin. apply changes_keys in Hin.
           exact (first_group_not_later _ _ _ Hsorted Hin).
    + split; [reflexivity|].
      intros changes Hch. discriminate.
  - intro Hnum. destruct (empty (data self)) eqn:Hne.
    + unfold analyze_invoices. rewrite Hne. eauto.
    + rewrite (analyze_invoices_numeric self amounts Hne Hamt Hnum), Hts.
      eauto.
Qed.

Lemma monthly_change_absent_for_single_month_witness :
  exists self' ins,
    analyze_invoices
      (DataAnalyzer__init__
         (snd (process_invoice_data pandas_strptime
                 (DataProcessor__init__
                    [invoice_of (Some "A-1") (Some "01/15/2023") (Some (100 # 1));
                     invoice_of (Some "A-2") (Some "01/03/2023") (Some (50 # 1))]))))
    = Ok (self', ins)
    /\ dict_get "monthly_change" ins = None.
Proof.
  destruct (monthly_change_absent_for_single_month
              (DataAnalyzer__init__
                 (snd (process_invoice_data pandas_strptime
                         (DataProcessor__init__
                            [invoice_of (Some "A-1") (Some "01/15/2023")
                                        (Some (100 # 1));
                             invoice_of (Some "A-2") (Some "01/03/2023")
                                        (Some (50 # 1))]))))
              [VDate {| year := 2023; month := 1; day := 15 |};
               VDate {| year := 2023; month := 1; day := 3 |}]
              {| s_dtype := DNumber; s_values := [VNum (100 # 1); VNum (50 # 1)] |}
              eq_refl eq_refl) as [Hreport Hreturns].
  destruct (Hreturns eq_refl) as (self' & ins & Hrun).
  exists self', ins. split; [exact Hrun|].
  apply (Hreport self' ins Hrun). intros d1 d2 H1 H2.
  destruct H1 as [H1 | [H1 | []]]; destruct H2 as [H2 | [H2 | []]];
    injection H1 as <-; injection H2 as <-; split; reflexivity.
Defined.

(** Two months: the change is reported for the second month only. *)
Example monthly_change_two_months :
  exists self',
    analyze_invoices
      (DataAnalyzer__init__
         (snd (process_invoice_data pandas_strptime
                 (DataProcessor__init__
                    [invoice_of (Some "A-1") (Some "01/15/2023") (Some (100 # 1));
                     invoice_of (Some "A-2") (Some "02/03/2023") (Some (150 # 1))]))))
    = Ok (self',
          [("monthly_totals",
            ISeries [({| p_year := 2023; p_month := 1 |}, Fin (100 # 1));
                     ({| p_year := 2023; p_month := 2 |}, Fin (150 # 1))]);
           ("monthly_change",
            ISeries [({| p_year := 2023; p_month := 2 |}, Fin (50 # 1))])]).
Proof. eexists. vm_compute. reflexivity. Qed.

(** ** Anomalies *)









(** * Further properties of the code *)

(** ** Sums of rationals *)

Lemma square_nonneg : forall a : Q, (0 <= a * a)%Q.
Proof.
  intro a. destruct (Qlt_le_dec a 0).
  - setoid_replace (a * a)%Q with ((- a) * (- a))%Q by ring.
    apply Qmult_le_0_compat; lra.
  - apply Qmult_le_0_compat; lra.
Qed.


Lemma qsum_squares_nonneg : forall c xs,
  (0 <= qsum (map (fun y => (y - c) * (y - c)) xs))%Q.
Proof.
  intros c xs. induction xs as [|x xs IH].
  - simpl. lra.
  - cbn [map qsum fold_right].
    fold (qsum (map (fun y => (y - c) * (y - c))%Q xs)).
    pose proof (square_nonneg (x - c)). lra.
Qed.








Lemma inject_Z_minus : forall a b : Z,
  inject_Z (a - b) = (inject_Z a - inject_Z b)%Q.
Proof.
  intros a b. unfold Z.sub, Qminus.
  now rewrite inject_Z_plus, inject_Z_opp.
Qed.


Lemma series_var_spec : forall ddof vs v,
  series_var ddof vs = Some v ->
  exists m,
    series_mean vs = Some m
    /\ (ddof < List.length (numbers vs))%nat
    /\ (v * (qlen (numbers vs) - inject_Z (Z.of_nat ddof))
        == qsum (map (fun y => (y - m) * (y - m)) (numbers vs)))%Q.
Proof.
  intros ddof vs v H. unfold series_var in H.
  destruct (series_mean vs) as [m|]; [|discriminate].
  destruct (List.length (numbers vs) <=? ddof)%nat eqn:E; [discriminate|].
  apply Nat.leb_gt in E.
  assert (Hv : v = Qred (qsum (map (fun x => (x - m) * (x - m))%Q (numbers vs))
                         / inject_Z (Z.of_nat (List.length (numbers vs) - ddof))))
    by congruence.
  exists m. split; [reflexivity|]. split; [assumption|].
  rewrite Hv, Qred_correct. unfold qlen.
  rewrite <- inject_Z_minus, <- Nat2Z.inj_sub by lia.
  field. intro H0. change 0%Q with (inject_Z 0) in H0.
  rewrite inject_Z_injective in H0. lia.
Qed.

Lemma series_var_nonneg : forall ddof vs v,
  series_var ddof vs = Some v -> (0 <= v)%Q.
Proof.
  intros ddof vs v H. apply series_var_spec in H.
  destruct H as (m & _ & Hlt & Hv).
  pose proof (qsum_squares_nonneg m (numbers vs)) as Hs. rewrite <- Hv in Hs.
  assert (Hpos : (0 < qlen (numbers vs) - inject_Z (Z.of_nat ddof))%Q).
  { unfold qlen. rewrite <- inject_Z_minus. change 0%Q with (inject_Z 0).
    rewrite <- Zlt_Qlt. lia. }
  destruct (Qlt_le_dec v 0) as [Hneg|]; [|assumption].
  exfalso.
  assert (Hlt0 : (v * (qlen (numbers vs) - inject_Z (Z.of_nat ddof)) < 0)%Q).
  { setoid_replace 0%Q with (0 * (qlen (numbers vs) - inject_Z (Z.of_nat ddof)))%Q
      by ring.
    now apply Qmult_lt_compat_r. }
  lra.
Qed.


Lemma numbers_in : forall vs x, In x (numbers vs) -> In (VNum x) vs.
Proof.
  induction vs as [|v vs IH]; intros x H.
  - destruct H.
  - destruct v; simpl in H; try (right; now apply IH).
    destruct H as [-> | H]; [now left|right; now apply IH].
Qed.

Lemma exceeds_spec : forall d v t,
  exceeds d v t = true <-> (t < 0 \/ t * t * v < d * d)%Q.
Proof.
  intros d v t. unfold exceeds.
  destruct (Qle_bool 0 t) eqn:E; cbn [negb].
  - apply Qle_bool_iff in E. rewrite negb_true_iff.
    split.
    + intro H. right. apply Qnot_le_lt. intro Hle.
      apply Qle_bool_iff in Hle. congruence.
    + intros [H | H]; [lra|].
      destruct (Qle_bool (d * d) (t * t * v)) eqn:E'; [|reflexivity].
      apply Qle_bool_iff in E'. lra.
  - split; [|reflexivity]. intros _. left.
    apply Qnot_le_lt. intro Hle. apply Qle_bool_iff in Hle. congruence.
Qed.

Lemma exceeds_antitone : forall d v t1 t2,
  (0 <= v)%Q -> (t1 <= t2)%Q ->
  exceeds d v t2 = true -> exceeds d v t1 = true.
Proof.
  intros d v t1 t2 Hv Ht H. apply exceeds_spec in H. apply exceeds_spec.
  destruct (Qlt_le_dec t1 0) as [Hneg | Hpos]; [now left|].
  right. destruct H as [H | H]; [lra|].
  assert (H1 : (t1 * t1 <= t2 * t2)%Q).
  { pose proof (Qmult_le_compat_r t1 t2 t1 Ht Hpos).
    assert (Hpos2 : (0 <= t2)%Q) by lra.
    pose proof (Qmult_le_compat_r t1 t2 t2 Ht Hpos2).
    lra. }
  assert (H2 : (t1 * t1 * v <= t2 * t2 * v)%Q)
    by (apply Qmult_le_compat_r; assumption).
  lra.
Qed.

Lemma in_combine_map : forall (A B C : Type) (f : B -> C) (l : A) c ls vs,
  In (l, c) (combine ls (map f vs)) ->
  exists v, In (l, v) (combine ls vs) /\ c = f v.
Proof.
  intros A B C f l c. induction ls as [|l0 ls IH]; intros vs H.
  - destruct H.
  - destruct vs as [|v vs]; [destruct H|]. cbn [map combine] in *.
    destruct H as [H | H].
    + injection H as <- <-. exists v. split; [now left|reflexivity].
    + destruct (IH _ H) as (v' & Hin & Hc). exists v'. split; [now right|].
      assumption.
Qed.

(** What it takes for a row of a column to be reported: its cell is a
    number and its deviation from the mean exceeds the threshold; the
    value and the deviation of the entry are read back by the label of
    the row. *)
Lemma column_anomaly_inv : forall ddof threshold labels name s a,
  In a (column_anomalies ddof threshold labels name s) ->
  exists m v x,
    series_mean (s_values s) = Some m
    /\ series_var ddof (s_values s) = Some v
    /\ ~ (v == 0)%Q
    /\ In (a_index a, VNum x) (combine labels (s_values s))
    /\ exceeds (Qred (x - m)) v threshold = true
    /\ a = {| a_index := a_index a; a_column := name;
              a_value := loc value_eqb (a_index a) labels (s_values s);
              a_deviation :=
                loc value_eqb (a_index a) labels
                    (map (deviation m) (s_values s));
              a_mean := m; a_variance := v |}.
Proof.
  intros ddof threshold labels name s a H. unfold column_anomalies in H.
  destruct (series_mean (s_values s)) as [m|]; [|destruct H].
  destruct (series_var ddof (s_values s)) as [v|]; [|destruct H].
  destruct (Qeq_bool v 0) eqn:E0; [destruct H|].
  cbv zeta in H. apply in_map_iff in H. destruct H as (idx & <- & Hidx).
  apply in_map_iff in Hidx. destruct Hidx as ([l d] & Hl & Hf).
  cbn [fst] in Hl. subst l.
  apply filter_In in Hf. destruct Hf as [Hin Hflag]. cbn [snd] in Hflag.
  apply in_combine_map in Hin. destruct Hin as (c & Hin & ->).
  destruct c as [|x| | |]; try discriminate Hflag.
  cbn [deviation flagged] in Hflag.
  exists m, v, x. cbn [a_index]. repeat split; try assumption; try reflexivity.
  intro H0. apply Qeq_bool_iff in H0. congruence.
Qed.

Lemma column_anomalies_antitone : forall ddof t1 t2 labels name s a,
  (t1 <= t2)%Q ->
  In a (column_anomalies ddof t2 labels name s) ->
  In a (column_anomalies ddof t1 labels name s).
Proof.
  intros ddof t1 t2 labels name s a Ht H. unfold column_anomalies in *.
  destruct (series_mean (s_values s)) as [m|]; [|destruct H].
  destruct (series_var ddof (s_values s)) as [v|] eqn:Ev; [|destruct H].
  destruct (Qeq_bool v 0); [destruct H|].
  apply series_var_nonneg in Ev. cbv zeta in *.
  apply in_map_iff in H. destruct H as (idx & Ha & Hidx).
  apply in_map_iff. exists idx. split; [assumption|].
  apply in_map_iff in Hidx. destruct Hidx as (lz & Hl & Hf).
  apply in_map_iff. exists lz. split; [assumption|].
  apply filter_In in Hf. destruct Hf as [Hin Hflag].
  apply filter_In. split; [assumption|].
  destruct (snd lz) as [|dev| | |]; try discriminate Hflag.
  cbn [flagged] in *. exact (exceeds_antitone _ _ _ _ Ev Ht Hflag).
Qed.

Lemma value_eqb_refl : forall v, value_eqb v v = true.
Proof.
  intros [|q|t|d|p]; cbn [value_eqb].
  - reflexivity.
  - apply Qeq_bool_iff. reflexivity.
  - apply String.eqb_refl.
  - now rewrite !Z.eqb_refl.
  - now rewrite !Z.eqb_refl.
Qed.

(** Under a label that occurs once, reading by label gives the cell of
    its row. *)
Lemma loc_unique : forall (L A : Type) (eqb : L -> L -> bool),
  (forall l, eqb l l = true) ->
  forall labels (cells : list A) l x,
  In (l, x) (combine labels cells) ->
  List.length (filter (eqb l) labels) = 1%nat ->
  loc eqb l labels cells = One x.
Proof.
  intros L A eqb Hrefl labels cells l x Hin Hone. unfold loc, under.
  assert (Hhits : map snd (filter (fun lc : L * A => eqb l (fst lc))
                                  (combine labels cells)) = [x]);
    [|now rewrite Hhits].
  revert cells Hin Hone. induction labels as [|l0 labels IH]; intros cells Hin Hone.
  - destruct Hin.
  - destruct cells as [|c cells]; [destruct Hin|].
    cbn [combine filter fst] in *.
    destruct (eqb l l0) eqn:E.
    + cbn [List.length] in Hone.
      assert (Hnone : filter (eqb l) labels = [])
        by (destruct (filter (eqb l) labels); [reflexivity|discriminate]).
      assert (Hrest : filter (fun lc : L * A => eqb l (fst lc))
                             (combine labels cells) = []).
      { destruct (filter (fun lc : L * A => eqb l (fst lc))
                         (combine labels cells)) as [|[l1 c1] r] eqn:Ef;
          [reflexivity|exfalso].
        assert (H1 : In (l1, c1)
                        (filter (fun lc : L * A => eqb l (fst lc))
                                (combine labels cells)))
          by (rewrite Ef; now left).
        apply filter_In in H1. destruct H1 as [H1 H2]. cbn [fst] in H2.
        apply in_combine_l in H1.
        assert (H3 : In l1 (filter (eqb l) labels))
          by (apply filter_In; auto).
        rewrite Hnone in H3. destruct H3. }
      rewrite Hrest. cbn [map snd].
      destruct Hin as [Hin | Hin].
      * injection Hin as _ <-. reflexivity.
      * exfalso. apply in_combine_l in Hin.
        assert (H3 : In l (filter (eqb l) labels))
          by (apply filter_In; split; [assumption|apply Hrefl]).
        rewrite Hnone in H3. destruct H3.
    + destruct Hin as [Hin | Hin].
      * injection Hin as -> _. rewrite Hrefl in E. discriminate.
      * now apply IH.
Qed.

(** Every reported anomaly names a numeric column of the frame and the
    label of a row whose cell in that column is a number.  The reported
    value and deviation are what reading the column by that label gives:
    the cell of the row when the label occurs once in the index, the
    cells of all the rows under the label otherwise.  The reported mean
    and standard deviation are those computed for the column. *)
Theorem anomalies_report_labelled_rows : forall self threshold a,
  In a (get_anomalies self threshold) ->
  let labels := index_labels (df_index (data self)) in
  exists s x,
    In (a_column a, s) (df_columns (data self))
    /\ s_dtype s = DNumber
    /\ In (a_index a, VNum x) (combine labels (s_values s))
    /\ a_value a = loc value_eqb (a_index a) labels (s_values s)
    /\ a_deviation a
       = loc value_eqb (a_index a) labels
             (map (deviation (a_mean a)) (s_values s))
    /\ series_mean (s_values s) = Some (a_mean a)
    /\ series_var 1 (s_values s) = Some (a_variance a)
    /\ (List.length (filter (value_eqb (a_index a)) labels) = 1%nat ->
        a_value a = One (VNum x)
        /\ a_deviation a = One (VNum (Qred (x - a_mean a)))).
Proof.
  intros self threshold a H labels.
  unfold get_anomalies, anomalies_ddof in H.
  destruct (empty (data self)); [destruct H|].
  apply in_flat_map in H. destruct H as ([name s] & Hc & Ha).
  apply filter_In in Hc. destruct Hc as [Hc Hnum]. cbn [fst snd] in *.
  fold labels in Ha. apply column_anomaly_inv in Ha.
  destruct Ha as (m & v & x & Hm & Hv & _ & Hin & _ & Ha).
  exists s, x. rewrite Ha.
  cbn [a_index a_column a_value a_deviation a_mean a_variance].
  repeat split; try assumption; try reflexivity.
  - unfold is_number_dtype in Hnum. destruct (s_dtype s); congruence.
  - now apply (loc_unique _ _ value_eqb value_eqb_refl).
  - apply (loc_unique _ _ value_eqb value_eqb_refl); [|assumption].
    clear - Hin. revert Hin. generalize (s_values s).
    induction labels as [|l0 ls IH]; intros vs Hin; [destruct Hin|].
    destruct vs as [|c vs]; [destruct Hin|]. cbn [map combine] in *.
    destruct Hin as [Hin | Hin].
    + injection Hin as -> ->. now left.
    + right. now apply IH.
Qed.

Lemma anomalies_report_labelled_rows_witness :
  exists s x,
    In ("amount", s) (df_columns (numeric_frame "amount" five_points))
    /\ In (VNum (4 # 1), VNum x)
          (combine (index_labels (RangeIndex 5)) (s_values s))
    /\ series_var 1 (s_values s) = Some (196020 # 1).
Proof.
  destruct (anomalies_report_labelled_rows
              (DataAnalyzer__init__ (numeric_frame "amount" five_points))
              (3 # 2)
              {| a_index := VNum (4 # 1); a_column := "amount";
                 a_value := One (VNum (1000 # 1));
                 a_deviation := One (VNum (792 # 1));
                 a_mean := 208 # 1; a_variance := 196020 # 1 |}
              (or_introl eq_refl))
    as (s & x & Hin & _ & Hrow & _ & _ & _ & Hvar & _).
  exists s, x. split; [exact Hin|]. split; [exact Hrow|exact Hvar].
Defined.

(** Two rows under one label: the entry of the flagged row carries the
    cells of both. *)
Example anomaly_under_repeated_label :
  get_anomalies
    (DataAnalyzer__init__
       {| df_index :=
            LabelIndex "invoice_number"
              [VStr "A-1"; VStr "A-2"; VStr "A-3"; VStr "A-4"; VStr "A-4";
               VStr "A-5"];
          df_columns :=
            [("total_amount",
              {| s_dtype := DNumber;
                 s_values := map VNum [10; 10; 10; 10; 1000; 10]%Q |})] |})
    (2 # 1)
  = [{| a_index := VStr "A-4"; a_column := "total_amount";
        a_value := Many [VNum (10 # 1); VNum (1000 # 1)];
        a_deviation := Many [VNum (-165 # 1); VNum (825 # 1)];
        a_mean := 175 # 1; a_variance := 163350 # 1 |}].
Proof. vm_compute. reflexivity. Qed.

(** Lowering the threshold never loses an anomaly: what is reported at a
    threshold is reported at every smaller one. *)
Theorem anomalies_grow_as_threshold_falls : forall self t1 t2 a,
  (t1 <= t2)%Q ->
  In a (get_anomalies self t2) -> In a (get_anomalies self t1).
Proof.
  intros self t1 t2 a Ht H. unfold get_anomalies, anomalies_ddof in *.
  destruct (empty (data self)); [destruct H|].
  apply in_flat_map in H. destruct H as (c & Hc & Ha).
  apply in_flat_map. exists c. split; [assumption|].
  now apply (column_anomalies_antitone _ t1 t2).
Qed.

Lemma anomalies_grow_as_threshold_falls_witness :
  In {| a_index := VNum (4 # 1); a_column := "amount";
        a_value := One (VNum (1000 # 1));
        a_deviation := One (VNum (792 # 1));
        a_mean := 208 # 1; a_variance := 196020 # 1 |}
     (get_anomalies
        (DataAnalyzer__init__ (numeric_frame "amount" five_points)) (1 # 1)).
Proof.
  apply (anomalies_grow_as_threshold_falls _ (1 # 1) (3 # 2)).
  - vm_compute. discriminate.
  - left. reflexivity.
Defined.






(** ** Monthly totals *)

Lemma add_to_group_sum : forall p q groups,
  (qsum (map snd (add_to_group p q groups)) == q + qsum (map snd groups))%Q.
Proof.
  intros p q groups. induction groups as [|[p' q'] groups IH].
  - simpl. ring.
  - cbn [add_to_group]. destruct (period_ord p ?= period_ord p')%Z.
    + cbn [map snd qsum fold_right]. fold (qsum (map snd groups)).
      rewrite Qred_correct. ring.
    + cbn [map snd qsum fold_right]. fold (qsum (map snd groups)). ring.
    + cbn [map snd qsum fold_right].
      fold (qsum (map snd (add_to_group p q groups))).
      fold (qsum (map snd groups)). rewrite IH. ring.
Qed.

Lemma groupby_sum_conserves : forall dates amounts acc,
  (qsum (map snd
     (fold_left
        (fun groups (kv : value * value) =>
           match fst kv with
           | VPeriod p =>
               add_to_group p (match snd kv with VNum q => q | _ => 0 end) groups
           | _ => groups
           end)
        (combine (map to_period dates) amounts) acc))
   == qsum (map snd acc) + qsum (dated_amounts dates amounts))%Q.
Proof.
  induction dates as [|d dates IH]; intros amounts acc.
  - simpl. ring.
  - destruct amounts as [|a amounts].
    + destruct d; simpl; ring.
    + cbn [map combine fold_left]. rewrite IH. cbn [fst snd].
      destruct d as [| | |dt|]; cbn [to_period dated_amounts];
        try (destruct a; reflexivity).
      rewrite add_to_group_sum.
      destruct a; cbn [qsum fold_right]; try ring.
      fold (qsum (dated_amounts dates amounts)). ring.
Qed.

(** For a non-empty frame with a parsed date column and amounts of a
    numeric dtype, the monthly totals of the insights are in chronological
    order with one entry per month, and they add up to the total of the
    amounts of the rows that have a date. *)
Theorem monthly_totals_chronological_and_complete :
  forall self dates amounts,
  empty (data self) = false ->
  column "date" (data self)
  = Some {| s_dtype := DDatetime; s_values := dates |} ->
  column "total_amount" (data self) = Some amounts ->
  is_number_dtype amounts = true ->
  exists self' ins totals,
    analyze_invoices self = Ok (self', ins)
    /\ dict_get "monthly_totals" ins
       = Some (ISeries (map (fun kv => (fst kv, Fin (snd kv))) totals))
    /\ StronglySorted earlier totals
    /\ (qsum (map snd totals)
        == qsum (dated_amounts dates (s_values amounts)))%Q.
Proof.
  intros self dates amounts Hne Hdate Hamt Hnum.
  rewrite (analyze_invoices_numeric self amounts Hne Hamt Hnum).
  destruct (time_series_dated self dates amounts Hdate Hamt) as [self' Hts].
  rewrite Hts.
  set (groups := groupby_sum (map to_period dates) (s_values amounts)).
  exists self', (monthly_insights groups), groups.
  split; [reflexivity|]. split; [|split].
  - apply monthly_insights_totals.
  - apply groupby_sum_sorted.
  - unfold groups, groupby_sum. rewrite groupby_sum_conserves.
    simpl. ring.
Qed.

Lemma monthly_totals_chronological_and_complete_witness :
  exists self' ins totals,
    analyze_invoices
      (DataAnalyzer__init__
         (snd (process_invoice_data pandas_strptime
                 (DataProcessor__init__
                    [invoice_of (Some "A-1") (Some "02/15/2023") (Some (100 # 1));
                     invoice_of (Some "A-2") (Some "01/03/2023") (Some (50 # 1));
                     invoice_of (Some "A-3") (Some "02/20/2023") None]))))
    = Ok (self', ins)
    /\ dict_get "monthly_totals" ins
       = Some (ISeries (map (fun kv => (fst kv, Fin (snd kv))) totals))
    /\ (qsum (map snd totals) == 150 # 1)%Q.
Proof.
  destruct (monthly_totals_chronological_and_complete
              (DataAnalyzer__init__
                 (snd (process_invoice_data pandas_strptime
                         (DataProcessor__init__
                            [invoice_of (Some "A-1") (Some "02/15/2023")
                                        (Some (100 # 1));
                             invoice_of (Some "A-2") (Some "01/03/2023")
                                        (Some (50 # 1));
                             invoice_of (Some "A-3") (Some "02/20/2023") None]))))
              [VDate {| year := 2023; month := 2; day := 15 |};
               VDate {| year := 2023; month := 1; day := 3 |};
               VDate {| year := 2023; month := 2; day := 20 |}]
              {| s_dtype := DNumber;
                 s_values := [VNum (100 # 1); VNum (50 # 1); VNull] |}
              eq_refl eq_refl eq_refl eq_refl)
    as (self' & ins & totals & Hrun & Hget & _ & Hsum).
  exists self', ins, totals. split; [exact Hrun|]. split; [exact Hget|].
  rewrite Hsum. reflexivity.
Defined.

(** ** Numbers read from the text *)

Lemma digit_val_range : forall c,
  is_digit c = true -> (0 <= digit_val c <= 9)%Z.
Proof.
  intro c. destruct c as [[] [] [] [] [] [] [] []]; intro H;
    vm_compute in H; try discriminate H; split; vm_compute; discriminate.
Qed.

Lemma digits_val_nonneg : forall s acc,
  all_digits s = true -> (0 <= acc)%Z -> (0 <= digits_val acc s)%Z.
Proof.
  induction s as [|c s IH]; intros acc Hs Hacc; cbn [digits_val].
  - assumption.
  - cbn [all_digits] in Hs. apply andb_true_iff in Hs. destruct Hs as [Hc Hs].
    apply IH; [assumption|]. pose proof (digit_val_range c Hc). lia.
Qed.

Lemma float_nonneg : forall s q, float s = Some q -> (0 <= q)%Q.
Proof.
  intros s q H. unfold float in H.
  destruct (split_point s) as [i f].
  destruct i as [|c i]; [discriminate|].
  destruct f as [f|].
  - destruct f as [|c' f]; [discriminate|].
    destruct (all_digits (String c i) && all_digits (String c' f)) eqn:E;
      [|discriminate].
    apply andb_true_iff in E. destruct E as [Ei Ef].
    assert (Hq : q = Qred (digits_val 0 (String c i ++ String c' f)
                           # Pos.pow 10 (Pos.of_nat (String.length (String c' f)))))
      by congruence.
    rewrite Hq, Qred_correct. unfold Qle. cbn [Qnum Qden].
    rewrite Z.mul_1_r, Z.mul_0_l.
    apply digits_val_nonneg; [|lia].
    now rewrite all_digits_app, Ei, Ef.
  - destruct (all_digits (String c i)) eqn:E; [|discriminate].
    assert (Hq : q = inject_Z (digits_val 0 (String c i))) by congruence.
    rewrite Hq. change 0%Q with (inject_Z 0). rewrite <- Zle_Qle.
    apply digits_val_nonneg; [assumption|lia].
Qed.

(** ** Key metrics are floats *)

Lemma finditer_fuel_in : forall (A : Type) (m : string -> option (A * string))
  fuel s a,
  In a (finditer_fuel m fuel s) -> exists t r, m t = Some (a, r).
Proof.
  intros A m. induction fuel as [|fuel IH]; intros s a H; simpl in H.
  - destruct H.
  - destruct (m s) as [[a' r]|] eqn:E.
    + destruct H as [<- | H]; eauto.
    + destruct s as [|c s]; [destruct H|eauto].
Qed.

Lemma metric_match_float : forall t label v r,
  metric_pattern t = Some ((label, v), r) ->
  label <> EmptyString
  /\ forall_chars is_label_char label = true
  /\ exists q, float (remove_char "," v) = Some q.
Proof.
  intros t label v r H. unfold metric_pattern in H.
  destruct (span is_label_char t) as [l rest] eqn:E.
  apply span_spec in E. destruct E as [_ Hl].
  destruct l as [|c l]; [discriminate|].
  destruct rest as [|c' rest]; [discriminate|].
  destruct (Ascii.eqb c' ":"); [|discriminate].
  destruct (number _) as [[v' r']|] eqn:En; [|discriminate].
  injection H as <- <- <-.
  apply number_spec in En. destruct En as (_ & _ & Hq).
  split; [discriminate|]. split; assumption.
Qed.

Lemma dict_set_in : forall (V : Type) k (v : V) d k' v',
  In (k', v') (dict_set k v d) -> (k' = k /\ v' = v) \/ In (k', v') d.
Proof.
  intros V k v d. induction d as [|[k0 v0] d IH]; intros k' v' H; simpl in H.
  - destruct H as [H | []]. injection H as <- <-. auto.
  - destruct (String.eqb k k0) eqn:E.
    + apply String.eqb_eq in E. subst k0.
      destruct H as [H | H]; [injection H as <- <-; auto|].
      right. now right.
    + destruct H as [H | H]; [right; now left|].
      destruct (IH _ _ H); auto. right. now right.
Qed.

Lemma dict_set_keys : forall (V : Type) k (v : V) d,
  NoDup (dict_keys d) -> NoDup (dict_keys (dict_set k v d)).
Proof.
  intros V k v d. unfold dict_keys.
  induction d as [|[k0 v0] d IH]; intro H; simpl.
  - constructor; [intros []|constructor].
  - inversion H as [|x l Hnotin Hnd]; subst.
    destruct (String.eqb k k0) eqn:E; simpl.
    + constructor; assumption.
    + constructor; [|now apply IH].
      intro Hin. apply in_map_iff in Hin. destruct Hin as ([k1 v1] & Hk & Hin).
      simpl in Hk. subst k1.
      apply dict_set_in in Hin. destruct Hin as [[-> _] | Hin].
      * now rewrite String.eqb_refl in E.
      * apply Hnotin. apply in_map_iff. now exists (k0, v1).
Qed.

Lemma store_metrics_floats : forall ms d,
  (forall l v, In (l, v) ms -> exists q, float (remove_char "," v) = Some q) ->
  (forall k x, In (k, x) d -> exists q, x = MFloat q /\ (0 <= q)%Q) ->
  NoDup (dict_keys d) ->
  (forall k x, In (k, x) (fold_left store_metric ms d) ->
               exists q, x = MFloat q /\ (0 <= q)%Q)
  /\ NoDup (dict_keys (fold_left store_metric ms d)).
Proof.
  induction ms as [|[l v] ms IH]; intros d Hms Hd Hnd.
  - auto.
  - cbn [fold_left]. apply IH.
    + intros l' v' H. apply (Hms l' v'). now right.
    + intros k x H. unfold store_metric in H. cbn [fst snd] in H.
      destruct (Hms l v (or_introl eq_refl)) as [q Hq]. rewrite Hq in H.
      apply dict_set_in in H. destruct H as [[_ ->] | H]; [|eauto].
      exists q. split; [reflexivity|]. now apply float_nonneg in Hq.
    + unfold store_metric. destruct (float _); now apply dict_set_keys.
Qed.

(** Every key metric of a report is stored as a non-negative float,
    never as a string, and under a key that occurs once. *)
Theorem key_metrics_are_floats : forall text,
  (forall k x, In (k, x) (extract_key_metrics text) ->
               exists q, x = MFloat q /\ (0 <= q)%Q)
  /\ NoDup (dict_keys (extract_key_metrics text)).
Proof.
  intro text. unfold extract_key_metrics. apply store_metrics_floats.
  - intros l v H. unfold finditer in H.
    apply finditer_fuel_in in H. destruct H as (t & r & H).
    apply metric_match_float in H. tauto.
  - intros k x [].
  - constructor.
Qed.

(** The amount of an invoice is read without error from every text, is
    never negative, and is missing exactly when the amount pattern
    matches nowhere. *)
Theorem amount_conversion_cannot_fail : forall text,
  exists d,
    invoice_fields text = Ok d
    /\ (forall q, total_amount d = Some q -> (0 <= q)%Q)
    /\ (total_amount d = None <-> search amount_pattern text = None).
Proof.
  intro text.
  destruct (invoice_fields_returns text) as (amount & Hret & Hnone & Hsome).
  eexists. split; [exact Hret|]. cbn [total_amount]. split.
  - intros q Hq. destruct (search amount_pattern text) as [[g1 g2]|].
    + destruct (Hsome _ _ eq_refl) as (g & q' & _ & Hf & Ha).
      rewrite Ha in Hq. injection Hq as <-. now apply float_nonneg in Hf.
    + rewrite (Hnone eq_refl) in Hq. discriminate.
  - split.
    + intro Ha. destruct (search amount_pattern text) as [[g1 g2]|];
        [|reflexivity].
      destruct (Hsome _ _ eq_refl) as (g & q' & _ & _ & Ha'). congruence.
    + exact Hnone.
Qed.

Lemma key_metrics_are_floats_witness :
  exists q, MFloat (1234567.89)%Q = MFloat q /\ (0 <= q)%Q.
Proof.
  apply (proj1 (key_metrics_are_floats "Net Profit: $1,234,567.89")
               "Net Profit" (MFloat (1234567.89)%Q)).
  left. reflexivity.
Defined.

Lemma amount_conversion_cannot_fail_witness :
  exists d,
    invoice_fields "Total due: see over" = Ok d /\ total_amount d = None.
Proof.
  destruct (amount_conversion_cannot_fail "Total due: see over")
    as (d & Hd & _ & Hnone).
  exists d. split; [exact Hd|]. apply Hnone. reflexivity.
Defined.

(** ** Stripped strings *)

Lemma lstrip_first : forall s c r, lstrip s = String c r -> is_space c = false.
Proof.
  induction s as [|x s IH]; intros c r H; simpl in H.
  - discriminate.
  - destruct (is_space x) eqn:E; [now apply (IH c r)|].
    injection H as <- _. assumption.
Qed.

Lemma rstrip_keeps_first : forall c s,
  is_space c = false -> exists r, rstrip (String c s) = String c r.
Proof.
  intros c s H. cbn [rstrip]. destruct (rstrip s); [rewrite H|]; eauto.
Qed.

Lemma rstrip_last : forall s c r,
  rstrip s = String c r -> is_space (last_char c r) = false.
Proof.
  induction s as [|x s IH]; intros c r H.
  - discriminate.
  - cbn [rstrip] in H. destruct (rstrip s) as [|y t] eqn:E.
    + destruct (is_space x) eqn:Ex; [discriminate|].
      injection H as <- <-. exact Ex.
    + injection H as <- <-. cbn [last_char]. now apply (IH y t).
Qed.

Lemma strip_trimmed : forall s, trimmed (strip s) = true.
Proof.
  intro s. unfold strip.
  destruct (lstrip s) as [|c r] eqn:E; [reflexivity|].
  pose proof (lstrip_first _ _ _ E) as Hc.
  destruct (rstrip_keeps_first c r Hc) as [r' Hr]. rewrite Hr.
  unfold trimmed. rewrite Hc, (rstrip_last _ _ _ Hr). reflexivity.
Qed.

Lemma rstrip_cons : forall c s,
  rstrip (String c s)
  = match rstrip s with
    | EmptyString => if is_space c then EmptyString else String c EmptyString
    | r => String c r
    end.
Proof. reflexivity. Qed.

Lemma rstrip_fixed : forall r c,
  is_space (last_char c r) = false -> rstrip (String c r) = String c r.
Proof.
  induction r as [|d r IH]; intros c H.
  - cbn [last_char] in H. cbn. now rewrite H.
  - cbn [last_char] in H. rewrite rstrip_cons. now rewrite (IH d H).
Qed.

Lemma trimmed_fixed : forall s, trimmed s = true -> strip s = s.
Proof.
  intros s H. destruct s as [|c r]; [reflexivity|].
  unfold trimmed in H. apply andb_true_iff in H. destruct H as [Hc Hl].
  apply negb_true_iff in Hc. apply negb_true_iff in Hl.
  unfold strip. cbn [lstrip]. rewrite Hc. now apply rstrip_fixed.
Qed.

Lemma forall_chars_app : forall p a b,
  forall_chars p (a ++ b) = forall_chars p a && forall_chars p b.
Proof.
  intros p. induction a as [|x a IH]; intro b; simpl.
  - reflexivity.
  - now rewrite IH, andb_assoc.
Qed.

Lemma forall_chars_impl : forall (p q : ascii -> bool) s,
  (forall c, p c = true -> q c = true) ->
  forall_chars p s = true -> forall_chars q s = true.
Proof.
  intros p q s Hpq. induction s as [|c s IH]; simpl; intro H.
  - reflexivity.
  - apply andb_true_iff in H. destruct H as [Hc Hs].
    now rewrite (Hpq _ Hc), IH.
Qed.

Lemma forall_chars_last : forall p r c,
  forall_chars p (String c r) = true -> p (last_char c r) = true.
Proof.
  intros p. induction r as [|d r IH]; intros c H.
  - simpl in H. now rewrite andb_true_r in H.
  - cbn [forall_chars] in H. apply andb_true_iff in H. destruct H as [_ H].
    cbn [last_char]. now apply IH.
Qed.

Lemma all_digits_chars : forall s, all_digits s = forall_chars is_digit s.
Proof.
  induction s as [|c s IH]; simpl.
  - reflexivity.
  - now rewrite IH.
Qed.

Lemma invoice_char_not_space : forall c,
  is_invoice_char c = true -> is_space c = false.
Proof. intro c. by_cases_on_char c. Qed.

(** ** Shape of the fields of an invoice *)

Lemma invoice_pattern_shape : forall t g,
  invoice_pattern t = Some g ->
  g <> EmptyString /\ forall_chars is_invoice_char g = true.
Proof.
  intros t g H. unfold invoice_pattern in H.
  destruct (lit_ci "invoice" t) as [r|]; [|discriminate].
  destruct (span is_invoice_char _) as [a rest] eqn:E.
  apply span_spec in E. destruct E as [_ Ha].
  destruct a as [|c a]; [discriminate|].
  injection H as <-. split; [discriminate|assumption].
Qed.

Lemma digits_range_shape : forall lo hi s d r,
  digits_range lo hi s = Some (d, r) ->
  forall_chars is_date_char d = true
  /\ (lo <= String.length d <= hi)%nat.
Proof.
  intros lo hi s d r H. unfold digits_range in H.
  destruct (take_digits hi s) as [d' r'] eqn:E.
  destruct (lo <=? String.length d')%nat eqn:El; [|discriminate].
  injection H as <- <-. apply Nat.leb_le in El.
  apply take_digits_spec in E. destruct E as (_ & Hd & Hl).
  split; [|lia]. rewrite all_digits_chars in Hd.
  apply (forall_chars_impl is_digit); [|assumption].
  intros c Hc. unfold is_date_char. now rewrite Hc.
Qed.

Lemma date_token_shape : forall t g,
  date_token t = Some g ->
  forall_chars is_date_char g = true
  /\ (6 <= String.length g <= 10)%nat.
Proof.
  intros t g H. unfold date_token in H.
  destruct (digits_range 1 2 t) as [[a r1]|] eqn:Ea; [|discriminate].
  destruct (date_sep r1) as [[p r2]|] eqn:Ep; [|discriminate].
  destruct (digits_range 1 2 r2) as [[b r3]|] eqn:Eb; [|discriminate].
  destruct (date_sep r3) as [[q r4]|] eqn:Eq; [|discriminate].
  destruct (digits_range 2 4 r4) as [[c r5]|] eqn:Ec; [|discriminate].
  injection H as <-.
  apply digits_range_shape in Ea, Eb, Ec.
  destruct Ea as [Ha La], Eb as [Hb Lb], Ec as [Hc Lc].
  assert (Hp : is_date_char p = true).
  { destruct r1 as [|x r1]; [discriminate|]. simpl in Ep.
    destruct (is_date_sep x) eqn:E; [|discriminate]. injection Ep as <- _.
    unfold is_date_char. rewrite E. apply orb_true_r. }
  assert (Hq : is_date_char q = true).
  { destruct r3 as [|x r3]; [discriminate|]. simpl in Eq.
    destruct (is_date_sep x) eqn:E; [|discriminate]. injection Eq as <- _.
    unfold is_date_char. rewrite E. apply orb_true_r. }
  split.
  - rewrite forall_chars_app. cbn [forall_chars append].
    rewrite forall_chars_app. cbn [forall_chars].
    now rewrite Ha, Hp, Hb, Hq, Hc.
  - rewrite length_app_s. cbn [String.length append].
    rewrite length_app_s. cbn [String.length]. lia.
Qed.

Lemma date_pattern_shape : forall t g,
  date_pattern t = Some g ->
  forall_chars is_date_char g = true /\ (6 <= String.length g <= 10)%nat.
Proof.
  intros t g H. unfold date_pattern in H.
  destruct (lit_ci "date" t); [|discriminate].
  now apply date_token_shape in H.
Qed.

(** What [extract_invoice_data] returns is built from the first text. *)
Lemma extract_invoice_inv : forall fs self d,
  extract_invoice_data fs self = Ok d ->
  d = empty_invoice
  \/ exists text,
       invoice_number d = option_map strip (search invoice_pattern text)
       /\ invoice_date d = search date_pattern text
       /\ vendor d = Some (strip (first_line text)).
Proof.
  intros fs self d H. unfold extract_invoice_data in H.
  destruct (extract_text fs self) as [pages|]; [|discriminate].
  cbn [bind] in H. destruct pages as [|text rest].
  - left. congruence.
  - right. exists text.
    destruct (invoice_fields_returns text) as (amount & Hf & _).
    rewrite Hf in H. cbn [bind] in H.
    destruct (extract_tables fs self); [|discriminate]. cbn [bind] in H.
    destruct (table_items a); [|discriminate]. cbn [bind] in H.
    injection H as <-. cbn. auto.
Qed.

(** The text fields of an extracted invoice: the invoice number is a
    non-empty run of letters, digits and hyphens; the date is six to ten
    characters, digits and separators only; the vendor has no whitespace
    at either end. *)
Theorem invoice_fields_shape : forall fs self d,
  extract_invoice_data fs self = Ok d ->
  (forall n, invoice_number d = Some n ->
             n <> EmptyString /\ forall_chars is_invoice_char n = true)
  /\ (forall g, invoice_date d = Some g ->
                forall_chars is_date_char g = true
                /\ (6 <= String.length g <= 10)%nat)
  /\ (forall v, vendor d = Some v -> trimmed v = true).
Proof.
  intros fs self d H. apply extract_invoice_inv in H.
  destruct H as [-> | (text & Hn & Hd & Hv)].
  - repeat split; discriminate.
  - rewrite Hn, Hd, Hv. split; [|split].
    + intros n Hs.
      destruct (search invoice_pattern text) as [g|] eqn:E; [|discriminate].
      injection Hs as <-.
      apply search_found in E. destruct E as (pre & t & _ & Ht).
      apply invoice_pattern_shape in Ht. destruct Ht as [Hne Hall].
      assert (Hfix : strip g = g).
      { apply trimmed_fixed. destruct g as [|c r]; [reflexivity|].
        unfold trimmed.
        rewrite (invoice_char_not_space c),
          (invoice_char_not_space (last_char c r)); [reflexivity| |].
        - now apply forall_chars_last.
        - simpl in Hall. apply andb_true_iff in Hall. tauto. }
      now rewrite Hfix.
    + intros g Hs. apply search_found in Hs.
      destruct Hs as (pre & t & _ & Ht). now apply date_pattern_shape in Ht.
    + intros v Hs. injection Hs as <-. apply strip_trimmed.
Qed.

Lemma invoice_fields_shape_witness :
  forall_chars is_invoice_char "INV-2023-001" = true
  /\ trimmed "Acme Corp" = true.
Proof.
  destruct (invoice_fields_shape
              (one_file "in.pdf"
                 (PdfFile [text_page ("  Acme Corp " ++ NL
                                      ++ "Invoice #: INV-2023-001")]))
              {| pdf_path := "in.pdf" |} _ eq_refl) as (Hn & _ & Hv).
  split.
  - apply (Hn "INV-2023-001"). reflexivity.
  - apply (Hv "Acme Corp"). reflexivity.
Defined.

(** ** Shape of the fields of a report *)

Lemma rstrip_head : forall s y t,
  rstrip s = String y t -> exists s', s = String y s'.
Proof.
  intros s y t H. destruct s as [|x s]; [discriminate|].
  rewrite rstrip_cons in H. destruct (rstrip s).
  - destruct (is_space x); [discriminate|]. injection H as <- _. eauto.
  - injection H as <- _. eauto.
Qed.

Lemma no_break_cons : forall c d r,
  no_break (String c (String d r))
  = negb (Ascii.eqb c nl && (Ascii.eqb d nl || is_alpha d))
    && no_break (String d r).
Proof. reflexivity. Qed.

Lemma no_break_tail : forall c s, no_break (String c s) = true -> no_break s = true.
Proof.
  intros c s H. destruct s as [|d r]; [reflexivity|].
  rewrite no_break_cons in H. apply andb_true_iff in H. tauto.
Qed.

Lemma no_break_lstrip : forall s, no_break s = true -> no_break (lstrip s) = true.
Proof.
  induction s as [|c s IH]; intro H.
  - reflexivity.
  - cbn [lstrip]. destruct (is_space c); [|assumption].
    apply IH. now apply no_break_tail in H.
Qed.

Lemma no_break_rstrip : forall s, no_break s = true -> no_break (rstrip s) = true.
Proof.
  induction s as [|c s IH]; intro H.
  - reflexivity.
  - rewrite rstrip_cons. pose proof (no_break_tail _ _ H) as Hs.
    specialize (IH Hs).
    destruct (rstrip s) as [|y t] eqn:E.
    + destruct (is_space c); reflexivity.
    + destruct (rstrip_head _ _ _ E) as [s' ->].
      rewrite no_break_cons in H |- *. apply andb_true_iff in H.
      destruct H as [H _]. now rewrite H, IH.
Qed.

Lemma lazy_body_head : forall s d r,
  lazy_body s = String d r -> exists s', s = String d s'.
Proof.
  intros s d r H. destruct s as [|c s]; [discriminate|].
  cbn [lazy_body] in H. destruct (at_boundary (String c s)); [discriminate|].
  injection H as <- _. eauto.
Qed.

Lemma lazy_body_no_break : forall s, no_break (lazy_body s) = true.
Proof.
  induction s as [|c s IH].
  - reflexivity.
  - cbn [lazy_body]. destruct (at_boundary (String c s)) eqn:E; [reflexivity|].
    destruct (lazy_body s) as [|d r] eqn:El; [reflexivity|].
    destruct (lazy_body_head _ _ _ El) as [s' ->].
    rewrite no_break_cons, IH. cbn [at_boundary] in E. now rewrite E.
Qed.

Lemma forall_chars_tail : forall p c s,
  forall_chars p (String c s) = true -> forall_chars p s = true.
Proof. intros p c s H. simpl in H. apply andb_true_iff in H. tauto. Qed.

Lemma forall_chars_lstrip : forall p s,
  forall_chars p s = true -> forall_chars p (lstrip s) = true.
Proof.
  intros p. induction s as [|c s IH]; intro H.
  - reflexivity.
  - cbn [lstrip]. destruct (is_space c); [|assumption].
    apply IH. now apply forall_chars_tail in H.
Qed.

Lemma forall_chars_rstrip : forall p s,
  forall_chars p s = true -> forall_chars p (rstrip s) = true.
Proof.
  intros p. induction s as [|c s IH]; intro H.
  - reflexivity.
  - rewrite rstrip_cons. simpl in H. apply andb_true_iff in H.
    destruct H as [Hc Hs]. specialize (IH Hs).
    destruct (rstrip s).
    + destruct (is_space c); [reflexivity|]. simpl. now rewrite Hc.
    + cbn [forall_chars] in *. now rewrite Hc, IH.
Qed.

Lemma store_metric_keys : forall ms d k,
  In k (dict_keys (fold_left store_metric ms d)) ->
  In k (dict_keys d) \/ exists m, In m ms /\ k = strip (fst m).
Proof.
  induction ms as [|m ms IH]; intros d k H.
  - now left.
  - cbn [fold_left] in H. apply IH in H. destruct H as [H | (m' & Hm' & ->)].
    + unfold dict_keys in H. apply in_map_iff in H.
      destruct H as ([k' x] & Hk & Hin). simpl in Hk. subst k'.
      unfold store_metric in Hin.
      destruct (float _); apply dict_set_in in Hin;
        (destruct Hin as [[-> _] | Hin];
         [right; exists m; split; [now left|reflexivity]
         |left; unfold dict_keys; apply in_map_iff; now exists (k, x)]).
    + right. exists m'. split; [now right|reflexivity].
Qed.

Lemma extract_report_inv : forall fs self d,
  extract_report_data fs self = Ok d ->
  (title d = None /\ report_date d = None /\ summary d = None
   /\ key_metrics d = [])
  \/ exists text,
       title d = Some (strip (first_line text))
       /\ report_date d = search date_pattern text
       /\ summary d = option_map strip (search summary_pattern text)
       /\ key_metrics d = extract_key_metrics text.
Proof.
  intros fs self d H.
  destruct (pdf_open fs self) as [pages|e] eqn:Hopen.
  - rewrite (extract_report_loaded _ _ _ Hopen) in H. injection H as <-.
    destruct (page_texts pages) as [|text rest]; cbn.
    + left. auto.
    + right. exists text. auto.
  - unfold extract_report_data, extract_text in H. rewrite Hopen in H.
    discriminate.
Qed.

(** The text fields of an extracted report: title and summary have no
    whitespace at either end; the summary never runs over a line break
    that is followed by a letter or by a second line break; the date is
    six to ten characters, digits and separators only; a metric key has
    no whitespace at either end and consists of letters and whitespace. *)
Theorem report_fields_shape : forall fs self d,
  extract_report_data fs self = Ok d ->
  (forall t, title d = Some t -> trimmed t = true)
  /\ (forall s, summary d = Some s -> trimmed s = true /\ no_break s = true)
  /\ (forall g, report_date d = Some g ->
                forall_chars is_date_char g = true
                /\ (6 <= String.length g <= 10)%nat)
  /\ (forall k, In k (dict_keys (key_metrics d)) ->
                trimmed k = true /\ forall_chars is_label_char k = true).
Proof.
  intros fs self d H. apply extract_report_inv in H.
  destruct H as [(Ht & Hd & Hs & Hk) | (text & Ht & Hd & Hs & Hk)];
    rewrite Ht, Hd, Hs, Hk.
  - repeat split; try discriminate; destruct H.
  - split; [|split; [|split]].
    + intros t Heq. injection Heq as <-. apply strip_trimmed.
    + intros s Heq.
      destruct (search summary_pattern text) as [g|] eqn:E; [|discriminate].
      injection Heq as <-. split; [apply strip_trimmed|].
      apply search_found in E. destruct E as (pre & t & _ & Hp).
      unfold summary_pattern in Hp.
      destruct (summary_heading t) as [[|c r]|]; try discriminate.
      destruct (Ascii.eqb c ":"); [|discriminate]. injection Hp as <-.
      unfold strip. apply no_break_rstrip, no_break_lstrip, lazy_body_no_break.
    + intros g Heq. apply search_found in Heq.
      destruct Heq as (pre & t & _ & Hp). now apply date_pattern_shape in Hp.
    + intros k Hin. unfold extract_key_metrics in Hin.
      apply store_metric_keys in Hin.
      destruct Hin as [[] | ([label v] & Hm & ->)].
      split; [apply strip_trimmed|]. cbn [fst].
      unfold finditer in Hm. apply finditer_fuel_in in Hm.
      destruct Hm as (t & r & Hp). apply metric_match_float in Hp.
      destruct Hp as (_ & Hl & _).
      unfold strip. now apply forall_chars_rstrip, forall_chars_lstrip.
Qed.

Lemma report_fields_shape_witness :
  no_break "Sales grew." = true
  /\ trimmed "Net Profit" = true.
Proof.
  destruct (report_fields_shape
              (one_file "r.pdf"
                 (PdfFile [text_page ("Annual Report" ++ NL
                                      ++ "Summary: Sales grew." ++ NL
                                      ++ "Details follow." ++ NL
                                      ++ "Net Profit: 12")]))
              {| pdf_path := "r.pdf" |} _ eq_refl) as (_ & Hs & _ & Hk).
  split.
  - apply (Hs "Sales grew."). reflexivity.
  - apply (Hk "Net Profit"). vm_compute. auto.
Defined.

(** ** The processor keeps its records *)

Lemma step_data_list : forall f self c,
  data_list (step f self c)
  = (data_list self ++ match c with AddData d => [d] | _ => [] end)%list.
Proof.
  intros f self c. destruct c; simpl.
  - reflexivity.
  - unfold process_invoice_data. rewrite app_nil_r.
    destruct (data_list self) eqn:E; simpl; now rewrite ?E.
  - unfold process_report_data. rewrite app_nil_r.
    destruct (data_list self) eqn:E; simpl; now rewrite ?E.
Qed.

(** Whatever is done with a processor, its records are the initial ones
    followed by the added ones, in the order of addition: tabulating
    never drops, reorders or alters a record, and the JSON export returns
    exactly this list. *)
Theorem records_are_append_only :
  forall (strptime : string -> string -> option value) init_data calls,
  data_list (run strptime (DataProcessor__init__ init_data) calls)
  = (init_data ++ added_data calls)%list
  /\ export_as_json (run strptime (DataProcessor__init__ init_data) calls)
     = Ok (init_data ++ added_data calls)%list.
Proof.
  intros strptime init_data calls.
  assert (H : forall self,
             data_list (run strptime self calls)
             = (data_list self ++ added_data calls)%list).
  { unfold run. induction calls as [|c calls IH]; intro self; simpl.
    - now rewrite app_nil_r.
    - rewrite IH, step_data_list, <- app_assoc. reflexivity. }
  unfold export_as_json. rewrite H. auto.
Qed.

(** ** The frame is rectangular *)

Lemma parse_all_length : forall f fmt vs ds,
  parse_all f fmt vs = Some ds -> List.length ds = List.length vs.
Proof.
  intros f fmt. induction vs as [|v vs IH]; intros ds H; simpl in H.
  - injection H as <-. reflexivity.
  - destruct (parse_value f fmt v); [|discriminate].
    destruct (parse_all f fmt vs) as [ds'|]; [|discriminate].
    injection H as <-. simpl. now rewrite (IH ds').
Qed.

Lemma try_formats_length : forall f s,
  List.length (s_values (try_formats f s)) = List.length (s_values s).
Proof.
  intros f s. unfold try_formats. generalize date_formats. intro fmts.
  revert s. induction fmts as [|fmt fmts IH]; intro s; simpl.
  - reflexivity.
  - rewrite IH. unfold to_datetime.
    destruct (s_dtype s); try reflexivity;
      destruct (parse_all f fmt (s_values s)) eqn:E; try reflexivity;
      apply (parse_all_length f fmt _ _ E).
Qed.

Lemma frame_of_records_rectangular : forall rs c,
  In c (df_columns (frame_of_records rs)) ->
  List.length (s_values (snd c)) = List.length rs.
Proof.
  intros rs c H. unfold frame_of_records in H. cbn [df_columns] in H.
  apply in_map_iff in H. destruct H as (k & <- & _).
  cbn. now rewrite length_map.
Qed.

Lemma dict_get_in : forall (V : Type) k (d : list (string * V)) v,
  dict_get k d = Some v -> In (k, v) d.
Proof.
  intros V k d v. induction d as [|[k0 v0] d IH]; simpl; intro H.
  - discriminate.
  - destruct (String.eqb k k0) eqn:E.
    + apply String.eqb_eq in E. subst k0. injection H as ->. now left.
    + right. now apply IH.
Qed.

Lemma convert_dates_rectangular : forall f df n,
  (forall c, In c (df_columns df) -> List.length (s_values (snd c)) = n) ->
  forall c, In c (df_columns (convert_dates f df)) ->
            List.length (s_values (snd c)) = n.
Proof.
  intros f df n H c Hc. unfold convert_dates in Hc.
  destruct (column "date" df) as [s|] eqn:E; [|now apply H].
  destruct (negb (isna_all s)); [|now apply H].
  unfold set_column in Hc. cbn [df_columns] in Hc.
  destruct c as [k s']. apply dict_set_in in Hc.
  destruct Hc as [[-> ->] | Hc]; [|now apply H].
  cbn [snd]. rewrite try_formats_length.
  unfold column in E. pose proof (dict_get_in _ _ _ _ E) as Hin.
  exact (H _ Hin).
Qed.

Lemma convert_dates_index : forall f df,
  df_index (convert_dates f df) = df_index df.
Proof.
  intros f df. unfold convert_dates.
  destruct (column "date" df); [|reflexivity].
  destruct (negb (isna_all s)); reflexivity.
Qed.

Lemma drop_column_subset : forall name cols c,
  In c (drop_column name cols) -> In c cols.
Proof.
  intros name cols c. induction cols as [|[k s] cols IH]; simpl; intro H.
  - assumption.
  - destruct (String.eqb name k); [now right|].
    destruct H; [now left|right; auto].
Qed.

(** The tabulated frame has one row per record: its index and every one
    of its columns have exactly as many entries as there are records. *)
Theorem frame_has_one_row_per_record :
  forall (strptime : string -> string -> option value) self df,
  df = snd (process_invoice_data strptime self)
  \/ df = snd (process_report_data strptime self) ->
  index_length (df_index df) = List.length (data_list self)
  /\ forall c, In c (df_columns df) ->
               List.length (s_values (snd c)) = List.length (data_list self).
Proof.
  intros strptime [dl pd] df Hdf. cbn [data_list].
  destruct dl as [|d ds].
  - destruct Hdf as [-> | ->]; split; try reflexivity; intros c [].
  - assert (Hrect : forall (info : Data -> record) c,
               In c (df_columns (convert_dates strptime
                                   (frame_of_records (map info (d :: ds))))) ->
               List.length (s_values (snd c)) = List.length (d :: ds)).
    { intros info c Hc.
      apply (convert_dates_rectangular strptime
               (frame_of_records (map info (d :: ds)))); [|assumption].
      intros c' Hc'. apply frame_of_records_rectangular in Hc'.
      now rewrite length_map in Hc'. }
    assert (Hidx : forall info : Data -> record,
               index_length
                 (df_index (convert_dates strptime
                              (frame_of_records (map info (d :: ds)))))
               = List.length (d :: ds)).
    { intro info. rewrite convert_dates_index.
      unfold frame_of_records. cbn [df_index index_length].
      now rewrite length_map. }
    destruct Hdf as [-> | ->].
    + unfold process_invoice_data. cbn [data_list snd].
      set (df0 := convert_dates strptime
                    (frame_of_records (map invoice_info (d :: ds)))) in *.
      destruct (column "invoice_number" df0) as [s|] eqn:E;
        [|split; [apply Hidx|apply Hrect]].
      destruct (negb (isna_all s)); [|split; [apply Hidx|apply Hrect]].
      unfold set_index. rewrite E. cbn [df_index df_columns index_length].
      split.
      * apply dict_get_in in E. exact (Hrect invoice_info _ E).
      * intros c Hc. apply drop_column_subset in Hc.
        now apply (Hrect invoice_info).
    + unfold process_report_data. cbn [data_list snd].
      split; [apply Hidx|apply Hrect].
Qed.

Lemma frame_has_one_row_per_record_witness :
  index_length
    (df_index
       (snd (process_report_data pandas_strptime
               (DataProcessor__init__
                  [invoice_of None (Some "01/02/2023") None;
                   invoice_of None None None])))) = 2%nat.
Proof.
  apply (frame_has_one_row_per_record pandas_strptime
           (DataProcessor__init__
              [invoice_of None (Some "01/02/2023") None;
               invoice_of None None None])).
  right. reflexivity.
Defined.

(** ** Rows follow the records *)

Lemma vendor_cells_invoice : forall dl,
  map (cell "vendor") (map invoice_info dl) = map of_string (map get_vendor dl).
Proof. intro dl. rewrite !map_map. reflexivity. Qed.

Lemma amount_cells_invoice : forall dl,
  map (cell "total_amount") (map invoice_info dl)
  = map of_float (map get_total_amount dl).
Proof. intro dl. rewrite !map_map. reflexivity. Qed.

Lemma count_cells_invoice : forall dl,
  map (cell "line_item_count") (map invoice_info dl)
  = map (fun d => of_len (get_line_items d)) dl.
Proof. intro dl. rewrite !map_map. reflexivity. Qed.

Lemma infer_dtype_counts : forall (A : Type) (f : Data -> list A) d ds,
  infer_dtype (map (fun x => of_len (f x)) (d :: ds)) = DNumber.
Proof.
  intros A f d ds. unfold infer_dtype.
  assert (H : forall l,
             forallb is_number_or_null (map (fun x => of_len (f x)) l) = true)
    by (induction l as [|x l IH]; [reflexivity|exact IH]).
  rewrite H. reflexivity.
Qed.

(** Row [i] of the frame of invoices holds the vendor, the amount and the
    number of line items of record [i]: the columns list the fields of
    the records in the order of the records, a missing field as null. *)
Theorem invoice_columns_follow_records :
  forall (strptime : string -> string -> option value) d ds pd,
  let df := snd (process_invoice_data strptime
                   {| data_list := d :: ds; processed_data := pd |}) in
  (exists s, column "vendor" df = Some s
             /\ s_values s = map of_string (map get_vendor (d :: ds)))
  /\ (exists s, column "total_amount" df = Some s
                /\ s_values s = map of_float (map get_total_amount (d :: ds)))
  /\ (exists s, column "line_item_count" df = Some s
                /\ s_values s
                   = map (fun x => of_len (get_line_items x)) (d :: ds)
                /\ s_dtype s = DNumber).
Proof.
  intros strptime d ds pd df. subst df.
  unfold process_invoice_data. cbn [data_list snd].
  rewrite invoice_frame_raw.
  pose proof (vendor_cells_invoice (d :: ds)) as Hv.
  pose proof (amount_cells_invoice (d :: ds)) as Ha.
  pose proof (count_cells_invoice (d :: ds)) as Hc.
  set (recs := map invoice_info (d :: ds)) in *.
  unfold convert_dates, column, invoice_keys.
  cbn [map df_columns dict_get String.eqb Ascii.eqb Bool.eqb].
  rewrite Hv, Ha, Hc, (infer_dtype_counts _ get_line_items d ds).
  destruct (negb (isna_all _));
    unfold set_column, set_index, column;
    cbn [map df_columns df_index dict_get dict_set drop_column
         String.eqb Ascii.eqb Bool.eqb];
    destruct (negb (isna_all _));
    cbn [map df_columns df_index dict_get dict_set drop_column
         String.eqb Ascii.eqb Bool.eqb];
    (split; [|split]); eexists; (split; [reflexivity|]); try reflexivity;
    (split; [reflexivity|]); reflexivity.
Qed.

(** ** One date that does not parse keeps the column raw *)

Lemma parses_nonnull_bad : forall f fmt vs bad,
  In (VStr bad) vs -> f fmt bad = None -> parses_nonnull f fmt vs = false.
Proof.
  intros f fmt vs bad Hin Hbad. unfold parses_nonnull.
  induction vs as [|v vs IH]; [destruct Hin|].
  destruct Hin as [-> | Hin]; simpl.
  - now rewrite Hbad.
  - rewrite (IH Hin). apply andb_false_r.
Qed.

Lemma find_nothing : forall (A : Type) (f : A -> bool) l,
  (forall x, In x l -> f x = false) -> find f l = None.
Proof.
  intros A f l H. induction l as [|x l IH]; simpl.
  - reflexivity.
  - rewrite (H x) by now left. apply IH. intros y Hy. apply H. now right.
Qed.

Lemma column_wide_bad : forall f vs bad,
  In (VStr bad) vs ->
  (forall fmt, In fmt date_formats -> f fmt bad = None) ->
  column_wide_dates f vs = {| s_dtype := DObject; s_values := vs |}.
Proof.
  intros f vs bad Hin Hbad. unfold column_wide_dates.
  replace (find (fun fmt => parses_nonnull f fmt vs) date_formats)
    with (@None string); [reflexivity|].
  symmetry. apply find_nothing. intros fmt Hfmt.
  apply (parses_nonnull_bad f fmt vs bad Hin). now apply Hbad.
Qed.

(** The dtype of the column of amounts: numeric as soon as one invoice
    has an amount, object when none has. *)
Lemma infer_dtype_amounts : forall l : list (option Q),
  infer_dtype (map of_float l)
  = if forallb is_null (map of_float l) then DObject else DNumber.
Proof.
  intro l. unfold infer_dtype.
  assert (H : forallb is_number_or_null (map of_float l) = true)
    by (induction l as [|[q|] l IH]; [reflexivity|exact IH|exact IH]).
  rewrite H. reflexivity.
Qed.

Lemma amounts_some_not_null : forall (l : list (option Q)) q,
  In (Some q) l -> forallb is_null (map of_float l) = false.
Proof.
  intros l q H. apply not_true_is_false. intro Hall.
  rewrite forallb_forall in Hall.
  specialize (Hall (VNum q) (in_map of_float _ _ H)). discriminate.
Qed.

Lemma amounts_none_null : forall l : list (option Q),
  (forall o, In o l -> o = None) -> forallb is_null (map of_float l) = true.
Proof.
  intros l H. apply forallb_forall. intros v Hv.
  apply in_map_iff in Hv. destruct Hv as (o & <- & Ho).
  now rewrite (H o Ho).
Qed.

(** The frame of invoices has a vendor column and a column of amounts
    whose dtype is inferred from the amounts of the records. *)
Lemma invoice_amount_column :
  forall (strptime : string -> string -> option value) d ds pd,
  let df := snd (process_invoice_data strptime
                   {| data_list := d :: ds; processed_data := pd |}) in
  let amounts := map of_float (map get_total_amount (d :: ds)) in
  (exists s, column "vendor" df = Some s)
  /\ column "total_amount" df
     = Some {| s_dtype := infer_dtype amounts; s_values := amounts |}.
Proof.
  intros strptime d ds pd df amounts. subst df amounts.
  unfold process_invoice_data. cbn [data_list snd].
  rewrite invoice_frame_raw.
  pose proof (amount_cells_invoice (d :: ds)) as Ha.
  set (recs := map invoice_info (d :: ds)) in *.
  unfold convert_dates, column, invoice_keys.
  cbn [map df_columns dict_get String.eqb Ascii.eqb Bool.eqb].
  rewrite Ha.
  destruct (negb (isna_all _));
    unfold set_column, set_index, column;
    cbn [map df_columns df_index dict_get dict_set drop_column
         String.eqb Ascii.eqb Bool.eqb];
    destruct (negb (isna_all _));
    cbn [map df_columns df_index dict_get dict_set drop_column
         String.eqb Ascii.eqb Bool.eqb];
    (split; [eexists; reflexivity|reflexivity]).
Qed.

(** When the date of a single invoice parses under none of the six
    formats, the date column of the whole frame stays a column of raw
    strings.  The analysis then reports no monthly totals and no monthly
    change, provided that some invoice has an amount; when no invoice has
    an amount the analysis raises a [TypeError], whatever the dates. *)
Theorem one_bad_date_disables_monthly_insights :
  forall (strptime : string -> string -> option value) d ds pd bad,
  In (Some bad) (map get_date (d :: ds)) ->
  (forall fmt, In fmt date_formats -> strptime fmt bad = None) ->
  let df := snd (process_invoice_data strptime
                   {| data_list := d :: ds; processed_data := pd |}) in
  column "date" df
  = Some {| s_dtype := DObject;
            s_values := map of_string (map get_date (d :: ds)) |}
  /\ ((exists q, In (Some q) (map get_total_amount (d :: ds))) ->
      exists self' ins,
        analyze_invoices (DataAnalyzer__init__ df) = Ok (self', ins)
        /\ dict_get "monthly_totals" ins = None
        /\ dict_get "monthly_change" ins = None)
  /\ ((forall o, In o (map get_total_amount (d :: ds)) -> o = None) ->
      analyze_invoices (DataAnalyzer__init__ df) = Raise TypeError).
Proof.
  intros strptime d ds pd bad Hin Hbad df.
  assert (Hraw : In (VStr bad) (map of_string (map get_date (d :: ds))))
    by (apply (in_map of_string _ (Some bad)); assumption).
  assert (Hcol : column "date" df
                 = Some {| s_dtype := DObject;
                           s_values := map of_string (map get_date (d :: ds)) |}).
  { subst df.
    destruct (process_invoice_shape strptime d ds pd)
      as (vendors & totals & counts & ->).
    assert (Hnn : isna_all {| s_dtype := DObject;
                              s_values := map of_string (map get_date (d :: ds)) |}
                  = false).
    { unfold isna_all. cbn [s_values]. apply not_true_is_false. intro Hall.
      rewrite forallb_forall in Hall. specialize (Hall _ Hraw). discriminate. }
    rewrite Hnn. cbn [negb].
    rewrite try_formats_column_wide, (column_wide_bad _ _ bad Hraw Hbad).
    destruct (negb (isna_all _)); reflexivity. }
  assert (Hne : empty (data (DataAnalyzer__init__ df)) = false)
    by (subst df; apply processed_invoices_not_empty; discriminate).
  destruct (invoice_amount_column strptime d ds pd) as [[vendors Hven] Hamt].
  fold df in Hven, Hamt. rewrite infer_dtype_amounts in Hamt.
  split; [exact Hcol|]. split.
  - intros [q Hq]. rewrite (amounts_some_not_null _ q Hq) in Hamt.
    rewrite (analyze_invoices_numeric _ _ Hne Hamt eq_refl).
    unfold time_series_analysis, DataAnalyzer__init__. cbn [data].
    rewrite Hcol. eexists. eexists. split; [reflexivity|]. split; reflexivity.
  - intro Hnone. rewrite (amounts_none_null _ Hnone) in Hamt.
    exact (analyze_invoices_not_numeric _ _ _ Hne Hamt Hven eq_refl).
Qed.

Lemma one_bad_date_disables_monthly_insights_witness :
  exists self' ins,
    analyze_invoices
      (DataAnalyzer__init__
         (snd (process_invoice_data pandas_strptime
                 (DataProcessor__init__
                    [invoice_of (Some "A-1") (Some "01/15/2023") (Some (100 # 1));
                     invoice_of (Some "A-2") (Some "2/3/23") (Some (50 # 1))]))))
    = Ok (self', ins)
    /\ dict_get "monthly_totals" ins = None
    /\ dict_get "monthly_change" ins = None.
Proof.
  apply (one_bad_date_disables_monthly_insights pandas_strptime
           (invoice_of (Some "A-1") (Some "01/15/2023") (Some (100 # 1)))
           [invoice_of (Some "A-2") (Some "2/3/23") (Some (50 # 1))]
           empty_frame "2/3/23").
  - right. left. reflexivity.
  - intros fmt Hfmt.
    repeat (destruct Hfmt as [<- | Hfmt]; [reflexivity|]). destruct Hfmt.
  - exists (100 # 1). left. reflexivity.
Defined.

(** No invoice of the batch has an amount: the analysis raises. *)
Example analysis_without_amounts_raises :
  analyze_invoices
    (DataAnalyzer__init__
       (snd (process_invoice_data pandas_strptime
               (DataProcessor__init__
                  [invoice_of (Some "A-1") (Some "01/15/2023") None;
                   invoice_of (Some "A-2") (Some "02/03/2023") None]))))
  = Raise TypeError.
Proof. vm_compute. reflexivity. Qed.

(** ** Columns of the frame of reports *)

Lemma existsb_eqb_in : forall k l,
  existsb (String.eqb k) l = true <-> In k l.
Proof.
  intros k l. rewrite existsb_exists. split.
  - intros (x & Hx & E). apply String.eqb_eq in E. now subst.
  - intro H. exists k. split; [assumption|apply String.eqb_refl].
Qed.

Lemma in_add_key : forall acc x k, In k (add_key acc x) <-> In k acc \/ k = x.
Proof.
  intros acc x k. unfold add_key.
  destruct (existsb (String.eqb x) acc) eqn:E.
  - apply existsb_eqb_in in E. split; [auto|]. intros [H | ->]; assumption.
  - rewrite in_app_iff. simpl. intuition.
Qed.

Lemma in_add_keys : forall ks acc k,
  In k (fold_left add_key ks acc) <-> In k acc \/ In k ks.
Proof.
  induction ks as [|x ks IH]; intros acc k; simpl.
  - tauto.
  - rewrite IH, in_add_key. intuition.
Qed.

Lemma in_union_keys_from : forall (rs : list record) acc k,
  In k (fold_left (fun acc r => fold_left add_key (dict_keys r) acc) rs acc)
  <-> In k acc \/ exists r, In r rs /\ In k (dict_keys r).
Proof.
  induction rs as [|r rs IH]; intros acc k; simpl.
  - split; [auto|]. intros [H | (r & [] & _)]. assumption.
  - rewrite IH, in_add_keys. split.
    + intros [[H | H] | (r' & Hr' & Hk)].
      * now left.
      * right. exists r. auto.
      * right. exists r'. auto.
    + intros [H | (r' & [<- | Hr'] & Hk)].
      * left. now left.
      * left. now right.
      * right. exists r'. auto.
Qed.

Lemma in_union_keys : forall (rs : list record) k,
  In k (union_keys rs) <-> exists r, In r rs /\ In k (dict_keys r).
Proof.
  intros rs k. unfold union_keys. rewrite in_union_keys_from.
  split; [intros [[] | H]; assumption|auto].
Qed.

Lemma add_key_nodup : forall acc x, NoDup acc -> NoDup (add_key acc x).
Proof.
  intros acc x H. unfold add_key.
  destruct (existsb (String.eqb x) acc) eqn:E; [assumption|].
  apply NoDup_app; [assumption|repeat constructor; intros []|].
  intros k Hk [<- | []].
  apply existsb_eqb_in in Hk. congruence.
Qed.

Lemma union_keys_nodup : forall rs : list record, NoDup (union_keys rs).
Proof.
  intro rs. unfold union_keys.
  assert (H : NoDup (@nil string)) by constructor.
  revert H. generalize (@nil string).
  induction rs as [|r rs IH]; intros acc H; simpl.
  - assumption.
  - apply IH. revert acc H.
    induction (dict_keys r) as [|x ks IHk]; intros acc H; simpl.
    + assumption.
    + apply IHk. now apply add_key_nodup.
Qed.

Lemma labels_of_records : forall rs, labels (frame_of_records rs) = union_keys rs.
Proof.
  intro rs. unfold labels, dict_keys, frame_of_records. cbn [df_columns].
  rewrite map_map. cbn [fst]. apply map_id.
Qed.

Lemma dict_set_present : forall (V : Type) k (v : V) d,
  In k (dict_keys d) -> dict_keys (dict_set k v d) = dict_keys d.
Proof.
  intros V k v d. unfold dict_keys.
  induction d as [|[k0 v0] d IH]; simpl; intro H.
  - destruct H.
  - destruct (String.eqb k k0) eqn:E; simpl.
    + reflexivity.
    + f_equal. apply IH. destruct H as [<- | H]; [|assumption].
      now rewrite String.eqb_refl in E.
Qed.

Lemma dict_get_keys : forall (V : Type) k (d : list (string * V)) v,
  dict_get k d = Some v -> In k (dict_keys d).
Proof.
  intros V k d v H. apply dict_get_in in H.
  unfold dict_keys. apply in_map_iff. now exists (k, v).
Qed.

Lemma dict_get_absent : forall (V : Type) k (d : list (string * V)),
  ~ In k (dict_keys d) -> dict_get k d = None.
Proof.
  intros V k d H. destruct (dict_get k d) eqn:E; [|reflexivity].
  apply dict_get_keys in E. contradiction.
Qed.

Lemma convert_dates_labels : forall f df, labels (convert_dates f df) = labels df.
Proof.
  intros f df. unfold convert_dates.
  destruct (column "date" df) as [s|] eqn:E; [|reflexivity].
  destruct (negb (isna_all s)); [|reflexivity].
  unfold labels, set_column. cbn [df_columns].
  apply dict_set_present. unfold column in E. now apply dict_get_keys in E.
Qed.

Lemma convert_dates_other : forall f df k,
  String.eqb k "date" = false -> column k (convert_dates f df) = column k df.
Proof.
  intros f df k H. unfold convert_dates.
  destruct (column "date" df) as [s|]; [|reflexivity].
  destruct (negb (isna_all s)); [|reflexivity].
  unfold column, set_column. cbn [df_columns]. now apply dict_get_set_other.
Qed.

(** Keys and values of a dictionary filled by a loop of assignments *)
Lemma loop_keys : forall (A V : Type) (key : A -> string) (val : A -> V) ms d k,
  In k (dict_keys (fold_left (fun acc m => dict_set (key m) (val m) acc) ms d))
  <-> In k (dict_keys d) \/ exists m, In m ms /\ k = key m.
Proof.
  intros A V key val. induction ms as [|m ms IH]; intros d k; simpl.
  - split; [auto|]. intros [H | (m & [] & _)]. assumption.
  - rewrite IH. split.
    + intros [H | (m' & Hm' & ->)].
      * unfold dict_keys in H. apply in_map_iff in H.
        destruct H as ([k' v] & Hk & Hin). simpl in Hk. subst k'.
        apply dict_set_in in Hin. destruct Hin as [[-> _] | Hin].
        -- right. exists m. auto.
        -- left. unfold dict_keys. apply in_map_iff. now exists (k, v).
      * right. exists m'. auto.
    + intros [H | (m' & [<- | Hm'] & ->)].
      * left. now apply dict_set_keeps_key.
      * left. apply (dict_get_keys _ _ _ (val m)). apply dict_get_set_same.
      * right. exists m'. auto.
Qed.

Lemma loop_values : forall (A V : Type) (key : A -> string) (val : A -> V)
  ms d k v,
  dict_get k (fold_left (fun acc m => dict_set (key m) (val m) acc) ms d)
  = Some v ->
  dict_get k d = Some v \/ exists m, In m ms /\ k = key m /\ v = val m.
Proof.
  intros A V key val. induction ms as [|m ms IH]; intros d k v H; simpl in H.
  - now left.
  - apply IH in H. destruct H as [H | (m' & Hm' & -> & ->)].
    + destruct (String.eqb k (key m)) eqn:E.
      * apply String.eqb_eq in E. subst k. rewrite dict_get_set_same in H.
        injection H as <-. right. exists m. split; [now left|auto].
      * rewrite dict_get_set_other in H by assumption. now left.
    + right. exists m'. split; [now right|auto].
Qed.

Lemma report_info_keys : forall x k,
  In k (dict_keys (report_info x))
  <-> In k report_keys
      \/ exists kv, In kv (get_key_metrics x)
                    /\ k = "metric_" ++ safe_key (fst kv).
Proof.
  intros x k. unfold report_info.
  rewrite (loop_keys _ _ (fun kv => "metric_" ++ safe_key (fst kv))
                         (fun kv => of_metric (snd kv))).
  reflexivity.
Qed.

Lemma metric_label_not_fixed : forall key,
  ~ In ("metric_" ++ key) report_keys.
Proof.
  intros key H. unfold report_keys in H.
  repeat (destruct H as [H | H]; [discriminate H|]). destruct H.
Qed.

Lemma report_cell : forall x k v,
  ~ In k report_keys ->
  dict_get k (report_info x) = Some v ->
  exists kv, In kv (get_key_metrics x)
             /\ k = "metric_" ++ safe_key (fst kv) /\ v = of_metric (snd kv).
Proof.
  intros x k v Hk H. unfold report_info in H.
  apply (loop_values _ _ (fun kv => "metric_" ++ safe_key (fst kv))
                         (fun kv => of_metric (snd kv))) in H.
  destruct H as [H | H]; [|assumption].
  exfalso. apply Hk. apply dict_get_keys in H. exact H.
Qed.

Lemma lower_char_safe : forall c,
  Ascii.eqb c " " = false -> is_safe_char (lower_char c) = true.
Proof. intro c. by_cases_on_char c. Qed.

Lemma safe_key_chars : forall key, forall_chars is_safe_char (safe_key key) = true.
Proof.
  intro key. unfold safe_key. induction key as [|c key IH]; simpl.
  - reflexivity.
  - rewrite IH, andb_true_r. destruct (Ascii.eqb c " ") eqn:E.
    + reflexivity.
    + now apply lower_char_safe.
Qed.

Lemma append_injective : forall p a b : string, p ++ a = p ++ b -> a = b.
Proof.
  induction p as [|c p IH]; intros a b H; simpl in H.
  - assumption.
  - injection H as H. now apply IH.
Qed.

Lemma dict_get_present : forall (V : Type) k (d : list (string * V)),
  In k (dict_keys d) -> exists v, dict_get k d = Some v.
Proof.
  intros V k d. unfold dict_keys. induction d as [|[k0 v0] d IH]; simpl; intro H.
  - destruct H.
  - destruct (String.eqb k k0) eqn:E; [eauto|].
    destruct H as [<- | H]; [|auto].
    now rewrite String.eqb_refl in E.
Qed.

(** The frame of reports has the four fixed columns and one column per
    normalised metric key found in any record, each label once; a
    normalised key has no blank and no upper-case letter.  The column of
    a metric lists the metric record by record, null for a record that
    has no metric with this normalised key; it is a numeric column when
    all metrics are floats. *)
Theorem report_metric_columns :
  forall (strptime : string -> string -> option value) d ds pd,
  let df := snd (process_report_data strptime
                   {| data_list := d :: ds; processed_data := pd |}) in
  NoDup (labels df)
  /\ (forall k,
        In k (labels df)
        <-> In k report_keys
            \/ exists x kv, In x (d :: ds) /\ In kv (get_key_metrics x)
                            /\ k = "metric_" ++ safe_key (fst kv))
  /\ (forall key, forall_chars is_safe_char (safe_key key) = true)
  /\ (forall x kv, In x (d :: ds) -> In kv (get_key_metrics x) ->
        exists s,
          column ("metric_" ++ safe_key (fst kv)) df = Some s
          /\ s_values s
             = map (fun y => cell ("metric_" ++ safe_key (fst kv)) (report_info y))
                   (d :: ds)
          /\ (forall y,
                (forall kv', In kv' (get_key_metrics y) ->
                             safe_key (fst kv') <> safe_key (fst kv)) ->
                cell ("metric_" ++ safe_key (fst kv)) (report_info y) = VNull)
          /\ ((forall y kv', In y (d :: ds) -> In kv' (get_key_metrics y) ->
                             exists q, snd kv' = MFloat q) ->
              s_dtype s = DNumber)).
Proof.
  intros strptime d ds pd df.
  assert (Hdf : df = convert_dates strptime
                       (frame_of_records (map report_info (d :: ds))))
    by reflexivity.
  assert (Hlabels : labels df = union_keys (map report_info (d :: ds)))
    by (rewrite Hdf, convert_dates_labels; apply labels_of_records).
  assert (Hin : forall k,
             In k (union_keys (map report_info (d :: ds)))
             <-> In k report_keys
                 \/ exists x kv, In x (d :: ds) /\ In kv (get_key_metrics x)
                                 /\ k = "metric_" ++ safe_key (fst kv)).
  { intro k. rewrite in_union_keys. split.
    - intros (r & Hr & Hk). apply in_map_iff in Hr.
      destruct Hr as (x & <- & Hx). apply report_info_keys in Hk.
      destruct Hk as [Hk | (kv & Hkv & ->)]; [now left|].
      right. exists x, kv. auto.
    - intros [Hk | (x & kv & Hx & Hkv & ->)].
      + exists (report_info d). split; [now left|].
        apply report_info_keys. now left.
      + exists (report_info x). split; [now apply in_map|].
        apply report_info_keys. right. exists kv. auto. }
  split; [rewrite Hlabels; apply union_keys_nodup|].
  split; [intro k; rewrite Hlabels; apply Hin|].
  split; [apply safe_key_chars|].
  intros x kv Hx Hkv.
  set (k := "metric_" ++ safe_key (fst kv)).
  assert (Hk : In k (union_keys (map report_info (d :: ds))))
    by (apply Hin; right; exists x, kv; auto).
  assert (Hcol : column k df
                 = Some {| s_dtype :=
                             infer_dtype (map (cell k) (map report_info (d :: ds)));
                           s_values := map (cell k) (map report_info (d :: ds)) |}).
  { rewrite Hdf, convert_dates_other by reflexivity.
    apply column_of_records. now apply existsb_eqb_in. }
  rewrite Hcol. eexists. split; [reflexivity|]. cbn [s_values s_dtype].
  split; [now rewrite map_map|]. split.
  - intros y Hy. unfold cell. rewrite dict_get_absent; [reflexivity|].
    intro Hyk. apply report_info_keys in Hyk.
    destruct Hyk as [Hyk | (kv' & Hkv' & Heq)].
    + exact (metric_label_not_fixed _ Hyk).
    + apply append_injective in Heq. apply (Hy kv' Hkv'). now symmetry.
  - intro Hfloat. unfold infer_dtype.
    assert (Hcells : forall y, In y (d :: ds) ->
               is_number_or_null (cell k (report_info y)) = true
               /\ (In k (dict_keys (report_info y)) ->
                   is_null (cell k (report_info y)) = false)).
    { intros y Hy. unfold cell.
      destruct (dict_get k (report_info y)) as [v|] eqn:E.
      - apply report_cell in E; [|apply metric_label_not_fixed].
        destruct E as (kv' & Hkv' & _ & ->).
        destruct (Hfloat y kv' Hy Hkv') as [q ->]. auto.
      - split; [reflexivity|]. intro Hp. apply dict_get_present in Hp.
        destruct Hp as [v Hp]. congruence. }
    replace (forallb is_null (map (cell k) (map report_info (d :: ds))))
      with false.
    + replace (forallb is_number_or_null
                 (map (cell k) (map report_info (d :: ds)))) with true;
        [reflexivity|].
      symmetry. apply forallb_forall. intros v Hv.
      apply in_map_iff in Hv. destruct Hv as (r & <- & Hr).
      apply in_map_iff in Hr. destruct Hr as (y & <- & Hy).
      now apply Hcells.
    + symmetry. apply not_true_is_false. intro Hall.
      rewrite forallb_forall in Hall.
      assert (Hnull : is_null (cell k (report_info x)) = true).
      { apply Hall. apply in_map. now apply in_map. }
      destruct (Hcells x Hx) as [_ Hnn].
      rewrite Hnn in Hnull; [discriminate|].
      apply report_info_keys. right. exists kv. auto.
Qed.

Lemma report_metric_columns_witness :
  exists s,
    column "metric_net_profit"
      (snd (process_report_data pandas_strptime
              (DataProcessor__init__
                 [Report {| title := Some "Q1"; report_date := None;
                            summary := None;
                            key_metrics := [("Net Profit", MFloat (12 # 1));
                                            ("Customer Count", MFloat (7 # 1))];
                            tables := [] |};
                  Report {| title := Some "Q2"; report_date := None;
                            summary := None;
                            key_metrics := [("Customer Count", MFloat (9 # 1))];
                            tables := [] |}])))
    = Some s
    /\ s_values s = [VNum (12 # 1); VNull]
    /\ s_dtype s = DNumber.
Proof.
  pose proof (report_metric_columns pandas_strptime
    (Report {| title := Some "Q1"; report_date := None; summary := None;
               key_metrics := [("Net Profit", MFloat (12 # 1));
                               ("Customer Count", MFloat (7 # 1))];
               tables := [] |})
    [Report {| title := Some "Q2"; report_date := None; summary := None;
               key_metrics := [("Customer Count", MFloat (9 # 1))];
               tables := [] |}]
    empty_frame) as (_ & _ & _ & H).
  destruct (H _ ("Net Profit", MFloat (12 # 1)) (or_introl eq_refl)
              (or_introl eq_refl)) as (s & Hs & Hv & _ & Hd).
  exists s. split; [exact Hs|]. split; [exact Hv|].
  apply Hd. intros y kv' Hy Hkv'.
  destruct Hy as [<- | [<- | []]]; simpl in Hkv';
    repeat (destruct Hkv' as [<- | Hkv']; [eexists; reflexivity|]);
    destruct Hkv'.
Defined.

(** ** Line items *)

Lemma price_columns_filter : forall cols,
  (forall c, In c cols -> c <> None) ->
  price_columns cols = Ok (filter is_price_label (column_names cols)).
Proof.
  induction cols as [|c cols IH]; intro H.
  - reflexivity.
  - destruct c as [col|]; [|exfalso; apply (H None); [now left|reflexivity]].
    cbn [price_columns column_names filter].
    rewrite IH by (intros c Hc; apply H; now right).
    cbn [bind].
    change (existsb (fun keyword => contains keyword (lower col)) keywords)
      with (is_price_label col).
    destruct (is_price_label col); reflexivity.
Qed.

Lemma filter_nil_existsb : forall (A : Type) (p : A -> bool) l,
  filter p l = [] <-> existsb p l = false.
Proof.
  intros A p l. induction l as [|x l IH]; simpl.
  - tauto.
  - destruct (p x); simpl; [split; discriminate|exact IH].
Qed.

Lemma table_items_rows : forall ts,
  headers_are_text ts ->
  table_items ts
  = Ok (flat_map (fun t => map (row_item (column_names (columns t))) (rows t))
                 (filter has_price_header ts)).
Proof.
  induction ts as [|t ts IH]; intro H.
  - reflexivity.
  - cbn [table_items].
    rewrite price_columns_filter
      by (intros c Hc; apply (H t c); [now left|assumption]).
    rewrite IH by (intros t' c Ht' Hc; apply (H t' c); [now right|assumption]).
    cbn [bind filter].
    destruct (filter is_price_label (column_names (columns t))) as [|p ps] eqn:E.
    + apply filter_nil_existsb in E. fold (has_price_header t) in E.
      now rewrite E.
    + assert (Hex : has_price_header t = true).
      { unfold has_price_header.
        destruct (existsb is_price_label (column_names (columns t))) eqn:E';
          [reflexivity|].
        apply filter_nil_existsb in E'. congruence. }
      rewrite Hex. reflexivity.
Qed.

Lemma dict_set_new : forall (V : Type) k (v : V) d,
  ~ In k (map fst d) -> dict_set k v d = (d ++ [(k, v)])%list.
Proof.
  intros V k v d. induction d as [|[k' v'] d IH]; intro H.
  - reflexivity.
  - cbn [dict_set app]. cbn [map fst] in H.
    destruct (String.eqb k k') eqn:E.
    + apply String.eqb_eq in E. subst k'. exfalso. apply H. now left.
    + rewrite IH; [reflexivity|]. intro Hin. apply H. now right.
Qed.

(** Assigning distinct keys in turn lists them in order. *)
Lemma assign_distinct : forall (V : Type) (f : string -> V) ks d,
  NoDup ks ->
  (forall k, In k ks -> ~ In k (map fst d)) ->
  fold_left (fun acc k => dict_set k (f k) acc) ks d
  = (d ++ map (fun k => (k, f k)) ks)%list.
Proof.
  intros V f. induction ks as [|k ks IH]; intros d Hnd Hfresh.
  - cbn [fold_left map]. now rewrite app_nil_r.
  - inversion Hnd as [|k0 ks0 Hk Hks]; subst.
    cbn [fold_left map]. rewrite dict_set_new by (apply Hfresh; now left).
    rewrite IH; [now rewrite <- app_assoc|assumption|].
    intros k' Hk' Hin. rewrite map_app, in_app_iff in Hin.
    destruct Hin as [Hin | [<- | []]].
    + apply (Hfresh k'); [now right|assumption].
    + exact (Hk Hk').
Qed.

Lemma occurs_once : forall (k : string) ks,
  NoDup ks -> In k ks ->
  List.length (filter (String.eqb k) ks) = 1%nat.
Proof.
  intros k ks Hnd. induction Hnd as [|k0 ks Hk Hks IH]; intro Hin.
  - destruct Hin.
  - cbn [filter]. destruct (String.eqb k k0) eqn:E.
    + apply String.eqb_eq in E. subst k0. cbn [List.length]. f_equal.
      destruct (filter (String.eqb k) ks) as [|x r] eqn:Ef; [reflexivity|].
      exfalso. apply Hk.
      assert (Hx : In x (filter (String.eqb k) ks)) by (rewrite Ef; now left).
      apply filter_In in Hx. destruct Hx as [Hx Hxe].
      apply String.eqb_eq in Hxe. now subst x.
    + destruct Hin as [-> | Hin]; [|now apply IH].
      rewrite String.eqb_refl in E. discriminate.
Qed.

Lemma map_reading : forall (A : Type) (f : string -> reading A) cols row,
  (forall c x, In (c, x) (combine cols row) -> f c = One x) ->
  List.length row = List.length cols ->
  map (fun c => (c, f c)) cols = combine cols (map One row).
Proof.
  intros A f. induction cols as [|c cols IH]; intros row Hf Hlen.
  - reflexivity.
  - destruct row as [|x row]; [discriminate|].
    cbn [map combine]. rewrite (Hf c x) by now left.
    f_equal. apply IH.
    + intros c' x' Hin. apply Hf. now right.
    + cbn [List.length] in Hlen. lia.
Qed.

(** Under a header of distinct cells, the item of a row maps each header
    cell to the cell below it, in the order of the header. *)
Lemma row_item_distinct : forall cols row,
  NoDup cols -> List.length row = List.length cols ->
  row_item cols row = combine cols (map One row).
Proof.
  intros cols row Hnd Hlen. unfold row_item.
  rewrite (assign_distinct _ (fun col => loc String.eqb col cols row))
    by (assumption || (intros k _ []) ).
  cbn [app]. apply map_reading; [|assumption].
  intros c x Hin.
  apply (loc_unique _ _ String.eqb String.eqb_refl); [assumption|].
  apply occurs_once; [assumption|]. eapply in_combine_l. exact Hin.
Qed.

(** The line items of an invoice are the body rows of the tables that
    have a price header, in the order of the tables and of their rows,
    one item per row and nothing for the other tables; when no page
    yields text there are no line items at all, whatever tables the
    document has.  Under a header of distinct cells the item of a row
    maps each header cell to the cell below it. *)
Theorem line_items_are_priced_rows : forall fs self pages,
  pdf_open fs self = Ok pages ->
  headers_are_text (all_tables pages) ->
  (exists d,
     extract_invoice_data fs self = Ok d
     /\ line_items d
        = match page_texts pages with
          | [] => []
          | _ :: _ =>
              flat_map
                (fun t => map (row_item (column_names (columns t))) (rows t))
                (filter has_price_header (all_tables pages))
          end)
  /\ (forall cols row,
        NoDup cols -> List.length row = List.length cols ->
        row_item cols row = combine cols (map One row)).
Proof.
  intros fs self pages Hopen Hh. split; [|exact row_item_distinct].
  destruct (page_texts pages) as [|text rest] eqn:Htext.
  - exists empty_invoice. split; [|reflexivity].
    unfold extract_invoice_data, extract_text.
    rewrite Hopen. cbn [bind]. now rewrite Htext.
  - destruct (extract_invoice_loaded _ _ _ _ _ Hopen Htext) as (amount & -> & _).
    rewrite (table_items_rows _ Hh).
    eexists. split; reflexivity.
Qed.

Lemma line_items_are_priced_rows_witness :
  exists d,
    extract_invoice_data
      (one_file "in.pdf"
         (PdfFile [{| page_text := Some "Acme";
                      page_tables :=
                        [[[Some "Item"; Some "Unit PRICE"];
                          [Some "Pen"; Some "2.00"];
                          [Some "Ink"; Some "5.00"]];
                         [[Some "Note"]; [Some "Thanks"]]] |}]))
      {| pdf_path := "in.pdf" |} = Ok d
    /\ line_items d
       = [[("Item", One (Some "Pen")); ("Unit PRICE", One (Some "2.00"))];
          [("Item", One (Some "Ink")); ("Unit PRICE", One (Some "5.00"))]].
Proof.
  destruct (line_items_are_priced_rows
              (one_file "in.pdf"
                 (PdfFile [{| page_text := Some "Acme";
                              page_tables :=
                                [[[Some "Item"; Some "Unit PRICE"];
                                  [Some "Pen"; Some "2.00"];
                                  [Some "Ink"; Some "5.00"]];
                                 [[Some "Note"]; [Some "Thanks"]]] |}]))
              {| pdf_path := "in.pdf" |} _ eq_refl) as [(d & Hd & Hitems) _].
  - intros t c Ht Hc.
    destruct Ht as [<- | [<- | []]]; simpl in Hc;
      repeat (destruct Hc as [<- | Hc]; [discriminate|]); destruct Hc.
  - exists d. split; [exact Hd|exact Hitems].
Defined.

(** A header cell that occurs twice is the key of both cells of the row. *)
Example row_item_repeated_header :
  row_item ["Item"; "Price"; "Price"] [Some "Pen"; Some "2.00"; Some "2.40"]
  = [("Item", One (Some "Pen"));
     ("Price", Many [Some "2.00"; Some "2.40"])].
Proof. reflexivity. Qed.

(** ** Choice of charts *)

Lemma report_labels : forall f d ds pd k,
  In k (labels (snd (process_report_data f
                       {| data_list := d :: ds; processed_data := pd |})))
  <-> In k report_keys
      \/ exists x kv, In x (d :: ds) /\ In kv (get_key_metrics x)
                      /\ k = "metric_" ++ safe_key (fst kv).
Proof.
  intros f d ds pd k.
  change (snd (process_report_data f
                 {| data_list := d :: ds; processed_data := pd |}))
    with (convert_dates f (frame_of_records (map report_info (d :: ds)))).
  rewrite convert_dates_labels, labels_of_records, in_union_keys. split.
  - intros (r & Hr & Hk). apply in_map_iff in Hr.
    destruct Hr as (x & <- & Hx). apply report_info_keys in Hk.
    destruct Hk as [Hk | (kv & Hkv & ->)]; [now left|].
    right. exists x, kv. auto.
  - intros [Hk | (x & kv & Hx & Hkv & ->)].
    + exists (report_info d). split; [now left|].
      apply report_info_keys. now left.
    + exists (report_info x). split; [now apply in_map|].
      apply report_info_keys. right. exists kv. auto.
Qed.

Lemma has_column_report : forall f d ds pd name,
  ~ In name report_keys -> startswith "metric_" name = false ->
  has_column name (snd (process_report_data f
                          {| data_list := d :: ds; processed_data := pd |}))
  = false.
Proof.
  intros f d ds pd name Hfixed Hstart. unfold has_column.
  apply not_true_is_false. intro H. apply existsb_eqb_in in H.
  apply (report_labels f d ds pd) in H.
  destruct H as [H | (x & kv & _ & _ & ->)]; [contradiction|].
  discriminate Hstart.
Qed.

Lemma metric_columns_report : forall f d ds pd,
  metric_columns (snd (process_report_data f
                         {| data_list := d :: ds; processed_data := pd |})) = []
  <-> forall x, In x (d :: ds) -> get_key_metrics x = [].
Proof.
  intros f d ds pd. unfold metric_columns.
  change (dict_keys (df_columns ?df)) with (labels df).
  rewrite filter_nil_existsb. split.
  - intros H x Hx. destruct (get_key_metrics x) as [|kv kvs] eqn:E;
      [reflexivity|exfalso].
    assert (Hin : In ("metric_" ++ safe_key (fst kv))
                     (labels (snd (process_report_data f
                        {| data_list := d :: ds; processed_data := pd |})))).
    { apply report_labels. right. exists x, kv. rewrite E. split; [assumption|].
      split; [now left|reflexivity]. }
    assert (Hex : existsb (startswith "metric_")
                    (labels (snd (process_report_data f
                       {| data_list := d :: ds; processed_data := pd |}))) = true).
    { apply existsb_exists. eexists. split; [exact Hin|reflexivity]. }
    congruence.
  - intro H. apply not_true_is_false. intro Hex.
    apply existsb_exists in Hex. destruct Hex as (k & Hk & Hstart).
    apply report_labels in Hk.
    destruct Hk as [Hk | (x & kv & Hx & Hkv & _)].
    + unfold report_keys in Hk.
      repeat (destruct Hk as [<- | Hk]; [discriminate Hstart|]). destruct Hk.
    + rewrite (H x Hx) in Hkv. destruct Hkv.
Qed.

(** For the frame of a batch of invoices, the invoice summary chart is
    always chosen and the report summary chart never; for the frame of a
    batch of reports it is the other way round, the report chart being
    chosen exactly when some record has a key metric.  The anomaly chart
    is added exactly when the insights list an anomaly.  A chart that is
    not chosen is not drawn. *)
Theorem charts_follow_document_kind :
  forall (strptime : string -> string -> option value)
         (draw : chart -> result unit) d ds pd anomalies output_dir prefix,
  let processor := {| data_list := d :: ds; processed_data := pd |} in
  let anomaly_files :=
    match anomalies with
    | Some (_ :: _) => [path_join output_dir (prefix ++ "_anomalies.png")]
    | _ => []
    end in
  (draw AnomalyChart = Ok tt \/ anomaly_files = []) ->
  (draw InvoiceSummary = Ok tt ->
   save_visualizations draw
     {| v_data := snd (process_invoice_data strptime processor);
        v_anomalies := anomalies |} output_dir prefix
   = Ok (path_join output_dir (prefix ++ "_invoice_summary.png")
         :: anomaly_files))
  /\ (draw ReportSummary = Ok tt ->
      save_visualizations draw
        {| v_data := snd (process_report_data strptime processor);
           v_anomalies := anomalies |} output_dir prefix
      = Ok ((if forallb (fun x => match get_key_metrics x with
                                  | [] => true
                                  | _ :: _ => false
                                  end) (d :: ds)
             then []
             else [path_join output_dir (prefix ++ "_report_summary.png")])
            ++ anomaly_files)%list).
Proof.
  intros strptime draw d ds pd anomalies output_dir prefix processor
         anomaly_files Hanom.
  assert (Htail : forall saved,
             match anomalies with
             | Some (_ :: _) =>
                 _ <- draw AnomalyChart ;;
                 Ok (saved ++ [path_join output_dir (prefix ++ "_anomalies.png")])%list
             | _ => Ok saved
             end = Ok (saved ++ anomaly_files)%list).
  { intro saved. subst anomaly_files.
    destruct anomalies as [[|a l]|]; try (now rewrite app_nil_r).
    destruct Hanom as [-> | Hnil]; [reflexivity|discriminate]. }
  split.
  - intro Hdraw. unfold save_visualizations. cbn [v_data v_anomalies].
    subst processor.
    destruct (process_invoice_shape strptime d ds pd)
      as (vendors & totals & counts & ->).
    match goal with
    | |- context [has_column "vendor" ?df] =>
        assert (Hsel : has_column "vendor" df = true /\ metric_columns df = [])
          by (destruct (negb (isna_all
                {| s_dtype := DObject;
                   s_values := map of_string (map get_invoice_number (d :: ds)) |}));
              split; reflexivity)
    end.
    destruct Hsel as [Hv Hm].
    rewrite Hv, Hm. cbn [orb bind]. rewrite Hdraw. cbn [bind].
    apply Htail.
  - intro Hdraw. unfold save_visualizations. cbn [v_data v_anomalies].
    subst processor.
    rewrite !has_column_report;
      try reflexivity;
      try (unfold report_keys; intro H;
           repeat (destruct H as [H | H]; [discriminate H|]); destruct H).
    cbn [orb bind].
    destruct (forallb _ (d :: ds)) eqn:Hall.
    + assert (Hm : metric_columns
                     (snd (process_report_data strptime
                             {| data_list := d :: ds; processed_data := pd |}))
                   = []).
      { apply metric_columns_report. intros x Hx.
        rewrite forallb_forall in Hall. specialize (Hall x Hx).
        destruct (get_key_metrics x); [reflexivity|discriminate]. }
      rewrite Hm. apply Htail.
    + destruct (metric_columns
                  (snd (process_report_data strptime
                          {| data_list := d :: ds; processed_data := pd |})))
        as [|m ms] eqn:Hm.
      * exfalso. rewrite metric_columns_report in Hm.
        assert (Htrue : forallb (fun x => match get_key_metrics x with
                                         | [] => true
                                         | _ :: _ => false
                                         end) (d :: ds) = true).
        { apply forallb_forall. intros x Hx. now rewrite (Hm x Hx). }
        congruence.
      * rewrite Hdraw. cbn [bind]. apply Htail.
Qed.

Lemma charts_follow_document_kind_witness :
  save_visualizations
    (fun c => match c with ReportSummary => Raise ValueError | _ => Ok tt end)
    {| v_data :=
         snd (process_invoice_data pandas_strptime
                {| data_list := [invoice_of (Some "A-1") None None];
                   processed_data := empty_frame |});
       v_anomalies := Some [] |} "out/charts" "invoice"
  = Ok ["out/charts/invoice_invoice_summary.png"].
Proof.
  apply (proj1 (charts_follow_document_kind pandas_strptime
                  (fun c => match c with
                            | ReportSummary => Raise ValueError
                            | _ => Ok tt
                            end)
                  (invoice_of (Some "A-1") None None) [] empty_frame
                  (Some []) "out/charts" "invoice" (or_introl eq_refl))).
  reflexivity.
Defined.

(** ** The batch *)

Lemma collect_records : forall fs extract pdf_files,
  collect fs extract pdf_files
  = DataProcessor__init__ (extracted fs extract pdf_files).
Proof.
  intros fs extract pdf_files. unfold collect, extracted, DataProcessor__init__.
  assert (H : forall l,
             fold_left
               (fun processor pdf_file =>
                  match try_file fs extract pdf_file with
                  | Ok data => add_data processor data
                  | Raise _ => processor
                  end) pdf_files
               {| data_list := l; processed_data := empty_frame |}
             = {| data_list :=
                    (l ++ flat_map
                            (fun pdf_file =>
                               match try_file fs extract pdf_file with
                               | Ok data => [data]
                               | Raise _ => []
                               end) pdf_files)%list;
                  processed_data := empty_frame |}).
  { induction pdf_files as [|f files IH]; intro l; simpl.
    - now rewrite app_nil_r.
    - destruct (try_file fs extract f) as [data|e].
      + change (add_data {| data_list := l; processed_data := empty_frame |} data)
          with {| data_list := (l ++ [data])%list; processed_data := empty_frame |}.
        rewrite IH, <- app_assoc. reflexivity.
      + apply IH. }
  exact (H []).
Qed.

Lemma export_all_after_tabulation : forall processor df,
  processed_data processor = df -> empty df = false ->
  export_all processor
  = Ok {| to_csv := df; to_excel := df; to_json := data_list processor |}.
Proof.
  intros processor df <- Hne.
  unfold export_all, save_to_csv, save_to_excel, export_as_json.
  rewrite Hne. reflexivity.
Qed.

(** A batch never stops at a file and never fails at its exports: the
    files that do not load or do not extract are skipped, the others give
    the records in the order of the files; without any record the batch
    returns early, and otherwise the two tabular exports write the frame
    of these records and the JSON export the records themselves. *)
Theorem batch_skips_failures_and_exports :
  forall (strptime : string -> string -> option value) fs pdf_files,
  process_invoices_exports strptime fs pdf_files
  = Ok match extracted fs invoice_record pdf_files with
       | [] => None
       | records =>
           Some {| to_csv := snd (process_invoice_data strptime
                                    (DataProcessor__init__ records));
                   to_excel := snd (process_invoice_data strptime
                                      (DataProcessor__init__ records));
                   to_json := records |}
       end
  /\ process_reports_exports strptime fs pdf_files
     = Ok match extracted fs report_record pdf_files with
          | [] => None
          | records =>
              Some {| to_csv := snd (process_report_data strptime
                                       (DataProcessor__init__ records));
                      to_excel := snd (process_report_data strptime
                                         (DataProcessor__init__ records));
                      to_json := records |}
          end.
Proof.
  intros strptime fs pdf_files. split.
  - unfold process_invoices_exports.
    destruct pdf_files as [|f files]; [reflexivity|].
    rewrite collect_records.
    destruct (extracted fs invoice_record (f :: files)) as [|r rs] eqn:E;
      [reflexivity|].
    pose proof (process_invoice_state strptime (DataProcessor__init__ (r :: rs))) as Hst.
    pose proof (processed_invoices_not_empty strptime
                  (DataProcessor__init__ (r :: rs))) as Hne.
    destruct (process_invoice_data strptime (DataProcessor__init__ (r :: rs)))
      as [processor df].
    cbn [fst snd] in *.
    assert (Hd : empty df = false) by (apply Hne; discriminate).
    rewrite Hd, Hst by discriminate.
    rewrite (export_all_after_tabulation _ df) by (reflexivity || assumption).
    reflexivity.
  - unfold process_reports_exports.
    destruct pdf_files as [|f files]; [reflexivity|].
    rewrite collect_records.
    destruct (extracted fs report_record (f :: files)) as [|r rs] eqn:E;
      [reflexivity|].
    pose proof (process_report_state strptime (DataProcessor__init__ (r :: rs))) as Hst.
    pose proof (processed_reports_not_empty strptime
                  (DataProcessor__init__ (r :: rs))) as Hne.
    destruct (process_report_data strptime (DataProcessor__init__ (r :: rs)))
      as [processor df].
    cbn [fst snd] in *.
    assert (Hd : empty df = false) by (apply Hne; discriminate).
    rewrite Hd, Hst by discriminate.
    rewrite (export_all_after_tabulation _ df) by (reflexivity || assumption).
    reflexivity.
Qed.

(** One unreadable file and one missing file among three: the batch
    keeps the one good record. *)
Example batch_of_three :
  exists exports,
    process_invoices_exports pandas_strptime
      (fun p => if String.eqb p "a.pdf" then Some (PdfFile [text_page "Acme"])
                else if String.eqb p "b.pdf" then Some OtherFile
                else None)
      ["b.pdf"; "a.pdf"; "c.pdf"]
    = Ok (Some exports)
    /\ List.length (to_json exports) = 1%nat.
Proof. eexists. split; [vm_compute; reflexivity|reflexivity]. Qed.

(** ** A later assignment wins *)

Lemma loop_get_other : forall (A V : Type) (key : A -> string) (val : A -> V)
  ms d k,
  (forall m, In m ms -> key m <> k) ->
  dict_get k (fold_left (fun acc m => dict_set (key m) (val m) acc) ms d)
  = dict_get k d.
Proof.
  intros A V key val. induction ms as [|m ms IH]; intros d k H; simpl.
  - reflexivity.
  - rewrite IH by (intros m' Hm'; apply H; now right).
    apply dict_get_set_other. apply String.eqb_neq.
    intro Heq. apply (H m); [now left|now symmetry].
Qed.

Lemma loop_get_last : forall (A V : Type) (key : A -> string) (val : A -> V)
  ms1 m ms2 d,
  (forall m', In m' ms2 -> key m' <> key m) ->
  dict_get (key m)
    (fold_left (fun acc m => dict_set (key m) (val m) acc) (ms1 ++ m :: ms2) d)
  = Some (val m).
Proof.
  intros A V key val ms1 m ms2 d H.
  rewrite fold_left_app. cbn [fold_left].
  rewrite loop_get_other by assumption. apply dict_get_set_same.
Qed.

(** When several metrics of one document come under the same key, the
    last one is kept.  In the text of a report: of the matches whose
    labels strip to the same key, the value of the last is stored.  In
    the row of the frame: of the metrics of a record whose keys normalise
    to the same column name, the value of the last is the cell. *)
Theorem last_metric_wins :
  (forall text ms1 label v ms2 q,
     finditer metric_pattern text = (ms1 ++ (label, v) :: ms2)%list ->
     (forall m, In m ms2 -> strip (fst m) <> strip label) ->
     float (remove_char "," v) = Some q ->
     dict_get (strip label) (extract_key_metrics text) = Some (MFloat q))
  /\ (forall x ms1 kv ms2,
        get_key_metrics x = (ms1 ++ kv :: ms2)%list ->
        (forall kv', In kv' ms2 -> safe_key (fst kv') <> safe_key (fst kv)) ->
        cell ("metric_" ++ safe_key (fst kv)) (report_info x)
        = of_metric (snd kv)).
Proof.
  split.
  - intros text ms1 label v ms2 q Hiter Hlater Hq.
    unfold extract_key_metrics. rewrite Hiter, fold_left_app. cbn [fold_left].
    rewrite store_metric_other by assumption.
    unfold store_metric at 1. cbn [fst snd]. rewrite Hq.
    apply dict_get_set_same.
  - intros x ms1 kv ms2 Hms Hlater. unfold cell, report_info. rewrite Hms.
    rewrite (loop_get_last _ _ (fun kv => "metric_" ++ safe_key (fst kv))
                               (fun kv => of_metric (snd kv)));
      [reflexivity|].
    intros kv' Hkv' Heq. apply append_injective in Heq.
    exact (Hlater kv' Hkv' Heq).
Qed.

Lemma last_metric_wins_witness :
  dict_get "Revenue"
    (extract_key_metrics ("Revenue: 10" ++ NL ++ "Costs: 4" ++ NL ++ "Revenue: 20"))
  = Some (MFloat (20 # 1))
  /\ cell "metric_net_profit"
       (report_info
          (Report {| title := None; report_date := None; summary := None;
                     key_metrics := [("Net Profit", MFloat (1 # 1));
                                     ("net profit", MFloat (2 # 1))];
                     tables := [] |}))
     = VNum (2 # 1).
Proof.
  split.
  - apply (proj1 last_metric_wins
             ("Revenue: 10" ++ NL ++ "Costs: 4" ++ NL ++ "Revenue: 20")
             [("Revenue", "10"); (NL ++ "Costs", "4")] (NL ++ "Revenue") "20" []).
    + reflexivity.
    + intros m [].
    + reflexivity.
  - apply (proj2 last_metric_wins
             (Report {| title := None; report_date := None; summary := None;
                        key_metrics := [("Net Profit", MFloat (1 # 1));
                                        ("net profit", MFloat (2 # 1))];
                        tables := [] |})
             [("Net Profit", MFloat (1 # 1))] ("net profit", MFloat (2 # 1)) []).
    + reflexivity.
    + intros kv' [].
Defined.

(** ** The change from one month to the next *)

Lemma pct_change_from_split : forall l1 prev p1 q1 p2 q2 l2,
  pct_change_from prev (l1 ++ (p1, q1) :: (p2, q2) :: l2)
  = (pct_change_from prev (l1 ++ [(p1, q1)])
     ++ (p2, fadd (fdiv q2 q1) (-1)) :: pct_change_from q2 l2)%list.
Proof.
  induction l1 as [|[p q] l1 IH]; intros prev p1 q1 p2 q2 l2.
  - reflexivity.
  - cbn [app pct_change_from]. now rewrite IH.
Qed.

Lemma pct_change_split : forall l1 p1 q1 p2 q2 l2,
  pct_change (l1 ++ (p1, q1) :: (p2, q2) :: l2)
  = (pct_change (l1 ++ [(p1, q1)])
     ++ (p2, fadd (fdiv q2 q1) (-1)) :: pct_change_from q2 l2)%list.
Proof.
  intros [|[p q] l1] p1 q1 p2 q2 l2.
  - reflexivity.
  - cbn [app pct_change]. now rewrite pct_change_from_split.
Qed.

Lemma pct_change_keys : forall l, map fst (pct_change l) = map fst l.
Proof.
  intros [|[p q] l]; [reflexivity|].
  cbn [pct_change map fst]. now rewrite pct_change_from_keys.
Qed.

Lemma sorted_key_once : forall l1 e l2 k,
  StronglySorted earlier (l1 ++ e :: l2) ->
  In k (map fst l1) \/ In k (map fst l2) -> k <> fst e.
Proof.
  induction l1 as [|a l1 IH]; intros e l2 k Hs Hin.
  - cbn [app] in Hs. apply StronglySorted_inv in Hs. destruct Hs as [_ Hall].
    destruct Hin as [[]|Hin]. apply in_map_iff in Hin.
    destruct Hin as (x & <- & Hx). rewrite Forall_forall in Hall.
    specialize (Hall x Hx). unfold earlier in Hall. intro Heq.
    rewrite Heq in Hall. lia.
  - cbn [app] in Hs. apply StronglySorted_inv in Hs. destruct Hs as [Hs Hall].
    destruct Hin as [[<-|Hin]|Hin].
    + rewrite Forall_forall in Hall.
      assert (He : In e (l1 ++ e :: l2)) by (apply in_or_app; right; now left).
      specialize (Hall e He).
      unfold earlier in Hall. intro Heq. rewrite Heq in Hall. lia.
    + apply (IH e l2 k Hs). now left.
    + apply (IH e l2 k Hs). now right.
Qed.

(** In the monthly changes that [analyze_invoices] reports for amounts of
    a numeric dtype, the entry of a
    month is taken against the month before it in the totals: it is
    [(q2 / q1 - 1) * 100] when the earlier total [q1] is not zero; when
    [q1] is zero the entry is infinite, with the sign of [q2], and when
    both totals are zero the month has no entry at all. *)
Theorem monthly_change_against_previous_month :
  forall self dates amounts l1 p1 q1 p2 q2 l2,
  empty (data self) = false ->
  column "date" (data self)
  = Some {| s_dtype := DDatetime; s_values := dates |} ->
  column "total_amount" (data self) = Some amounts ->
  is_number_dtype amounts = true ->
  groupby_sum (map to_period dates) (s_values amounts)
  = (l1 ++ (p1, q1) :: (p2, q2) :: l2)%list ->
  exists self' ins changes,
    analyze_invoices self = Ok (self', ins)
    /\ dict_get "monthly_change" ins = Some (ISeries changes)
    /\ (~ (q1 == 0)%Q ->
        exists c, In (p2, Fin c) changes /\ (c == (q2 / q1 - 1) * 100)%Q)
    /\ ((q1 == 0)%Q -> (0 < q2)%Q -> In (p2, PInf) changes)
    /\ ((q1 == 0)%Q -> (q2 < 0)%Q -> In (p2, NInf) changes)
    /\ ((q1 == 0)%Q -> (q2 == 0)%Q -> ~ In p2 (map fst changes)).
Proof.
  intros self dates amounts l1 p1 q1 p2 q2 l2 Hne Hdate Hamt Hnum Hgroups.
  pose proof (groupby_sum_sorted (map to_period dates) (s_values amounts))
    as Hsorted.
  rewrite (analyze_invoices_numeric self amounts Hne Hamt Hnum).
  destruct (time_series_dated self dates amounts Hdate Hamt) as [self' Hts].
  rewrite Hts. rewrite Hgroups in *.
  assert (Hlen : (1 <? List.length (l1 ++ (p1, q1) :: (p2, q2) :: l2))%nat = true).
  { apply Nat.ltb_lt. rewrite length_app. cbn [List.length]. lia. }
  eexists. eexists. eexists.
  split; [reflexivity|].
  split; [rewrite monthly_insights_change, Hlen; reflexivity|].
  rewrite pct_change_split, map_app. cbn [map fst snd].
  unfold dropna. rewrite filter_app. cbn [filter snd].
  assert (Hin : forall x, is_nan x = false ->
            In (p2, x)
              (filter (fun kv : Period * fnum => negb (is_nan (snd kv)))
                 (map (fun kv => (fst kv, fscale (snd kv) 100))
                    (pct_change (l1 ++ [(p1, q1)])))
               ++ (if negb (is_nan x) then
                     (p2, x)
                     :: filter (fun kv : Period * fnum => negb (is_nan (snd kv)))
                          (map (fun kv => (fst kv, fscale (snd kv) 100))
                             (pct_change_from q2 l2))
                   else
                     filter (fun kv : Period * fnum => negb (is_nan (snd kv)))
                       (map (fun kv => (fst kv, fscale (snd kv) 100))
                          (pct_change_from q2 l2))))%list).
  { intros x Hx. rewrite Hx. apply in_or_app. right. now left. }
  split; [|split; [|split]].
  - intro Hq1. unfold fdiv.
    destruct (Qeq_bool q1 0) eqn:E; [apply Qeq_bool_eq in E; contradiction|].
    cbn [fadd fscale]. eexists. split; [apply Hin; reflexivity|].
    rewrite !Qred_correct. unfold Qminus. reflexivity.
  - intros Hq1 Hq2. unfold fdiv. rewrite (Qeq_eq_bool _ _ Hq1).
    destruct (Qeq_bool q2 0) eqn:E.
    { apply Qeq_bool_eq in E. rewrite E in Hq2. discriminate Hq2. }
    assert (Hle : Qle_bool 0 q2 = true) by (apply Qle_bool_iff; lra).
    rewrite Hle. cbn [fadd fscale]. apply Hin. reflexivity.
  - intros Hq1 Hq2. unfold fdiv. rewrite (Qeq_eq_bool _ _ Hq1).
    destruct (Qeq_bool q2 0) eqn:E.
    { apply Qeq_bool_eq in E. rewrite E in Hq2. discriminate Hq2. }
    destruct (Qle_bool 0 q2) eqn:Hle; [apply Qle_bool_iff in Hle; lra|].
    cbn [fadd fscale]. apply Hin. reflexivity.
  - intros Hq1 Hq2. unfold fdiv.
    rewrite (Qeq_eq_bool _ _ Hq1), (Qeq_eq_bool _ _ Hq2).
    cbn [fadd fscale is_nan negb]. intro Hk.
    rewrite map_app in Hk. apply in_app_or in Hk.
    assert (Hsub : forall l : list (Period * fnum),
              In p2 (map fst (filter (fun kv : Period * fnum =>
                                        negb (is_nan (snd kv)))
                                (map (fun kv => (fst kv, fscale (snd kv) 100)) l))) ->
              In p2 (map fst l)).
    { intros l H. apply in_map_iff in H. destruct H as (e & <- & He).
      apply filter_In in He. destruct He as [He _].
      apply in_map_iff in He. destruct He as (e' & <- & He').
      cbn [fst]. now apply in_map. }
    replace (l1 ++ (p1, q1) :: (p2, q2) :: l2)%list
      with ((l1 ++ [(p1, q1)]) ++ (p2, q2) :: l2)%list in Hsorted
      by (rewrite <- app_assoc; reflexivity).
    apply (sorted_key_once _ _ _ p2 Hsorted); [|reflexivity].
    destruct Hk as [Hk|Hk]; apply Hsub in Hk.
    + left. now rewrite pct_change_keys in Hk.
    + right. now rewrite pct_change_from_keys in Hk.
Qed.

Lemma monthly_change_against_previous_month_witness :
  exists self' ins changes,
    analyze_invoices
      (DataAnalyzer__init__
         (snd (process_invoice_data pandas_strptime
                 (DataProcessor__init__
                    [invoice_of (Some "A-1") (Some "01/15/2023") (Some (0 # 1));
                     invoice_of (Some "A-2") (Some "02/03/2023") (Some (50 # 1));
                     invoice_of (Some "A-3") (Some "03/09/2023") (Some (75 # 1))]))))
    = Ok (self', ins)
    /\ dict_get "monthly_change" ins = Some (ISeries changes)
    /\ In ({| p_year := 2023; p_month := 2 |}, PInf) changes
    /\ exists c, In ({| p_year := 2023; p_month := 3 |}, Fin c) changes
                 /\ (c == 50 # 1)%Q.
Proof.
  destruct (monthly_change_against_previous_month
              (DataAnalyzer__init__
                 (snd (process_invoice_data pandas_strptime
                         (DataProcessor__init__
                            [invoice_of (Some "A-1") (Some "01/15/2023")
                                        (Some (0 # 1));
                             invoice_of (Some "A-2") (Some "02/03/2023")
                                        (Some (50 # 1));
                             invoice_of (Some "A-3") (Some "03/09/2023")
                                        (Some (75 # 1))]))))
              [VDate {| year := 2023; month := 1; day := 15 |};
               VDate {| year := 2023; month := 2; day := 3 |};
               VDate {| year := 2023; month := 3; day := 9 |}]
              {| s_dtype := DNumber;
                 s_values := [VNum (0 # 1); VNum (50 # 1); VNum (75 # 1)] |}
              [] {| p_year := 2023; p_month := 1 |} (0 # 1)
              {| p_year := 2023; p_month := 2 |} (50 # 1)
              [({| p_year := 2023; p_month := 3 |}, 75 # 1)]
              eq_refl eq_refl eq_refl eq_refl eq_refl)
    as (self' & ins & changes & Hrun & Hget & _ & Hinf & _ & _).
  destruct (monthly_change_against_previous_month
              (DataAnalyzer__init__
                 (snd (process_invoice_data pandas_strptime
                         (DataProcessor__init__
                            [invoice_of (Some "A-1") (Some "01/15/2023")
                                        (Some (0 # 1));
                             invoice_of (Some "A-2") (Some "02/03/2023")
                                        (Some (50 # 1));
                             invoice_of (Some "A-3") (Some "03/09/2023")
                                        (Some (75 # 1))]))))
              [VDate {| year := 2023; month := 1; day := 15 |};
               VDate {| year := 2023; month := 2; day := 3 |};
               VDate {| year := 2023; month := 3; day := 9 |}]
              {| s_dtype := DNumber;
                 s_values := [VNum (0 # 1); VNum (50 # 1); VNum (75 # 1)] |}
              [({| p_year := 2023; p_month := 1 |}, 0 # 1)]
              {| p_year := 2023; p_month := 2 |} (50 # 1)
              {| p_year := 2023; p_month := 3 |} (75 # 1) []
              eq_refl eq_refl eq_refl eq_refl eq_refl)
    as (self'' & ins' & changes' & Hrun' & Hget' & Hfin & _).
  rewrite Hrun in Hrun'. injection Hrun' as _ <-.
  rewrite Hget in Hget'. injection Hget' as <-.
  exists self', ins, changes. split; [exact Hrun|]. split; [exact Hget|].
  split.
  - apply Hinf; [reflexivity|reflexivity].
  - destruct Hfin as (c & Hc & Hval); [discriminate|].
    exists c. split; [exact Hc|]. rewrite Hval. reflexivity.
Defined.
